(** * Invoice processor: validation, mismatch resolution, parsing, mail ingestion

    A shallow embedding of the services under [backend/services]:
    - [validation_service.py]  (class [ValidationService]),
    - [mismatch_resolution.py] (class [MismatchResolutionService]),
    - [pdf_parser.py]          (the persistence half of [parse_invoice]),
    - [email_polling.py]       (class [EmailPollingService]).

    The services talk to a Supabase database (tables [invoices],
    [invoice_lines], [buying_price_records], [audit_log]), to a storage
    bucket and to the Microsoft Graph mail API.  All of them are modelled as
    one explicit [World] that is threaded through a state-and-exception
    monad: a Python coroutine that returns [a] or raises becomes a function
    [World -> World * outcome A].  Tables are lists of rows in storage
    order; a dict-shaped row is a record whose nullable columns are
    [option]s.  Python [float]s are IEEE binary64 numbers ([PrimFloat]). *)

From Stdlib Require Import List String Ascii ZArith Bool Arith Lia.
From Stdlib Require Import Floats.PrimFloat.
Import ListNotations.

Set Implicit Arguments.
Set Warnings "-inexact-float".
Local Open Scope string_scope.
Local Open Scope list_scope.

(** ** Python values *)

(** Truthiness, as used by [if x:] and [x or y]. *)
Definition truthy_str (s : option string) : bool :=
  match s with
  | Some EmptyString => false
  | Some _ => true
  | None => false
  end.

(** [bool(x)] for a float: only [0.0] and [-0.0] are falsy. *)
Definition truthy_float (x : option float) : bool :=
  match x with
  | Some f => negb (PrimFloat.eqb f PrimFloat.zero)
  | None => false
  end.

Definition truthy_list {A} (l : list A) : bool :=
  match l with [] => false | _ :: _ => true end.

(** [a or b] on nullable strings. *)
Definition or_str (a b : option string) : option string :=
  if truthy_str a then a else b.

Definition opt_str_eqb (a : option string) (b : string) : bool :=
  match a with Some s => String.eqb s b | None => false end.

(** ** Data model *)

Definition uuid := nat.
Definition timestamp := Z.

(** A [datetime.date], as its proleptic ordinal ([date.toordinal()]): dates
    compare as their ordinals do. *)
Definition date := Z.

Inductive InvoiceStatus :=
  received | parsed | validated | needs_review | disputed.

Inductive LineStatus :=
  line_match | mismatch | created_price_record | unknown | no_match.

Inductive PriceStatus := active | need_review.

Inductive PriceSource := manual | learned_from_invoice.

Definition InvoiceStatus_eqb (a b : InvoiceStatus) : bool :=
  match a, b with
  | received, received | parsed, parsed | validated, validated
  | needs_review, needs_review | disputed, disputed => true
  | _, _ => false
  end.

Definition LineStatus_eqb (a b : LineStatus) : bool :=
  match a, b with
  | line_match, line_match | mismatch, mismatch
  | created_price_record, created_price_record
  | unknown, unknown | no_match, no_match => true
  | _, _ => false
  end.

Definition is_status (s : PriceStatus) (o : option PriceStatus) : bool :=
  match o, s with
  | Some active, active | Some need_review, need_review => true
  | _, _ => false
  end.

(** Row of table [invoices]. *)
Record Invoice := mkInvoice {
  inv_id : uuid;
  inv_source_message_id : option string;
  inv_storage_bucket : option string;
  inv_storage_path : option string;
  inv_status : InvoiceStatus;
  inv_supplier_name : option string;
  inv_supplier : option string;      (* the key read by [accept_price] *)
  inv_invoice_number : option string;
  inv_invoice_date : option string;
  inv_currency : option string;
  inv_subtotal_amount : option float;
  inv_tax_amount : option float;
  inv_frieght_amount : option float;
  inv_total_amount : option float;
  inv_parsed_at : option timestamp;
  inv_validated_at : option timestamp;
  inv_updated_at : option timestamp
}.

(** Row of table [invoice_lines]. *)
Record InvoiceLine := mkLine {
  line_id : uuid;
  line_invoice_id : uuid;
  line_no : option Z;
  line_sku : option string;
  line_product_name : option string;
  line_description : option string;
  line_status : option LineStatus;
  line_quantity : option float;
  line_unit : option string;
  line_unit_price : option float;
  line_discount : option float;
  line_discount_total : option float;
  line_net_amount : option float;
  line_vat_percentage : option float;
  line_total : option float;
  line_currency : option string;
  line_updated_at : option timestamp
}.

(** Row of table [buying_price_records].  The validation service writes the
    columns [supplier_name .. note]; [accept_price] writes [product_id],
    [supplier_id], [price] and the two timestamps.  A column a writer does
    not mention is null. *)
Record PriceRecord := mkPrice {
  pr_id : uuid;
  pr_supplier_name : option string;
  pr_sku : option string;
  pr_product_name : option string;
  pr_currency : option string;
  pr_unit_price : option float;
  pr_status : option PriceStatus;
  pr_valid_from : option string;
  pr_valid_to : option string;
  pr_source : option PriceSource;
  pr_note : option string;
  pr_product_id : option uuid;
  pr_supplier_id : option uuid;
  pr_price : option float;
  pr_created_at : option timestamp;
  pr_updated_at : option timestamp
}.

(** One element of [summary_parts] in [_generate_dispute_summary]. *)
Inductive SummaryPart :=
| SummaryHeader (invoice_id : uuid)
| SummaryAffected (lines : nat)
| SummaryLine (sku : option string) (unit_price quantity line_total : option float).

(** The [details] payloads written to [audit_log], one constructor per call
    site; an f-string is kept as the values it interpolates. *)
Inductive AuditDetails :=
| ReasonNoLines
| ReasonMissingKey (invoice_line_id : uuid)
| ReasonMissingKeyOrPrice (invoice_line_id : uuid)
| PriceRecordCreated (supplier_name sku product_name : option string)
                     (unit_price : option float) (currency : option string)
| PriceMismatch (expected got diff : float) (sku product_name : option string)
                (buying_price_record_id : uuid)
| ValidationSummary (status : InvoiceStatus)
                    (total_lines match_count mismatch_count
                     created_price_record_count no_match_count : nat)
| PriceAcceptance (new_price : float) (invoice_line_id : uuid) (reason : string)
| DisputeDetails (reason : string) (summary : list SummaryPart)
| InvoiceParsed (line_count : nat) (model : string) (warnings : list string)
| Message (text : list string).

Record AuditEntry := mkAudit {
  au_id : option uuid;
  au_entity_type : string;
  au_entity_id : string + uuid;
  au_action : string;
  au_details : AuditDetails;
  au_performed_by : option uuid;
  au_performed_at : option timestamp
}.

(** ** The mail provider and the [pdfs] bucket *)

Record Attachment := mkAttachment {
  att_id : string;
  att_name : option string;
  att_contentType : option string;
  att_size : option Z;
  att_content : list Byte.byte;
  att_storage_path : option string   (* the key [get_email_attachments] adds *)
}.

Record MailMessage := mkMessage {
  msg_id : string;
  msg_isRead : bool;
  msg_hasAttachments : option bool;
  msg_receivedDateTime : Z;
  msg_attachments : list Attachment
}.

Record StoredFile := mkFile {
  file_name : string;
  file_content : list Byte.byte
}.

(** ** The world *)

Record World := mkWorld {
  invoices : list Invoice;
  invoice_lines : list InvoiceLine;
  buying_price_records : list PriceRecord;
  audit_log : list AuditEntry;
  uuid_supply : nat;            (* the next value of [uuid4()] *)
  clock : Z;                    (* the next value of [datetime.now()] *)
  mailbox : list MailMessage;
  pdfs_bucket : list StoredFile;
  processed_message_ids : list string
}.

Definition with_invoices (f : list Invoice -> list Invoice) (w : World) : World :=
  mkWorld (f (invoices w)) (invoice_lines w) (buying_price_records w)
          (audit_log w) (uuid_supply w) (clock w) (mailbox w) (pdfs_bucket w)
          (processed_message_ids w).

Definition with_invoice_lines (f : list InvoiceLine -> list InvoiceLine)
           (w : World) : World :=
  mkWorld (invoices w) (f (invoice_lines w)) (buying_price_records w)
          (audit_log w) (uuid_supply w) (clock w) (mailbox w) (pdfs_bucket w)
          (processed_message_ids w).

Definition with_buying_price_records (f : list PriceRecord -> list PriceRecord)
           (w : World) : World :=
  mkWorld (invoices w) (invoice_lines w) (f (buying_price_records w))
          (audit_log w) (uuid_supply w) (clock w) (mailbox w) (pdfs_bucket w)
          (processed_message_ids w).

Definition with_audit_log (f : list AuditEntry -> list AuditEntry)
           (w : World) : World :=
  mkWorld (invoices w) (invoice_lines w) (buying_price_records w)
          (f (audit_log w)) (uuid_supply w) (clock w) (mailbox w) (pdfs_bucket w)
          (processed_message_ids w).

Definition with_mailbox (f : list MailMessage -> list MailMessage)
           (w : World) : World :=
  mkWorld (invoices w) (invoice_lines w) (buying_price_records w)
          (audit_log w) (uuid_supply w) (clock w) (f (mailbox w)) (pdfs_bucket w)
          (processed_message_ids w).

Definition with_pdfs_bucket (f : list StoredFile -> list StoredFile)
           (w : World) : World :=
  mkWorld (invoices w) (invoice_lines w) (buying_price_records w)
          (audit_log w) (uuid_supply w) (clock w) (mailbox w) (f (pdfs_bucket w))
          (processed_message_ids w).

Definition with_processed_message_ids (f : list string -> list string)
           (w : World) : World :=
  mkWorld (invoices w) (invoice_lines w) (buying_price_records w)
          (audit_log w) (uuid_supply w) (clock w) (mailbox w) (pdfs_bucket w)
          (f (processed_message_ids w)).

(** ** State and exceptions *)

Inductive exn :=
| ValueError (what : string)
| TypeError (what : string)
| AttributeError (what : string)
| HTTPStatusError (what : string)
| StorageError (what : string).

Inductive outcome (A : Type) :=
| Ok (a : A)
| Raise (e : exn).
Arguments Raise {A} e.

Definition M (A : Type) : Type := World -> World * outcome A.

Definition ret {A} (a : A) : M A := fun w => (w, Ok a).

Definition raise {A} (e : exn) : M A := fun w => (w, Raise e).

Definition bind {A B} (c : M A) (k : A -> M B) : M B :=
  fun w =>
    match c w with
    | (w', Ok a) => k a w'
    | (w', Raise e) => (w', Raise e)
    end.

Notation "x <- c ;; k" := (bind c (fun x => k))
  (at level 61, c at next level, right associativity).
Notation "c ;;; k" := (bind c (fun _ => k))
  (at level 61, right associativity).

(** [try: c  except Exception: handler] *)
Definition try_except {A} (c : M A) (handler : exn -> M A) : M A :=
  fun w =>
    match c w with
    | (w', Ok a) => (w', Ok a)
    | (w', Raise e) => handler e w'
    end.

Definition get_world : M World := fun w => (w, Ok w).

Definition modify (f : World -> World) : M unit := fun w => (f w, Ok tt).

(** [uuid4()] *)
Definition uuid4 : M uuid :=
  fun w =>
    (mkWorld (invoices w) (invoice_lines w) (buying_price_records w)
             (audit_log w) (S (uuid_supply w)) (clock w) (mailbox w)
             (pdfs_bucket w) (processed_message_ids w),
     Ok (uuid_supply w)).

(** [datetime.now()]: every reading is later than the one before. *)
Definition now : M timestamp :=
  fun w =>
    (mkWorld (invoices w) (invoice_lines w) (buying_price_records w)
             (audit_log w) (uuid_supply w) (clock w + 1)%Z (mailbox w)
             (pdfs_bucket w) (processed_message_ids w),
     Ok (clock w)).

(** [for x in xs: body x], the loop state [acc] threaded through. *)
Fixpoint for_each {A S} (xs : list A) (body : S -> A -> M S) (acc : S) : M S :=
  match xs with
  | [] => ret acc
  | x :: xs' => acc' <- body acc x ;; for_each xs' body acc'
  end.

(** ** Storage queries shared by the services *)

Definition opt_string_eqb (a b : option string) : bool :=
  match a, b with
  | Some x, Some y => String.eqb x y
  | _, _ => false
  end.

(** [.order("line_no")]: ascending, nulls last, rows with equal keys in
    storage order. *)
Definition line_no_leb (a b : InvoiceLine) : bool :=
  match line_no a, line_no b with
  | Some x, Some y => (x <=? y)%Z
  | Some _, None => true
  | None, Some _ => false
  | None, None => true
  end.

Fixpoint insert_by_line_no (x : InvoiceLine) (l : list InvoiceLine)
  : list InvoiceLine :=
  match l with
  | [] => [x]
  | y :: l' => if line_no_leb x y then x :: l else y :: insert_by_line_no x l'
  end.

Fixpoint order_by_line_no (l : list InvoiceLine) : list InvoiceLine :=
  match l with
  | [] => []
  | x :: l' => insert_by_line_no x (order_by_line_no l')
  end.

(** [invoice_lines.update({"status": status}).eq("id", line_id)] *)
Definition set_line_status (st : LineStatus) (l : InvoiceLine) : InvoiceLine :=
  mkLine (line_id l) (line_invoice_id l) (line_no l) (line_sku l)
         (line_product_name l) (line_description l) (Some st)
         (line_quantity l) (line_unit l) (line_unit_price l) (line_discount l)
         (line_discount_total l) (line_net_amount l) (line_vat_percentage l)
         (line_total l) (line_currency l) (line_updated_at l).

Definition update_line_status (id : uuid) (st : LineStatus)
           (rows : list InvoiceLine) : list InvoiceLine :=
  map (fun l => if Nat.eqb (line_id l) id then set_line_status st l else l) rows.

(** [invoices.update({"status": status[, "validated_at": t]}).eq("id", id)] *)
Definition set_invoice_status (st : InvoiceStatus) (validated_at : option timestamp)
           (i : Invoice) : Invoice :=
  mkInvoice (inv_id i) (inv_source_message_id i) (inv_storage_bucket i)
            (inv_storage_path i) st (inv_supplier_name i) (inv_supplier i)
            (inv_invoice_number i) (inv_invoice_date i) (inv_currency i)
            (inv_subtotal_amount i) (inv_tax_amount i) (inv_frieght_amount i)
            (inv_total_amount i) (inv_parsed_at i)
            (match validated_at with
             | Some t => Some t
             | None => inv_validated_at i
             end)
            (inv_updated_at i).

Definition update_invoice_status (id : uuid) (st : InvoiceStatus)
           (validated_at : option timestamp) (rows : list Invoice) : list Invoice :=
  map (fun i => if Nat.eqb (inv_id i) id
                then set_invoice_status st validated_at i else i) rows.

(** * validation_service.py *)

Section ValidationService.

(** [datetime.fromisoformat(s.replace("Z", "+00:00")).date()], [None] when
    it raises: the standard library's parser is taken as given. *)
Variable parse_iso_date : string -> option date.

(** [date.isoformat()] *)
Variable date_isoformat : date -> string.

(** [str.lower()] *)
Variable str_lower : string -> string.

(** What [_validate_invoice_line] returns. *)
Record LineResult := mkLineResult {
  lr_status : LineStatus;
  lr_buying_price_record_id : option uuid
}.

(** What [validate_invoice] returns. *)
Record ValidationResult := mkValidationResult {
  vr_invoice_id : uuid;
  vr_status : InvoiceStatus;
  vr_total_lines : nat;
  vr_match_count : nat;
  vr_mismatch_count : nat;
  vr_created_price_record_count : nat;
  vr_no_match_count : nat;
  vr_validated_at : option timestamp
}.

(** [_log_audit]: the insert is wrapped in a [try] that only warns. *)
Definition _log_audit (entity_type : string) (entity_id : uuid)
           (action : string) (details : AuditDetails) : M unit :=
  id <- uuid4 ;;
  t <- now ;;
  modify (with_audit_log (fun log =>
    log ++ [mkAudit (Some id) entity_type (inr entity_id) action details
                    None (Some t)])).

Definition _update_invoice_status (invoice_id : uuid) (status : InvoiceStatus)
           (validated_at : option timestamp) : M unit :=
  modify (with_invoices (update_invoice_status invoice_id status validated_at)).

Definition _update_invoice_line_status (invoice_line_id : uuid)
           (status : LineStatus) : M unit :=
  modify (with_invoice_lines (update_line_status invoice_line_id status)).

(** *** The validity filter (lines 280-302, repeated at 339-361) *)

(** The value [valid_from] / [valid_to] holds after the "parse dates if
    they're strings" step: a non-empty string is parsed, and becomes
    [None] when it does not parse; [None] and the empty string (falsy) are
    left as they are. *)
Inductive bound :=
| BNone
| BDate (d : date)
| BStr (s : string).

Definition parse_bound (v : option string) : bound :=
  match v with
  | None => BNone
  | Some s =>
      if truthy_str (Some s)
      then match parse_iso_date s with
           | Some d => BDate d
           | None => BNone
           end
      else BStr s
  end.

(** [valid_from is None or valid_from <= invoice_date]; comparing a string
    with a date raises [TypeError] ([None] here). *)
Definition from_ok (vf : bound) (invoice_date : date) : option bool :=
  match vf with
  | BNone => Some true
  | BDate d => Some (d <=? invoice_date)%Z
  | BStr _ => None
  end.

(** [valid_to is None or invoice_date <= valid_to] *)
Definition to_ok (vt : bound) (invoice_date : date) : option bool :=
  match vt with
  | BNone => Some true
  | BDate d => Some (invoice_date <=? d)%Z
  | BStr _ => None
  end.

Definition candidate_valid (c : PriceRecord) (invoice_date : date)
  : option bool :=
  let valid_from := parse_bound (pr_valid_from c) in
  let valid_to := parse_bound (pr_valid_to c) in
  match from_ok valid_from invoice_date with
  | None => None
  | Some false => Some false
  | Some true => to_ok valid_to invoice_date
  end.

(** The loop building [valid_candidates]; [None] when an iteration raised. *)
Fixpoint valid_candidates (candidates : list PriceRecord) (invoice_date : date)
  : option (list PriceRecord) :=
  match candidates with
  | [] => Some []
  | c :: rest =>
      match candidate_valid c invoice_date with
      | None => None
      | Some keep =>
          match valid_candidates rest invoice_date with
          | None => None
          | Some r => Some (if keep then c :: r else r)
          end
      end
  end.

(** [if invoice_date: candidates = valid_candidates], then
    [candidates[0] if candidates else None]; the enclosing [except]
    turns a raise into [None]. *)
Definition first_valid (candidates : list PriceRecord)
           (invoice_date : option date) : option PriceRecord :=
  match invoice_date with
  | Some d =>
      match valid_candidates candidates d with
      | Some cs => hd_error cs
      | None => None
      end
  | None => hd_error candidates
  end.

Definition _find_buying_price_by_sku (table : list PriceRecord)
           (supplier_name sku : option string) (invoice_date : option date)
  : option PriceRecord :=
  if negb (truthy_str supplier_name) || negb (truthy_str sku) then None
  else
    let data :=
      filter (fun r => opt_string_eqb (pr_supplier_name r) supplier_name
                       && opt_string_eqb (pr_sku r) sku
                       && is_status active (pr_status r)) table in
    if negb (truthy_list data) then None
    else first_valid data invoice_date.

Definition _find_buying_price_by_product_name (table : list PriceRecord)
           (supplier_name product_name : option string)
           (invoice_date : option date) : option PriceRecord :=
  if negb (truthy_str supplier_name) || negb (truthy_str product_name) then None
  else
    let data :=
      filter (fun r => opt_string_eqb (pr_supplier_name r) supplier_name
                       && is_status active (pr_status r)) table in
    if negb (truthy_list data) then None
    else
      let candidates :=
        filter (fun r => truthy_str (pr_product_name r)
                         && opt_string_eqb
                              (option_map str_lower (pr_product_name r))
                              (option_map str_lower product_name)) data in
      first_valid candidates invoice_date.

Definition _create_buying_price_record
           (supplier_name sku product_name currency : option string)
           (unit_price : option float) (valid_from : option date) : M uuid :=
  w <- get_world ;;
  let existing :=
    if truthy_str sku
    then filter (fun r => opt_string_eqb (pr_supplier_name r) supplier_name
                          && opt_string_eqb (pr_sku r) sku
                          && is_status need_review (pr_status r))
                (buying_price_records w)
    else [] in
  match existing with
  | r :: _ => ret (pr_id r)
  | [] =>
      id <- uuid4 ;;
      let record :=
        mkPrice id supplier_name sku product_name currency unit_price
                (Some need_review) (option_map date_isoformat valid_from) None
                (Some learned_from_invoice) None None None None None None in
      modify (with_buying_price_records (fun t => t ++ [record])) ;;;
      ret id
  end.

(** [float(buying_price_record["unit_price"])] *)
Definition float_of_column (v : option float) : M float :=
  match v with
  | Some f => ret f
  | None => raise (TypeError "float() argument must be a string or a real number")
  end.

Definition _validate_invoice_line (line : InvoiceLine) (invoice_id : uuid)
           (supplier_name : option string) (invoice_date : option date)
           (invoice_currency : option string) : M LineResult :=
  let lid := line_id line in
  let sku := line_sku line in
  let product_name := line_product_name line in
  let unit_price := line_unit_price line in
  let line_currency := or_str (line_currency line) invoice_currency in
  let with_record (buying_price_record : option PriceRecord) : M LineResult :=
    match buying_price_record with
    | None =>
        if truthy_str supplier_name
           && (truthy_str sku || truthy_str product_name)
           && truthy_str line_currency && truthy_float unit_price
        then
          new_price_record_id <-
            _create_buying_price_record supplier_name sku product_name
                                        line_currency unit_price invoice_date ;;
          _update_invoice_line_status lid created_price_record ;;;
          _log_audit "buying_price_record" new_price_record_id
                     "PRICE_RECORD_CREATED"
                     (PriceRecordCreated supplier_name sku product_name
                                         unit_price line_currency) ;;;
          ret (mkLineResult created_price_record (Some new_price_record_id))
        else
          _update_invoice_line_status lid unknown ;;;
          _log_audit "invoice" invoice_id "MARKED_NEED_REVIEW"
                     (ReasonMissingKeyOrPrice lid) ;;;
          ret (mkLineResult unknown None)
    | Some record =>
        expected_unit_price <- float_of_column (pr_unit_price record) ;;
        match (if truthy_float unit_price then unit_price else None) with
        | None =>
            _update_invoice_line_status lid unknown ;;;
            ret (mkLineResult unknown None)
        | Some actual_unit_price =>
            let diff_unit_price :=
              PrimFloat.sub actual_unit_price expected_unit_price in
            if PrimFloat.ltb (PrimFloat.abs diff_unit_price) 0.0001%float
            then
              _update_invoice_line_status lid line_match ;;;
              ret (mkLineResult line_match None)
            else
              _update_invoice_line_status lid mismatch ;;;
              _log_audit "invoice_line" lid "PRICE_MISMATCH"
                         (PriceMismatch expected_unit_price actual_unit_price
                                        diff_unit_price sku product_name
                                        (pr_id record)) ;;;
              ret (mkLineResult mismatch None)
        end
    end in
  if truthy_str sku then
    w <- get_world ;;
    with_record (_find_buying_price_by_sku (buying_price_records w)
                                           supplier_name sku invoice_date)
  else if truthy_str product_name then
    w <- get_world ;;
    with_record (_find_buying_price_by_product_name (buying_price_records w)
                   supplier_name product_name invoice_date)
  else
    _update_invoice_line_status lid unknown ;;;
    _log_audit "invoice" invoice_id "MARKED_NEED_REVIEW"
               (ReasonMissingKey lid) ;;;
    ret (mkLineResult unknown None).

(** The four counters of the validation loop. *)
Record Counts := mkCounts {
  match_count : nat;
  mismatch_count : nat;
  created_price_record_count : nat;
  no_match_count : nat
}.

(** The [if status == ...: ... elif ...] chain of the loop body. *)
Definition count_status (c : Counts) (status : LineStatus) : Counts :=
  match status with
  | line_match =>
      mkCounts (match_count c + 1) (mismatch_count c)
               (created_price_record_count c) (no_match_count c)
  | mismatch =>
      mkCounts (match_count c) (mismatch_count c + 1)
               (created_price_record_count c) (no_match_count c)
  | created_price_record =>
      mkCounts (match_count c) (mismatch_count c)
               (created_price_record_count c + 1) (no_match_count c)
  | unknown =>
      mkCounts (match_count c) (mismatch_count c)
               (created_price_record_count c) (no_match_count c + 1)
  | no_match => c
  end.

(** [mismatch_count > 0 or created_price_record_count > 0 or
    no_match_count > 0] *)
Definition overall_status (c : Counts) : InvoiceStatus :=
  if (0 <? mismatch_count c)%nat || (0 <? created_price_record_count c)%nat
     || (0 <? no_match_count c)%nat
  then needs_review
  else validated.

(** [invoice_date_str] to [invoice_date] (lines 68-74). *)
Definition invoice_date_of (invoice : Invoice) : option date :=
  match inv_invoice_date invoice with
  | Some s => if truthy_str (Some s) then parse_iso_date s else None
  | None => None
  end.

Definition validate_invoice (invoice_id : uuid) : M ValidationResult :=
  w <- get_world ;;
  match filter (fun i => Nat.eqb (inv_id i) invoice_id) (invoices w) with
  | [] => raise (ValueError "Invoice not found")
  | invoice :: _ =>
      let invoice_lines :=
        order_by_line_no
          (filter (fun l => Nat.eqb (line_invoice_id l) invoice_id)
                  (invoice_lines w)) in
      if negb (truthy_list invoice_lines) then
        _update_invoice_status invoice_id needs_review None ;;;
        _log_audit "invoice" invoice_id "MARKED_NEED_REVIEW" ReasonNoLines ;;;
        ret (mkValidationResult invoice_id needs_review 0 0 0 0 0 None)
      else
        let supplier_name := inv_supplier_name invoice in
        let invoice_date := invoice_date_of invoice in
        let invoice_currency := inv_currency invoice in
        counts <-
          for_each invoice_lines
            (fun c line =>
               validation_result <-
                 _validate_invoice_line line invoice_id supplier_name
                                        invoice_date invoice_currency ;;
               ret (count_status c (lr_status validation_result)))
            (mkCounts 0 0 0 0) ;;
        let overall := overall_status counts in
        validated_at <-
          (match overall with
           | validated => t <- now ;; ret (Some t)
           | _ => ret None
           end) ;;
        _update_invoice_status invoice_id overall validated_at ;;;
        _log_audit "invoice" invoice_id "INVOICE_VALIDATED"
                   (ValidationSummary overall (List.length invoice_lines)
                      (match_count counts) (mismatch_count counts)
                      (created_price_record_count counts)
                      (no_match_count counts)) ;;;
        ret (mkValidationResult invoice_id overall (List.length invoice_lines)
               (match_count counts) (mismatch_count counts)
               (created_price_record_count counts) (no_match_count counts)
               validated_at)
  end.

End ValidationService.

(** * mismatch_resolution.py *)

Section MismatchResolutionService.

Variable parse_iso_date : string -> option date.
Variable date_isoformat : date -> string.
Variable str_lower : string -> string.

(** [datetime.isoformat()] *)
Variable datetime_isoformat : timestamp -> string.

(** What [accept_price] returns. *)
Record AcceptResult := mkAcceptResult {
  ar_new_price : float;
  ar_product_id : uuid;
  ar_valid_from : string
}.

(** What [dispute_invoice] returns. *)
Record DisputeResult := mkDisputeResult {
  dr_invoice_id : uuid;
  dr_status : InvoiceStatus;
  dr_dispute_summary : list SummaryPart;
  dr_disputed_at : timestamp
}.

(** [update({"valid_to": ..., "updated_at": ...})] on one row. *)
Definition close_price_record (valid_to : string) (updated_at : timestamp)
           (r : PriceRecord) : PriceRecord :=
  mkPrice (pr_id r) (pr_supplier_name r) (pr_sku r) (pr_product_name r)
          (pr_currency r) (pr_unit_price r) (pr_status r) (pr_valid_from r)
          (Some valid_to) (pr_source r) (pr_note r) (pr_product_id r)
          (pr_supplier_id r) (pr_price r) (pr_created_at r) (Some updated_at).

(** The rows [_close_old_price_record] selects:
    [.eq("product_id", ..).eq("supplier_id", ..).is_("valid_to", "null")]. *)
Definition is_open_for (product_id supplier_id : uuid) (r : PriceRecord) : bool :=
  match pr_product_id r, pr_supplier_id r, pr_valid_to r with
  | Some p, Some s, None => Nat.eqb p product_id && Nat.eqb s supplier_id
  | _, _, _ => false
  end.

Definition _close_old_price_record (product_id supplier_id : uuid)
           (valid_from : timestamp) : M unit :=
  w <- get_world ;;
  let data := filter (is_open_for product_id supplier_id)
                     (buying_price_records w) in
  for_each data
    (fun _ record =>
       t <- now ;;
       modify (with_buying_price_records
                 (map (fun r => if Nat.eqb (pr_id r) (pr_id record)
                                then close_price_record
                                       (datetime_isoformat valid_from) t r
                                else r))))
    tt.

(** Both audit writers of this service insert rows with the columns
    [action_type], [table_name], [record_id], [action_details], [user_id]
    and [created_at]; they are stored in the fields [au_action],
    [au_entity_type], [au_entity_id], [au_details], [au_performed_by] and
    [au_performed_at]. *)
Definition _log_price_acceptance (invoice_line_id product_id : uuid)
           (new_price : float) (reason : string) (user_id : option uuid)
  : M unit :=
  id <- uuid4 ;;
  t <- now ;;
  modify (with_audit_log (fun log =>
    log ++ [mkAudit (Some id) "buying_price_records" (inr product_id)
                    "price_acceptance"
                    (PriceAcceptance new_price invoice_line_id reason)
                    user_id (Some t)])).

Definition _log_dispute (invoice_id : uuid) (reason : string)
           (summary : list SummaryPart) (user_id : option uuid) : M unit :=
  id <- uuid4 ;;
  t <- now ;;
  modify (with_audit_log (fun log =>
    log ++ [mkAudit (Some id) "invoices" (inr invoice_id) "invoice_dispute"
                    (DisputeDetails reason summary) user_id (Some t)])).

(** [validation_service.name(...)] for a [name] that class
    [ValidationService] (validation_service.py 14-487) does not define and
    its [__init__] does not set: the attribute lookup raises, and nothing
    is called.  [A] is the type the caller uses the result at. *)
Definition missing_method {A : Type} (name : string) : M A :=
  raise (AttributeError
           (String.append "'ValidationService' object has no attribute '"
                          (String.append name "'"))).

(** The class defines neither [get_supplier_id_by_name] nor
    [find_product_by_sku], the two methods [accept_price] calls on
    [validation_service] (lines 38 and 42); the code after them uses
    [supplier_id] as an identity ([str(supplier_id)]) and
    [product_mapping] as a row with a [product_id]. *)
Definition accept_price (invoice_line_id : uuid) (new_price : float)
           (reason : string) (valid_from : timestamp) (user_id : option uuid)
  : M AcceptResult :=
  w <- get_world ;;
  match filter (fun l => Nat.eqb (line_id l) invoice_line_id)
               (invoice_lines w) with
  | [] => raise (ValueError "Invoice line not found")
  | line_data :: _ =>
      (* [select("*, invoices(*)")]: the parent row, embedded *)
      match filter (fun i => Nat.eqb (inv_id i) (line_invoice_id line_data))
                   (invoices w) with
      | [] => raise (AttributeError "'NoneType' object has no attribute 'get'")
      | invoice_data :: _ =>
          let sku := line_sku line_data in
          let supplier_name := inv_supplier invoice_data in
          supplier_id <- missing_method "get_supplier_id_by_name" ;;
          match supplier_id : option uuid with
          | None => raise (ValueError "Supplier not found")
          | Some supplier_id =>
              product_mapping <- missing_method "find_product_by_sku" ;;
              match product_mapping : option uuid with
              | None => raise (ValueError "Product mapping for SKU not found")
              | Some product_id =>
                  _close_old_price_record product_id supplier_id valid_from ;;;
                  id <- uuid4 ;;
                  created_at <- now ;;
                  updated_at <- now ;;
                  let new_price_record :=
                    mkPrice id None None None None None None
                            (Some (datetime_isoformat valid_from)) None
                            None None (Some product_id) (Some supplier_id)
                            (Some new_price) (Some created_at)
                            (Some updated_at) in
                  modify (with_buying_price_records
                            (fun t => t ++ [new_price_record])) ;;;
                  _log_price_acceptance invoice_line_id product_id new_price
                                        reason user_id ;;;
                  let invoice_id := line_invoice_id line_data in
                  validate_invoice parse_iso_date date_isoformat str_lower
                                   invoice_id ;;;
                  ret (mkAcceptResult new_price product_id
                                      (datetime_isoformat valid_from))
              end
          end
      end
  end.

(** [invoices.update({"status": "disputed", "updated_at": t})] on one row. *)
Definition set_invoice_disputed (t : timestamp) (i : Invoice) : Invoice :=
  mkInvoice (inv_id i) (inv_source_message_id i) (inv_storage_bucket i)
            (inv_storage_path i) disputed (inv_supplier_name i)
            (inv_supplier i) (inv_invoice_number i) (inv_invoice_date i)
            (inv_currency i) (inv_subtotal_amount i) (inv_tax_amount i)
            (inv_frieght_amount i) (inv_total_amount i) (inv_parsed_at i)
            (inv_validated_at i) (Some t).

(** [invoice_lines.update({"status": "no_match", "updated_at": t})] on one
    row. *)
Definition set_line_disputed (t : timestamp) (l : InvoiceLine) : InvoiceLine :=
  mkLine (line_id l) (line_invoice_id l) (line_no l) (line_sku l)
         (line_product_name l) (line_description l) (Some no_match)
         (line_quantity l) (line_unit l) (line_unit_price l) (line_discount l)
         (line_discount_total l) (line_net_amount l) (line_vat_percentage l)
         (line_total l) (line_currency l) (Some t).

Definition _generate_dispute_summary (invoice_id : uuid)
           (line_ids : option (list uuid)) : M (list SummaryPart) :=
  w <- get_world ;;
  let of_invoice :=
    filter (fun l => Nat.eqb (line_invoice_id l) invoice_id)
           (invoice_lines w) in
  let lines :=
    match line_ids with
    | Some (id :: ids) =>
        filter (fun l => existsb (Nat.eqb (line_id l)) (id :: ids)) of_invoice
    | _ => of_invoice
    end in
  ret (SummaryHeader invoice_id
       :: SummaryAffected (List.length lines)
       :: map (fun l => SummaryLine (line_sku l) (line_unit_price l)
                                    (line_quantity l) (line_total l)) lines).

Definition dispute_invoice (invoice_id : uuid) (reason : string)
           (line_ids : option (list uuid)) (user_id : option uuid)
  : M DisputeResult :=
  t <- now ;;
  modify (with_invoices
            (map (fun i => if Nat.eqb (inv_id i) invoice_id
                           then set_invoice_disputed t i else i))) ;;;
  (match line_ids with
   | Some (id :: ids) =>
       for_each (id :: ids)
         (fun _ lid =>
            t <- now ;;
            modify (with_invoice_lines
                      (map (fun l => if Nat.eqb (line_id l) lid
                                     then set_line_disputed t l else l))))
         tt
   | _ => ret tt
   end) ;;;
  dispute_summary <- _generate_dispute_summary invoice_id line_ids ;;
  _log_dispute invoice_id reason dispute_summary user_id ;;;
  disputed_at <- now ;;
  ret (mkDisputeResult invoice_id disputed dispute_summary disputed_at).

End MismatchResolutionService.

(** ** Python string methods *)

Fixpoint starts_with (p s : string) : bool :=
  match p, s with
  | EmptyString, _ => true
  | String a p', String b s' => Ascii.eqb a b && starts_with p' s'
  | String _ _, EmptyString => false
  end.

(** [s.endswith(suffix)] *)
Definition ends_with (suffix s : string) : bool :=
  let n := String.length s in
  let k := String.length suffix in
  Nat.leb k n && String.eqb (substring (n - k) k s) suffix.

(** [s.replace(old, new)] for a non-empty [old]: occurrences are replaced
    from the left and do not overlap ([skip] counts the characters of an
    occurrence still to drop). *)
Fixpoint replace_from (old new s : string) (skip : nat) : string :=
  match s with
  | EmptyString => EmptyString
  | String c s' =>
      match skip with
      | S k => replace_from old new s' k
      | O =>
          if starts_with old s
          then String.append new (replace_from old new s' (String.length old - 1))
          else String c (replace_from old new s' 0)
      end
  end.

Definition str_replace (old new s : string) : string :=
  replace_from old new s 0.

(** The characters [str.strip()] removes from ASCII text. *)
Definition is_space (c : ascii) : bool :=
  let n := nat_of_ascii c in
  (Nat.eqb n 32) || (Nat.leb 9 n && Nat.leb n 13) || (Nat.leb 28 n && Nat.leb n 31).

Fixpoint lstrip (s : string) : string :=
  match s with
  | EmptyString => EmptyString
  | String c s' => if is_space c then lstrip s' else s
  end.

Fixpoint rstrip (s : string) : string :=
  match s with
  | EmptyString => EmptyString
  | String c s' =>
      match rstrip s' with
      | EmptyString => if is_space c then EmptyString else String c EmptyString
      | r => String c r
      end
  end.

(** [s.strip()] *)
Definition str_strip (s : string) : string := rstrip (lstrip s).

(** * pdf_parser.py: persisting an extraction *)

(** A value of the extraction JSON in a numeric position. *)
Inductive json_value :=
| JNull
| JNumber (f : float)
| JString (s : string)
| JBool (b : bool)
| JOther.                     (* a list or an object *)

(** One element of [lines] in the extraction JSON.  The text fields follow
    the schema the extraction is asked for (a string or null); the numeric
    fields are whatever the model answered. *)
Record RawLine := mkRawLine {
  raw_line_no : option Z;
  raw_sku : option string;
  raw_product_name : option string;
  raw_description : option string;
  raw_quantity : json_value;
  raw_unit : option string;
  raw_unit_price : json_value;
  raw_discount : json_value;
  raw_discount_total : json_value;
  raw_net_amount : json_value;
  raw_vat_percentage : json_value;
  raw_line_total : json_value;
  raw_currency : option string
}.

(** A line after [_clean_invoice_lines]: every numeric field is a float or
    [None]. *)
Record CleanLine := mkCleanLine {
  cl_line_no : option Z;
  cl_sku : option string;
  cl_product_name : option string;
  cl_description : option string;
  cl_quantity : option float;
  cl_unit : option string;
  cl_unit_price : option float;
  cl_discount : option float;
  cl_discount_total : option float;
  cl_net_amount : option float;
  cl_vat_percentage : option float;
  cl_line_total : option float;
  cl_currency : option string
}.

(** The extraction JSON. *)
Record ExtractedInvoice := mkExtracted {
  ex_supplier_name : option string;
  ex_invoice_number : option string;
  ex_invoice_date : option string;
  ex_currency : option string;
  ex_subtotal_amount : option float;
  ex_tax_amount : option float;
  ex_frieght_amount : option float;
  ex_total_amount : option float;
  ex_lines : list RawLine;
  ex_warnings : list string
}.

Section PDFParserService.

(** [float(s)] on a string, [None] when it raises [ValueError]. *)
Variable py_float : string -> option float.

(** [_parse_date] (lines 35-81): built from [re.match] and
    [datetime.strptime]; taken as given. *)
Variable _parse_date : string -> option string.

(** Lines 380-404 of [parse_invoice]: downloading the PDF, extracting logo
    and text, and the extraction call, as one collaborator that answers
    with the extraction JSON or raises. *)
Variable extract_invoice : Invoice -> outcome ExtractedInvoice.

(** Whether the storage service accepts the header update, and a line
    insert (a rejected request raises). *)
Variable header_update_ok : uuid -> ExtractedInvoice -> bool.
Variable line_insert_ok : InvoiceLine -> bool.

(** [self.default_model] *)
Variable default_model : string.

(** What [parse_invoice] returns; its ["status"] is always ["parsed"]. *)
Record ParseResult := mkParseResult {
  ps_status : InvoiceStatus;
  ps_lines_parsed : nat;
  ps_model : string;
  ps_warnings : list string
}.

(** [abs(x) if x is not None and x < 0 else x] *)
Definition abs_if_negative (x : option float) : option float :=
  match x with
  | Some f => if PrimFloat.ltb f PrimFloat.zero then Some (PrimFloat.abs f) else Some f
  | None => None
  end.

Definition truthy_json (v : json_value) : bool :=
  match v with
  | JNull => false
  | JNumber f => truthy_float (Some f)
  | JString s => truthy_str (Some s)
  | JBool b => b
  | JOther => true
  end.

Definition float_of_bool (b : bool) : float :=
  if b then PrimFloat.one else PrimFloat.zero.

(** The [vat_percentage] step (lines 541-556). *)
Definition clean_vat_percentage (v : json_value) : option float :=
  if truthy_json v then
    match v with
    | JString s => py_float (str_strip (str_replace "%" EmptyString s))
    | JNumber f => Some f
    | JBool b => Some (float_of_bool b)
    | _ => None
    end
  else None.

(** The euro sign, as its three UTF-8 bytes. *)
Definition euro : string :=
  String "226"%char (String "130"%char (String "172"%char EmptyString)).

(** The chain of [replace] calls of line 567. *)
Definition strip_currency (value : string) : string :=
  str_replace "EUR" EmptyString
    (str_replace "DKK" EmptyString
      (str_replace "kr" EmptyString
        (str_replace "$" EmptyString
          (str_replace euro EmptyString
            (str_replace " " EmptyString
              (str_replace "," "." value)))))).

(** The body of [for field in numeric_fields] (lines 561-577). *)
Definition clean_numeric (value : json_value) : option float :=
  match value with
  | JNull => None
  | JString s => py_float (strip_currency s)
  | JNumber f => Some f
  | JBool b => Some (float_of_bool b)
  | JOther => None
  end.

Definition clean_line (line : RawLine) : CleanLine :=
  mkCleanLine (raw_line_no line) (raw_sku line) (raw_product_name line)
              (raw_description line)
              (abs_if_negative (clean_numeric (raw_quantity line)))
              (raw_unit line)
              (abs_if_negative (clean_numeric (raw_unit_price line)))
              (clean_numeric (raw_discount line))
              (clean_numeric (raw_discount_total line))
              (abs_if_negative (clean_numeric (raw_net_amount line)))
              (clean_vat_percentage (raw_vat_percentage line))
              (abs_if_negative (clean_numeric (raw_line_total line)))
              (raw_currency line).

Definition _clean_invoice_lines (lines : list RawLine) : list CleanLine :=
  map clean_line lines.

Definition or_else {A} (new old : option A) : option A :=
  match new with Some _ => new | None => old end.

(** [update_data] without its [None] values, applied to one row. *)
Definition set_header_fields (e : ExtractedInvoice) (i : Invoice) : Invoice :=
  let invoice_date :=
    match ex_invoice_date e with
    | Some s => if truthy_str (Some s) then _parse_date s else Some s
    | None => None
    end in
  mkInvoice (inv_id i) (inv_source_message_id i) (inv_storage_bucket i)
            (inv_storage_path i) (inv_status i)
            (or_else (ex_supplier_name e) (inv_supplier_name i))
            (inv_supplier i)
            (or_else (ex_invoice_number e) (inv_invoice_number i))
            (or_else invoice_date (inv_invoice_date i))
            (or_else (ex_currency e) (inv_currency i))
            (or_else (abs_if_negative (ex_subtotal_amount e)) (inv_subtotal_amount i))
            (or_else (abs_if_negative (ex_tax_amount e)) (inv_tax_amount i))
            (or_else (abs_if_negative (ex_frieght_amount e)) (inv_frieght_amount i))
            (or_else (abs_if_negative (ex_total_amount e)) (inv_total_amount i))
            (inv_parsed_at i) (inv_validated_at i) (inv_updated_at i).

Definition is_some {A} (o : option A) : bool :=
  match o with Some _ => true | None => false end.

(** [update_data] is not empty once its [None] values are removed. *)
Definition has_header_fields (e : ExtractedInvoice) : bool :=
  is_some (ex_supplier_name e) || is_some (ex_invoice_number e)
  || is_some (match ex_invoice_date e with
              | Some s => if truthy_str (Some s) then _parse_date s else Some s
              | None => None
              end)
  || is_some (ex_currency e) || is_some (ex_subtotal_amount e)
  || is_some (ex_tax_amount e) || is_some (ex_frieght_amount e)
  || is_some (ex_total_amount e).

Definition _update_invoice_header_fields (invoice_id : uuid)
           (extracted_data : ExtractedInvoice) : M unit :=
  if negb (has_header_fields extracted_data) then ret tt
  else if header_update_ok invoice_id extracted_data
  then modify (with_invoices
                 (map (fun i => if Nat.eqb (inv_id i) invoice_id
                                then set_header_fields extracted_data i
                                else i)))
  else raise (StorageError "update of invoices rejected").

(** [invoices.update({"status": "parsed", "parsed_at": t})] on one row. *)
Definition set_invoice_parsed (t : timestamp) (i : Invoice) : Invoice :=
  mkInvoice (inv_id i) (inv_source_message_id i) (inv_storage_bucket i)
            (inv_storage_path i) parsed (inv_supplier_name i) (inv_supplier i)
            (inv_invoice_number i) (inv_invoice_date i) (inv_currency i)
            (inv_subtotal_amount i) (inv_tax_amount i) (inv_frieght_amount i)
            (inv_total_amount i) (Some t) (inv_validated_at i)
            (inv_updated_at i).

Definition _update_invoice_status_to_parsed (invoice_id : uuid) : M unit :=
  t <- now ;;
  modify (with_invoices
            (map (fun i => if Nat.eqb (inv_id i) invoice_id
                           then set_invoice_parsed t i else i))).

(** The [line_record] built for one cleaned line. *)
Definition line_record (id invoice_id : uuid) (line : CleanLine) : InvoiceLine :=
  mkLine id invoice_id (cl_line_no line) (cl_sku line) (cl_product_name line)
         (cl_description line) None (cl_quantity line) (cl_unit line)
         (cl_unit_price line) (cl_discount line) (cl_discount_total line)
         (cl_net_amount line) (cl_vat_percentage line) (cl_line_total line)
         (cl_currency line) None.

Definition _replace_invoice_lines (invoice_id : uuid) (lines : list CleanLine)
  : M nat :=
  modify (with_invoice_lines
            (filter (fun l => negb (Nat.eqb (line_invoice_id l) invoice_id)))) ;;;
  if negb (truthy_list lines) then ret 0
  else
    line_records <-
      for_each lines
        (fun acc line => id <- uuid4 ;;
                         ret (acc ++ [line_record id invoice_id line]))
        [] ;;
    for_each line_records
      (fun inserted_count record =>
         try_except
           (if line_insert_ok record
            then modify (with_invoice_lines (fun t => t ++ [record])) ;;;
                 ret (inserted_count + 1)
            else raise (StorageError "insert into invoice_lines rejected"))
           (fun _ => ret inserted_count))
      0.

Definition _log_invoice_parsed (invoice_id : uuid) (line_count : nat)
           (model : string) (warnings : list string) : M unit :=
  id <- uuid4 ;;
  t <- now ;;
  modify (with_audit_log (fun log =>
    log ++ [mkAudit (Some id) "invoice" (inr invoice_id) "INVOICE_PARSED"
                    (InvoiceParsed line_count model warnings)
                    None (Some t)])).

Definition parse_invoice (invoice_id : uuid) : M ParseResult :=
  w <- get_world ;;
  match filter (fun i => Nat.eqb (inv_id i) invoice_id) (invoices w) with
  | [] => raise (ValueError "Invoice not found")
  | invoice :: _ =>
      match extract_invoice invoice with
      | Raise e => raise e
      | Ok extracted_invoice =>
          let model_used := default_model in
          try_except
            (_update_invoice_header_fields invoice_id extracted_invoice)
            (fun _ => ret tt) ;;;
          let cleaned_lines :=
            _clean_invoice_lines (ex_lines extracted_invoice) in
          line_count <- _replace_invoice_lines invoice_id cleaned_lines ;;
          (if (0 <? line_count)%nat
           then _update_invoice_status_to_parsed invoice_id
           else ret tt) ;;;
          _log_invoice_parsed invoice_id line_count model_used
                              (ex_warnings extracted_invoice) ;;;
          ret (mkParseResult parsed line_count model_used
                             (ex_warnings extracted_invoice))
      end
  end.

End PDFParserService.

(** * email_polling.py *)

(** One element of the list [fetch_emails] returns (the [$select]ed fields
    the service reads). *)
Record EmailData := mkEmailData {
  ed_id : string;
  ed_receivedDateTime : Z;
  ed_hasAttachments : option bool
}.

Section EmailPollingService.

Variable str_lower : string -> string.

(** [datetime.now().strftime("%Y%m%d_%H%M%S_%f")] of a clock reading. *)
Variable strftime : timestamp -> string.

(** [settings.MAX_EMAILS_PER_RUN] and [settings.MAX_PDF_SIZE_MB]. *)
Variable MAX_EMAILS_PER_RUN : nat.
Variable MAX_PDF_SIZE_MB : Z.

(** What [poll_and_process_emails] returns. *)
Record PollResult := mkPollResult {
  po_total_emails : nat;
  po_processed : nat;
  po_failed : nat;
  po_timestamp : timestamp
}.

(** *** The Graph API, as the service uses it

    The access token is taken as obtained.  A request for a message or an
    attachment the mailbox does not hold answers 404, which
    [raise_for_status] turns into an exception. *)

(** [$orderby=receivedDateTime desc] *)
Fixpoint insert_by_received (x : MailMessage) (l : list MailMessage)
  : list MailMessage :=
  match l with
  | [] => [x]
  | y :: l' =>
      if (msg_receivedDateTime y <=? msg_receivedDateTime x)%Z
      then x :: l else y :: insert_by_received x l'
  end.

Fixpoint order_by_received_desc (l : list MailMessage) : list MailMessage :=
  match l with
  | [] => []
  | x :: l' => insert_by_received x (order_by_received_desc l')
  end.

(** [GET /messages?$filter=isRead eq false&$top=..&$orderby=..&$select=..] *)
Definition graph_list_unread (top : nat) (box : list MailMessage)
  : list EmailData :=
  map (fun m => mkEmailData (msg_id m) (msg_receivedDateTime m)
                            (msg_hasAttachments m))
      (firstn top (order_by_received_desc
                     (filter (fun m => negb (msg_isRead m)) box))).

Definition find_message (message_id : string) (box : list MailMessage)
  : option MailMessage :=
  find (fun m => String.eqb (msg_id m) message_id) box.

(** [PATCH /messages/{id}] with body [{"isRead": v}] *)
Definition graph_patch_isRead (message_id : string) (v : bool)
           (box : list MailMessage) : list MailMessage :=
  map (fun m => if String.eqb (msg_id m) message_id
                then mkMessage (msg_id m) v (msg_hasAttachments m)
                               (msg_receivedDateTime m) (msg_attachments m)
                else m) box.

(** *** The service *)

Definition fetch_emails (max_emails : option nat) : M (list EmailData) :=
  let max_emails :=
    match max_emails with
    | Some (S n) => S n
    | _ => MAX_EMAILS_PER_RUN
    end in
  w <- get_world ;;
  let all_emails := graph_list_unread (max_emails * 2) (mailbox w) in
  let emails :=
    filter (fun e => match ed_hasAttachments e with
                     | Some b => b
                     | None => false
                     end) all_emails in
  ret (firstn max_emails emails).

Definition save_pdf_to_pdfs_bucket (pdf_content : list Byte.byte)
           (filename : string) : M string :=
  let safe_filename := str_replace "/" "_" (str_replace " " "_" filename) in
  w <- get_world ;;
  let existing_files := pdfs_bucket w in
  match find (fun f => ends_with (String.append "_" safe_filename) (file_name f))
             existing_files with
  | Some existing_file => ret (file_name existing_file)
  | None =>
      t <- now ;;
      let file_path :=
        String.append (strftime t) (String.append "_" safe_filename) in
      modify (with_pdfs_bucket (fun b => b ++ [mkFile file_path pdf_content])) ;;;
      ret file_path
  end.

Definition download_attachment (message_id attachment_id : string)
  : M (list Byte.byte) :=
  w <- get_world ;;
  match find_message message_id (mailbox w) with
  | None => raise (HTTPStatusError "404")
  | Some m =>
      match find (fun a => String.eqb (att_id a) attachment_id)
                 (msg_attachments m) with
      | None => raise (HTTPStatusError "404")
      | Some a => ret (att_content a)
      end
  end.

Definition default_filename (message_id : string) : string :=
  String.append "invoice_" (String.append message_id ".pdf").

Definition is_pdf (att : Attachment) : bool :=
  opt_str_eqb (att_contentType att) "application/pdf"
  || ends_with ".pdf"
       (str_lower (match att_name att with Some n => n | None => EmptyString end)).

Definition set_storage_path (p : option string) (a : Attachment) : Attachment :=
  mkAttachment (att_id a) (att_name a) (att_contentType a) (att_size a)
               (att_content a) p.

Definition get_email_attachments (message_id : string) : M (list Attachment) :=
  w <- get_world ;;
  match find_message message_id (mailbox w) with
  | None => raise (HTTPStatusError "404")
  | Some m =>
      let pdf_attachments := filter is_pdf (msg_attachments m) in
      match pdf_attachments with
      | [] => ret []
      | attachment :: rest =>
          storage_path <-
            try_except
              (let attachment_id := att_id attachment in
               let filename :=
                 match att_name attachment with
                 | Some n => n
                 | None => default_filename message_id
                 end in
               pdf_content <- download_attachment message_id attachment_id ;;
               p <- save_pdf_to_pdfs_bucket pdf_content filename ;;
               ret (Some p))
              (fun _ => ret None) ;;
          ret (set_storage_path storage_path attachment :: rest)
      end
  end.

Definition insert_invoice (source_message_id storage_path : string) : M uuid :=
  invoice_id <- uuid4 ;;
  modify (with_invoices (fun t =>
    t ++ [mkInvoice invoice_id (Some source_message_id) (Some "pdfs")
                    (Some storage_path) received None None None None None
                    None None None None None None None])) ;;;
  ret invoice_id.

Definition _insert_audit_log (action : string) (invoice_id : uuid)
           (details : list string) : M unit :=
  modify (with_audit_log (fun log =>
    log ++ [mkAudit None "invoice" (inr invoice_id) action (Message details)
                    None None])).

(** The request body is [json={"isRead": False}].  A failed request is
    only logged. *)
Definition mark_emails_as_read (message_id : string) : M unit :=
  w <- get_world ;;
  match find_message message_id (mailbox w) with
  | None => ret tt
  | Some _ => modify (with_mailbox (graph_patch_isRead message_id false))
  end.

Definition process_email (email_data : EmailData) : M bool :=
  let message_id := ed_id email_data in
  w <- get_world ;;
  if existsb (String.eqb message_id) (processed_message_ids w) then ret false
  else
    try_except
      (attachments <- get_email_attachments message_id ;;
       match attachments with
       | [] => ret false
       | attachment :: _ =>
           match att_storage_path attachment with
           | None => ret false
           | Some storage_path =>
               if negb (truthy_str (Some storage_path)) then ret false
               else
                 let file_size :=
                   match att_size attachment with Some n => n | None => 0%Z end in
                 let max_size_bytes := (MAX_PDF_SIZE_MB * 1024 * 1024)%Z in
                 if (max_size_bytes <? file_size)%Z then ret false
                 else
                   invoice_id <- insert_invoice message_id storage_path ;;
                   _insert_audit_log "EMAIL_INGESTED" invoice_id
                     ["Email "; message_id; " ingested; PDF stored at ";
                      storage_path] ;;;
                   _insert_audit_log "PDF_STORED" invoice_id
                     ["PDF stored in pdfs bucket: "; storage_path] ;;;
                   mark_emails_as_read message_id ;;;
                   modify (with_processed_message_ids
                             (fun s => message_id :: s)) ;;;
                   ret true
           end
       end)
      (fun _ => ret false).

Definition poll_and_process_emails : M PollResult :=
  emails <- fetch_emails None ;;
  counts <-
    for_each emails
      (fun c email =>
         success <- process_email email ;;
         ret (if success then (fst c + 1, snd c) else (fst c, snd c + 1)))
      (0, 0) ;;
  t <- now ;;
  ret (mkPollResult (List.length emails) (fst counts) (snd counts) t).

End EmailPollingService.

(** ** A concrete Python runtime for the examples

    The standard-library functions the services are parameterised by, on
    the inputs the examples use: ISO calendar dates [YYYY-MM-DD] and ASCII
    letters. *)

Module PyRuntime.

Local Open Scope Z_scope.

Definition digit_of (c : ascii) : option Z :=
  let n := Z.of_nat (nat_of_ascii c) in
  if (48 <=? n) && (n <=? 57) then Some (n - 48) else None.

Fixpoint digits_of (s : string) (acc : Z) : option Z :=
  match s with
  | EmptyString => Some acc
  | String c s' =>
      match digit_of c with
      | Some d => digits_of s' (10 * acc + d)
      | None => None
      end
  end.

Definition is_leap (y : Z) : bool :=
  ((y mod 4 =? 0) && negb (y mod 100 =? 0)) || (y mod 400 =? 0).

Definition days_in_month (y m : Z) : Z :=
  if m =? 2 then (if is_leap y then 29 else 28)
  else if (m =? 4) || (m =? 6) || (m =? 9) || (m =? 11) then 30
  else 31.

Definition days_before_year (y : Z) : Z :=
  let p := y - 1 in p * 365 + p / 4 - p / 100 + p / 400.

Fixpoint days_before_month (y : Z) (m : nat) : Z :=
  match m with
  | O | 1%nat => 0
  | S m' => days_before_month y m' + days_in_month y (Z.of_nat m')
  end.

(** [date(y, m, d).toordinal()] *)
Definition toordinal (y m d : Z) : date :=
  days_before_year y + days_before_month y (Z.to_nat m) + d.

(** [date.fromisoformat] on the ten characters [YYYY-MM-DD]. *)
Definition fromisoformat_date (s : string) : option date :=
  if negb (Nat.eqb (String.length s) 10) then None
  else
    match digits_of (substring 0 4 s) 0, digits_of (substring 5 2 s) 0,
          digits_of (substring 8 2 s) 0 with
    | Some y, Some m, Some d =>
        if String.eqb (substring 4 1 s) "-" && String.eqb (substring 7 1 s) "-"
           && (1 <=? y) && (1 <=? m) && (m <=? 12)
           && (1 <=? d) && (d <=? days_in_month y m)
        then Some (toordinal y m d)
        else None
    | _, _, _ => None
    end.

Definition digit_char (d : Z) : ascii := ascii_of_nat (Z.to_nat (48 + d mod 10)).

(** [n] in decimal, zero-padded to [width] characters. *)
Fixpoint pad_decimal (width : nat) (n : Z) (acc : string) : string :=
  match width with
  | O => acc
  | S w => pad_decimal w (n / 10) (String (digit_char n) acc)
  end.

(** The last year that starts on or before ordinal [o], searching down
  from [y]. *)
Fixpoint year_of (fuel : nat) (y : Z) (o : date) : Z :=
  match fuel with
  | O => y
  | S f => if days_before_year y <? o then y else year_of f (y - 1) o
  end.

Fixpoint month_of (fuel : nat) (y m : Z) (rest : Z) : Z * Z :=
  match fuel with
  | O => (m, rest)
  | S f =>
      if rest <=? days_in_month y m then (m, rest)
      else month_of f y (m + 1) (rest - days_in_month y m)
  end.

(** [date.fromordinal(o).isoformat()] *)
Definition date_isoformat (o : date) : string :=
  let y := year_of 8 (o / 365 + 1) o in
  let '(m, d) := month_of 12 y 1 (o - days_before_year y) in
  (pad_decimal 4 y (String "-" (pad_decimal 2 m (String "-" (pad_decimal 2 d EmptyString)))))%string.

Definition lower_char (c : ascii) : ascii :=
  let n := nat_of_ascii c in
  if (Nat.leb 65 n && Nat.leb n 90)%bool then ascii_of_nat (n + 32) else c.

(** [str.lower()] on ASCII text. *)
Fixpoint str_lower (s : string) : string :=
  match s with
  | EmptyString => EmptyString
  | String c s' => String (lower_char c) (str_lower s')
  end.

(** [datetime.isoformat()] of midnight on the day with ordinal [t]. *)
Definition datetime_isoformat (t : timestamp) : string :=
  String.append (date_isoformat t) "T00:00:00".

(** [strftime("%Y%m%d_%H%M%S_%f")] on 2024-01-31, the clock counting
  microseconds after midnight. *)
Definition strftime (t : timestamp) : string :=
  String.append "20240131_000000_" (pad_decimal 6 t EmptyString).

End PyRuntime.


(** ** Example data *)

Module Demo.

Definition validate :=
  validate_invoice PyRuntime.fromisoformat_date PyRuntime.date_isoformat
                   PyRuntime.str_lower.

Definition validate_line :=
  _validate_invoice_line PyRuntime.fromisoformat_date PyRuntime.date_isoformat
                         PyRuntime.str_lower.

(** Invoice 1 of supplier ACME, dated 2024-01-31, in EUR. *)
Definition invoice : Invoice :=
  mkInvoice 1 None (Some "pdfs") (Some "20240131_000000_000001_a.pdf") parsed
            (Some "ACME") (Some "ACME") (Some "INV-7") (Some "2024-01-31")
            (Some "EUR") None None None None None None None.

Definition line (id : uuid) (no : Z) (sku : string) (unit_price : float)
  : InvoiceLine :=
  mkLine id 1 (Some no) (Some sku) None None None (Some 1%float) None
         (Some unit_price) None None None None None None None.

(** An [active] price of ACME for [sku], with a validity window. *)
Definition price (id : uuid) (sku : string) (unit_price : float)
           (valid_from valid_to : option string) : PriceRecord :=
  mkPrice id (Some "ACME") (Some sku) (Some "Widget") (Some "EUR")
          (Some unit_price) (Some active) valid_from valid_to (Some manual)
          None None None None None None.

(** A price learned earlier for [sku], still to be reviewed. *)
Definition learned_price (id : uuid) (sku : string) (unit_price : float)
  : PriceRecord :=
  mkPrice id (Some "ACME") (Some sku) None (Some "EUR") (Some unit_price)
          (Some need_review) None None (Some learned_from_invoice)
          None None None None None None.

Definition world_of (lines : list InvoiceLine) (prices : list PriceRecord)
  : World :=
  mkWorld [invoice] lines prices [] 1000 0%Z [] [] [].

(** The scenario of the specification: lines A at 10 and B at 20, the
  price book holding A at 10 and nothing for B. *)
Definition world : World :=
  world_of [line 11 2 "B" 20; line 10 1 "A" 10]
           [price 100 "A" 10 (Some "2024-01-01") None].

(** What validating [invoice] in [world] returns. *)
Definition result : ValidationResult :=
  mkValidationResult 1 needs_review 2 1 0 1 0 None.

(** The date of [invoice], as an ordinal. *)
Definition day : date := 738916%Z.

(** A price of A whose [valid_to] is the day of the invoice. *)
Definition expiring_price : PriceRecord :=
  price 101 "A" 10 (Some "2024-01-01") (Some "2024-01-31").

Definition accept_price :=
  accept_price PyRuntime.fromisoformat_date PyRuntime.date_isoformat
               PyRuntime.str_lower PyRuntime.datetime_isoformat.

(** A price of product 9 from supplier 7, with the columns the insert of
    [accept_price] fills. *)
Definition accepted_price (id : uuid) (unit_price : float)
           (valid_from valid_to : option string) : PriceRecord :=
  mkPrice id None None None None None None valid_from valid_to None None
          (Some 9) (Some 7) (Some unit_price) (Some 0%Z) (Some 0%Z).

(** Line 10 of [invoice], SKU A at 12.5, and an open price of product 9
    from supplier 7. *)
Definition open_price_world : World :=
  world_of [line 10 1 "A" 12.5]
           [price 100 "A" 10 (Some "2024-01-01") None;
            accepted_price 200 10 (Some "2024-01-01T00:00:00") None].

(** An extraction with two lines, the second without a line number. *)
Definition raw_line (no : option Z) (sku : string) (quantity unit_price : json_value)
  : RawLine :=
  mkRawLine no (Some sku) None None quantity None unit_price JNull JNull JNull
            JNull JNull None.

Definition extracted : ExtractedInvoice :=
  mkExtracted (Some "ACME") (Some "INV-7") (Some "2024-01-31") (Some "EUR")
              None None None (Some 40%float)
              [raw_line (Some 1%Z) "A" (JNumber (-5)%float) (JNumber 10%float);
               raw_line None "B" (JNumber 1%float) (JNumber 20%float)]
              [].

(** A storage service that rejects lines without a line number. *)
Definition line_insert_ok (l : InvoiceLine) : bool :=
  match line_no l with Some _ => true | None => false end.

Definition parse_invoice (accept_line : InvoiceLine -> bool) :=
  parse_invoice (fun _ => None) (fun s => Some s) (fun _ => Ok extracted)
                (fun _ _ => true) accept_line "gpt-4o-mini".

Definition received_world : World :=
  mkWorld [set_invoice_status received None invoice] [] [] [] 1000 0%Z [] [] [].

(** A mailbox with one unread message carrying a PDF. *)
Definition message : MailMessage :=
  mkMessage "AAMkAD1" false (Some true) 100%Z
            [mkAttachment "att1" (Some "invoice 7.pdf") (Some "application/pdf")
                          (Some 2048%Z) [] None].

Definition email : EmailData := mkEmailData "AAMkAD1" 100%Z (Some true).

Definition mail_world : World :=
  mkWorld [] [] [] [] 1000 0%Z [message] [] [].

Definition process_email :=
  process_email PyRuntime.str_lower PyRuntime.strftime 10%Z.

End Demo.
(** * main.py: the batch steps of the orchestrator *)

Section Orchestrator.

Variable parse_iso_date : string -> option date.
Variable date_isoformat : date -> string.
Variable str_lower : string -> string.
Variable py_float : string -> option float.
Variable _parse_date : string -> option string.
Variable extract_invoice : Invoice -> outcome ExtractedInvoice.
Variable header_update_ok : uuid -> ExtractedInvoice -> bool.
Variable line_insert_ok : InvoiceLine -> bool.
Variable default_model : string.

(** [settings.MAX_EMAILS_PER_RUN] *)
Variable MAX_EMAILS_PER_RUN : nat.

(** [invoices.select("id").eq("status", status).limit(MAX_EMAILS_PER_RUN)] *)
Definition select_ids_by_status (status : InvoiceStatus) (w : World)
  : list uuid :=
  map inv_id
      (firstn MAX_EMAILS_PER_RUN
              (filter (fun i => InvoiceStatus_eqb (inv_status i) status)
                      (invoices w))).

(** The body of [for invoice in result.data] (lines 48-56). *)
Definition parse_one (processed_count : nat) (invoice_id : uuid) : M nat :=
  try_except
    (parse_invoice py_float _parse_date extract_invoice header_update_ok
                   line_insert_ok default_model invoice_id ;;;
     ret (processed_count + 1))
    (fun _ => ret processed_count).

Definition process_received_invoices_batch : M nat :=
  try_except
    (w <- get_world ;;
     let data := select_ids_by_status received w in
     if negb (truthy_list data) then ret 0
     else for_each data parse_one 0)
    (fun _ => ret 0).

(** The body of [for invoice in result.data] (lines 75-82). *)
Definition validate_one (processed_count : nat) (invoice_id : uuid) : M nat :=
  try_except
    (validate_invoice parse_iso_date date_isoformat str_lower invoice_id ;;;
     ret (processed_count + 1))
    (fun _ => ret processed_count).

Definition process_parsed_invoices_batch : M nat :=
  try_except
    (w <- get_world ;;
     let data := select_ids_by_status parsed w in
     if negb (truthy_list data) then ret 0
     else for_each data validate_one 0)
    (fun _ => ret 0).

End Orchestrator.

(** The two inner loops of [invoice_processing_orchestrator] (lines 105-112
    and 119-126): [while True: count = await batch(); if count == 0: break;
    total += count].  [fuel] bounds the number of rounds, and [None] is
    answered when it runs out before a batch returned [0]. *)
Fixpoint drain (fuel : nat) (batch : M nat) (total : nat) : M (option nat) :=
  match fuel with
  | O => ret None
  | S fuel' =>
      count <- batch ;;
      if Nat.eqb count 0 then ret (Some total)
      else drain fuel' batch (total + count)
  end.

(** * api/v1/endpoints/validation.py: the status endpoint *)

(** What a route answers: a body, or an [HTTPException] with its status
    code. *)
Inductive http_result (A : Type) :=
| HTTP_OK (body : A)
| HTTPException (status_code : nat).
Arguments HTTPException {A} status_code.

(** The body of [GET /invoice/{invoice_id}/status]. *)
Record StatusSummary := mkStatusSummary {
  ss_invoice_id : uuid;
  ss_status : InvoiceStatus;
  ss_total_lines : nat;
  ss_match_count : nat;
  ss_error_count : nat
}.

(** [line.get("status") == "match"] *)
Definition is_match_status (l : InvoiceLine) : bool :=
  match line_status l with
  | Some line_match => true
  | _ => false
  end.

(** [line.get("status") in ["mismatch", "no_match", "created_price_record"]] *)
Definition is_error_status (l : InvoiceLine) : bool :=
  match line_status l with
  | Some mismatch | Some no_match | Some created_price_record => true
  | _ => false
  end.

Definition get_validation_status (invoice_id : uuid) (w : World)
  : http_result StatusSummary :=
  match filter (fun i => Nat.eqb (inv_id i) invoice_id) (invoices w) with
  | [] => HTTPException 404
  | invoice :: _ =>
      let lines :=
        filter (fun l => Nat.eqb (line_invoice_id l) invoice_id)
               (invoice_lines w) in
      let match_count := List.length (filter is_match_status lines) in
      let error_count := List.length (filter is_error_status lines) in
      HTTP_OK (mkStatusSummary invoice_id (inv_status invoice)
                               (List.length lines) match_count error_count)
  end.
(** ** More example data *)

Module Cases.

(** [Demo.invoice] without a line. *)
Definition empty_world : World :=
  Demo.world_of [] [Demo.price 100 "A" 10 (Some "2024-01-01") None].

(** Invoice 2, parsed without a supplier name, with one line. *)
Definition anonymous_invoice : Invoice :=
  mkInvoice 2 None (Some "pdfs") (Some "20240131_000000_000002_b.pdf") parsed
            None None (Some "INV-8") (Some "2024-01-31") (Some "EUR")
            None None None None None None None.

Definition anonymous_line : InvoiceLine :=
  mkLine 20 2 (Some 1%Z) (Some "A") None None None (Some 1%float) None
         (Some 10%float) None None None None None None None.

Definition anonymous_world : World :=
  mkWorld [anonymous_invoice] [anonymous_line]
          [Demo.price 100 "A" 10 (Some "2024-01-01") None] [] 1000 0%Z [] [] [].

(** A line of invoice 1 that names its product but carries no SKU. *)
Definition named_line : InvoiceLine :=
  mkLine 12 1 (Some 1%Z) None (Some "Gadget") None None (Some 1%float) None
         (Some 30%float) None None None None None None None.

Definition named_world : World := Demo.world_of [named_line] [].

(** Invoice 1 with a line that matches (A at 10), a line to learn from
    (B at 20) and a line without unit price (A at 0). *)
Definition mixed_world : World :=
  Demo.world_of [Demo.line 10 1 "A" 10; Demo.line 11 2 "B" 20;
                 Demo.line 12 3 "A" 0]
                [Demo.price 100 "A" 10 (Some "2024-01-01") None].

Definition mixed_result : ValidationResult :=
  mkValidationResult 1 needs_review 3 1 0 1 1 None.

(** A price table with two open records of product 9 from supplier 7. *)
Definition two_open_world : World :=
  Demo.world_of
    [Demo.line 10 1 "A" 12.5]
    [Demo.price 100 "A" 10 (Some "2024-01-01") None;
     Demo.accepted_price 200 10 (Some "2023-01-01T00:00:00") None;
     Demo.accepted_price 201 11 (Some "2023-07-01T00:00:00") None].

(** An extraction that succeeds and finds no line. *)
Definition extract_nothing (_ : Invoice) : outcome ExtractedInvoice :=
  Ok (mkExtracted (Some "ACME") None None None None None None None [] []).

Definition parse_batch : M nat :=
  process_received_invoices_batch (fun _ => None) (fun s => Some s)
    extract_nothing (fun _ _ => true) (fun _ => true) "gpt-4o" 5.

Definition validation_batch : M nat :=
  process_parsed_invoices_batch PyRuntime.fromisoformat_date
    PyRuntime.date_isoformat PyRuntime.str_lower 5.

(** [Demo.process_email] with a size limit of zero megabytes. *)
Definition process_email_no_room :=
  process_email PyRuntime.str_lower PyRuntime.strftime 0%Z.

Definition attachment : Attachment :=
  mkAttachment "att1" (Some "invoice 7.pdf") (Some "application/pdf")
               (Some 2048%Z) [] None.

End Cases.

(** * Facts about the validation service *)

Section ValidationFacts.

Variable parse_iso_date : string -> option date.
Variable date_isoformat : date -> string.
Variable str_lower : string -> string.

Local Abbreviation find_by_sku := (_find_buying_price_by_sku parse_iso_date).
Local Abbreviation find_by_product_name :=
  (_find_buying_price_by_product_name parse_iso_date str_lower).
Local Abbreviation validate_line :=
  (_validate_invoice_line parse_iso_date date_isoformat str_lower).
Local Abbreviation validate := (validate_invoice parse_iso_date date_isoformat str_lower).

(** ** One line *)

(** The reference record the line is compared with: the result of the
    lookup [_validate_invoice_line] makes for its match key. *)
Definition find_reference (table : list PriceRecord) (line : InvoiceLine)
           (supplier_name : option string) (invoice_date : option date)
  : option PriceRecord :=
  if truthy_str (line_sku line)
  then find_by_sku table supplier_name (line_sku line) invoice_date
  else if truthy_str (line_product_name line)
  then find_by_product_name table supplier_name (line_product_name line)
                            invoice_date
  else None.

Definition has_key (line : InvoiceLine) : bool :=
  truthy_str (line_sku line) || truthy_str (line_product_name line).

(** The line carries what a learned price record needs. *)
Definition can_learn (line : InvoiceLine) (supplier_name currency : option string)
  : bool :=
  truthy_str supplier_name && has_key line
  && truthy_str (or_str (line_currency line) currency)
  && truthy_float (line_unit_price line).

Definition compare_prices (actual expected : float) : LineStatus :=
  if PrimFloat.ltb (PrimFloat.abs (PrimFloat.sub actual expected)) 0.0001%float
  then line_match else mismatch.

(** The status [_validate_invoice_line] resolves a line to, as a function
    of the price table it reads. *)
Definition verdict (table : list PriceRecord) (line : InvoiceLine)
           (supplier_name : option string) (invoice_date : option date)
           (currency : option string) : outcome LineStatus :=
  if has_key line then
    match find_reference table line supplier_name invoice_date with
    | None =>
        Ok (if can_learn line supplier_name currency
            then created_price_record else unknown)
    | Some record =>
        match pr_unit_price record with
        | None => Raise (TypeError "float() argument must be a string or a real number")
        | Some expected =>
            match line_unit_price line with
            | Some actual =>
                Ok (if truthy_float (Some actual)
                    then compare_prices actual expected else unknown)
            | None => Ok unknown
            end
        end
    end
  else Ok unknown.

Definition outcome_map {A B} (f : A -> B) (o : outcome A) : outcome B :=
  match o with Ok a => Ok (f a) | Raise e => Raise e end.

Definition learned (r : PriceRecord) : Prop :=
  pr_status r = Some need_review /\ pr_source r = Some learned_from_invoice.

(** What one call of [_validate_invoice_line] does to the tables. *)
Record line_effect (line : InvoiceLine) (v : outcome LineStatus)
       (w w' : World) : Prop := mk_line_effect {
  le_invoices : invoices w' = invoices w;
  le_lines :
    invoice_lines w' =
    match v with
    | Ok st => update_line_status (line_id line) st (invoice_lines w)
    | Raise _ => invoice_lines w
    end;
  le_prices :
    exists extra, buying_price_records w' = buying_price_records w ++ extra
                  /\ Forall learned extra /\ (List.length extra <= 1)%nat
                  /\ (v <> Ok created_price_record -> extra = []);
  le_mailbox : mailbox w' = mailbox w
}.

Lemma validate_line_spec line invoice_id supplier_name invoice_date currency w :
  let v := verdict (buying_price_records w) line supplier_name invoice_date
                   currency in
  outcome_map lr_status
    (snd (validate_line line invoice_id supplier_name invoice_date currency w)) = v
  /\ line_effect line v w
       (fst (validate_line line invoice_id supplier_name invoice_date currency w)).
Proof.
  intros v; subst v.
  destruct (validate_line line invoice_id supplier_name invoice_date currency w)
    as [w' r] eqn:E.
  cbn [fst snd].
  unfold verdict, find_reference, can_learn, has_key, compare_prices.
  cbv beta iota zeta delta
    [_validate_invoice_line _create_buying_price_record _log_audit
     _update_invoice_line_status float_of_column bind ret raise modify
     get_world uuid4 now] in E.
  destruct (line_unit_price line) eqn:Hprice.
  all: repeat match type of E with
         | context [if ?b then _ else _] => destruct b eqn:?
         | context [match ?x with Some _ => _ | None => _ end] =>
             destruct x eqn:?
         | context [match ?x with [] => _ | _ :: _ => _ end] =>
             destruct x eqn:?
         | context [match ?x with _ => _ end] => destruct x eqn:?
         end.
  all: try discriminate.
  all: inversion E; subst; clear E.
  all: cbn [orb andb outcome_map lr_status] in *.
  all: repeat first
         [ match goal with
           | H : ?t = _ |- context [?t] => rewrite H
           end
         | progress cbn [orb andb] ].
  all: split; [try reflexivity | constructor; cbn; try reflexivity].
  all: try solve [exists []; rewrite app_nil_r; repeat split; auto].
  all: eexists; split;
    [reflexivity
    | split; [repeat constructor | split; [cbn; lia | congruence]]].
Qed.

(** ** The lookups *)

Lemma valid_candidates_incl cs d l :
  valid_candidates parse_iso_date cs d = Some l -> incl l cs.
Proof.
  revert l; induction cs as [|c cs IH]; cbn; intros l H.
  - inversion H; subst. apply incl_refl.
  - destruct (candidate_valid parse_iso_date c d) as [keep|]; try discriminate.
    destruct (valid_candidates parse_iso_date cs d) as [r|]; try discriminate.
    inversion H; subst. specialize (IH r eq_refl).
    destruct keep.
    + intros x [Hx|Hx]; [left; assumption | right; apply IH; assumption].
    + intros x Hx. right. apply IH; assumption.
Qed.

Lemma hd_error_In {A} (l : list A) (x : A) : hd_error l = Some x -> In x l.
Proof. destruct l; cbn; intros H; inversion H; subst; left; reflexivity. Qed.

Lemma first_valid_In cs d r :
  first_valid parse_iso_date cs d = Some r -> In r cs.
Proof.
  unfold first_valid. destruct d as [d|].
  - destruct (valid_candidates parse_iso_date cs d) as [l|] eqn:Hl;
      try discriminate.
    intros H. apply (valid_candidates_incl _ _ Hl). apply hd_error_In, H.
  - apply hd_error_In.
Qed.

Lemma is_status_active o : is_status active o = true -> o = Some active.
Proof. destruct o as [[|]|]; cbn; congruence. Qed.

Lemma find_by_sku_In table supplier_name sku d r :
  find_by_sku table supplier_name sku d = Some r ->
  In r table /\ pr_status r = Some active
  /\ opt_string_eqb (pr_supplier_name r) supplier_name = true
  /\ opt_string_eqb (pr_sku r) sku = true.
Proof.
  unfold _find_buying_price_by_sku.
  destruct (negb (truthy_str supplier_name) || negb (truthy_str sku));
    try discriminate.
  destruct (negb (truthy_list _)); try discriminate.
  intros H. apply first_valid_In in H. apply filter_In in H.
  destruct H as [Hin H]. apply andb_prop in H. destruct H as [H Hst].
  apply andb_prop in H. destruct H as [Hs Hk].
  auto using is_status_active.
Qed.

Lemma find_by_product_name_In table supplier_name product_name d r :
  find_by_product_name table supplier_name product_name d = Some r ->
  In r table /\ pr_status r = Some active
  /\ opt_string_eqb (pr_supplier_name r) supplier_name = true.
Proof.
  unfold _find_buying_price_by_product_name.
  destruct (negb (truthy_str supplier_name) || negb (truthy_str product_name));
    try discriminate.
  destruct (negb (truthy_list _)); try discriminate.
  intros H. apply first_valid_In in H. apply filter_In in H.
  destruct H as [H _]. apply filter_In in H.
  destruct H as [Hin H]. apply andb_prop in H. destruct H as [Hs Hst].
  auto using is_status_active.
Qed.

Lemma find_reference_In table line supplier_name d r :
  find_reference table line supplier_name d = Some r ->
  In r table /\ pr_status r = Some active /\ has_key line = true.
Proof.
  unfold find_reference, has_key.
  destruct (truthy_str (line_sku line)).
  - intros H. apply find_by_sku_In in H. tauto.
  - destruct (truthy_str (line_product_name line)); try discriminate.
    intros H. apply find_by_product_name_In in H. tauto.
Qed.

(** Rows that are not [active] are invisible to the lookups. *)
Definition inactive (r : PriceRecord) : Prop :=
  is_status active (pr_status r) = false.

Lemma filter_none {A} (f : A -> bool) (l : list A) :
  Forall (fun x => f x = false) l -> filter f l = [].
Proof.
  induction 1 as [|x l Hx _ IH]; cbn; [reflexivity|].
  rewrite Hx. exact IH.
Qed.

Lemma learned_inactive r : learned r -> inactive r.
Proof. intros [H _]. unfold inactive. rewrite H. reflexivity. Qed.

Lemma find_by_sku_app table extra supplier_name sku d :
  Forall inactive extra ->
  find_by_sku (table ++ extra) supplier_name sku d
  = find_by_sku table supplier_name sku d.
Proof.
  intros H. unfold _find_buying_price_by_sku.
  rewrite filter_app, (filter_none _ (l := extra)), app_nil_r; [reflexivity|].
  eapply Forall_impl; [|exact H]. cbn. unfold inactive. intros r Hr.
  rewrite Hr. apply andb_false_r.
Qed.

Lemma find_by_product_name_app table extra supplier_name product_name d :
  Forall inactive extra ->
  find_by_product_name (table ++ extra) supplier_name product_name d
  = find_by_product_name table supplier_name product_name d.
Proof.
  intros H. unfold _find_buying_price_by_product_name.
  rewrite filter_app, (filter_none _ (l := extra)), app_nil_r; [reflexivity|].
  eapply Forall_impl; [|exact H]. cbn. unfold inactive. intros r Hr.
  rewrite Hr. apply andb_false_r.
Qed.

Lemma verdict_app table extra line supplier_name d currency :
  Forall inactive extra ->
  verdict (table ++ extra) line supplier_name d currency
  = verdict table line supplier_name d currency.
Proof.
  intros H. unfold verdict, find_reference.
  rewrite find_by_sku_app, find_by_product_name_app by assumption.
  reflexivity.
Qed.

(** ** The loop over the lines *)

Section Loop.

Variable invoice_id : uuid.
Variable supplier_name : option string.
Variable invoice_date : option date.
Variable currency : option string.

(** The body of [for line in invoice_lines] in [validate_invoice]. *)
Definition loop_body (c : Counts) (line : InvoiceLine) : M Counts :=
  validation_result <-
    validate_line line invoice_id supplier_name invoice_date currency ;;
  ret (count_status c (lr_status validation_result)).

(** [resolves w lines statuses w']: validating [lines] one after the
    other from world [w] returns [statuses] and ends in [w']. *)
Inductive resolves : World -> list InvoiceLine -> list LineStatus -> World
                     -> Prop :=
| resolves_nil w : resolves w [] [] w
| resolves_cons w line lines res w1 statuses w2 :
    validate_line line invoice_id supplier_name invoice_date currency w
    = (w1, Ok res) ->
    resolves w1 lines statuses w2 ->
    resolves w (line :: lines) (lr_status res :: statuses) w2.

Fixpoint all_ok {A} (l : list (outcome A)) : option (list A) :=
  match l with
  | [] => Some []
  | Ok a :: l' => option_map (cons a) (all_ok l')
  | Raise _ :: _ => None
  end.

Definition verdicts (table : list PriceRecord) (lines : list InvoiceLine)
  : list (outcome LineStatus) :=
  map (fun l => verdict table l supplier_name invoice_date currency) lines.

(** The status updates of a run, in order. *)
Definition apply_updates (updates : list (uuid * LineStatus))
           (rows : list InvoiceLine) : list InvoiceLine :=
  fold_left (fun rows u => update_line_status (fst u) (snd u) rows)
            updates rows.

Lemma for_each_loop_cons line lines c w :
  for_each (line :: lines) loop_body c w
  = match validate_line line invoice_id supplier_name invoice_date
                        currency w with
    | (w1, Ok res) =>
        for_each lines loop_body (count_status c (lr_status res)) w1
    | (w1, Raise e) => (w1, Raise e)
    end.
Proof.
  cbn [for_each]. unfold bind, loop_body, bind, ret.
  destruct (validate_line _ _ _ _ _ _) as [w1 [res|e]]; reflexivity.
Qed.

Lemma loop_spec lines :
  forall w c,
    match all_ok (verdicts (buying_price_records w) lines) with
    | Some statuses =>
        exists w',
          for_each lines loop_body c w
          = (w', Ok (fold_left count_status statuses c))
          /\ resolves w lines statuses w'
          /\ invoices w' = invoices w
          /\ invoice_lines w'
             = apply_updates (combine (map line_id lines) statuses)
                             (invoice_lines w)
          /\ exists extra,
               buying_price_records w' = buying_price_records w ++ extra
               /\ Forall learned extra
    | None => exists w' e, for_each lines loop_body c w = (w', Raise e)
    end.
Proof.
  induction lines as [|line lines IH]; intros w c.
  - cbn. exists w. repeat split; try constructor.
    exists []. rewrite app_nil_r. split; constructor.
  - cbn [verdicts map all_ok]. rewrite for_each_loop_cons.
    destruct (validate_line_spec line invoice_id supplier_name invoice_date
                                 currency w) as [Hv Heff].
    destruct (validate_line line invoice_id supplier_name invoice_date
                            currency w) as [w1 r] eqn:E.
    cbn [fst snd] in *.
    destruct r as [res|e]; cbn [outcome_map] in Hv; rewrite <- Hv.
    + destruct Heff as [Hinv Hlines [extra (Hpr & Hlearned & _)] _].
      specialize (IH w1 (count_status c (lr_status res))).
      rewrite Hpr in IH. fold (verdicts (buying_price_records w ++ extra) lines) in IH.
      assert (Hsame : verdicts (buying_price_records w ++ extra) lines
                      = verdicts (buying_price_records w) lines).
      { unfold verdicts. apply map_ext. intros l. apply verdict_app.
        eapply Forall_impl; [|exact Hlearned]. apply learned_inactive. }
      rewrite Hsame in IH. unfold verdicts in IH.
      destruct (all_ok _) as [statuses|]; cbn [option_map].
      * destruct IH as (w' & Hrun & Hres & Hinv' & Hlines' & extra' & Hpr' & Hl').
        exists w'. split; [exact Hrun|]. split.
        { econstructor; eassumption. }
        split; [congruence|]. split.
        { rewrite Hlines', Hlines, <- Hv. reflexivity. }
        exists (extra ++ extra'). rewrite Hpr', app_assoc. split; [reflexivity|].
        apply Forall_app; split; assumption.
      * exact IH.
    + cbn [all_ok]. exists w1, e. reflexivity.
Qed.

End Loop.

(** ** A whole invoice *)

(** How many of [statuses] are [st]. *)
Definition count_occ_status (st : LineStatus) (statuses : list LineStatus) : nat :=
  List.length (filter (LineStatus_eqb st) statuses).

(** The rows [validate_invoice] reads for an invoice. *)
Definition invoice_row (invoice_id : uuid) (w : World) : option Invoice :=
  hd_error (filter (fun i => Nat.eqb (inv_id i) invoice_id) (invoices w)).

Definition lines_of (invoice_id : uuid) (w : World) : list InvoiceLine :=
  order_by_line_no
    (filter (fun l => Nat.eqb (line_invoice_id l) invoice_id) (invoice_lines w)).

Definition zero_counts : Counts := mkCounts 0 0 0 0.

Definition summary (invoice_id : uuid) (total : nat) (c : Counts)
           (validated_at : option timestamp) : ValidationResult :=
  mkValidationResult invoice_id (overall_status c) total (match_count c)
                     (mismatch_count c) (created_price_record_count c)
                     (no_match_count c) validated_at.

Lemma validate_spec invoice_id w invoice :
  invoice_row invoice_id w = Some invoice ->
  lines_of invoice_id w <> [] ->
  let lines := lines_of invoice_id w in
  let supplier_name := inv_supplier_name invoice in
  let invoice_date := invoice_date_of parse_iso_date invoice in
  let currency := inv_currency invoice in
  match all_ok (verdicts supplier_name invoice_date currency
                         (buying_price_records w) lines) with
  | Some statuses =>
      let counts := fold_left count_status statuses zero_counts in
      exists w' w1 validated_at,
        validate invoice_id w
        = (w', Ok (summary invoice_id (List.length lines) counts validated_at))
        /\ resolves invoice_id supplier_name invoice_date currency
                    w lines statuses w1
        /\ validated_at = (match overall_status counts with
                           | validated => Some (clock w1)
                           | _ => None
                           end)
        /\ invoices w'
           = update_invoice_status invoice_id (overall_status counts)
                                   validated_at (invoices w)
        /\ invoice_lines w'
           = apply_updates (combine (map line_id lines) statuses)
                           (invoice_lines w)
        /\ exists extra,
             buying_price_records w' = buying_price_records w ++ extra
             /\ Forall learned extra
  | None => exists w' e, validate invoice_id w = (w', Raise e)
  end.
Proof.
  intros Hrow Hne. cbv zeta.
  pose proof (loop_spec invoice_id (inv_supplier_name invoice)
                        (invoice_date_of parse_iso_date invoice)
                        (inv_currency invoice) (lines_of invoice_id w)
                        w zero_counts) as Hloop.
  assert (Hopen :
    validate invoice_id w
    = (counts <- for_each (lines_of invoice_id w)
                   (loop_body invoice_id (inv_supplier_name invoice)
                              (invoice_date_of parse_iso_date invoice)
                              (inv_currency invoice))
                   zero_counts ;;
       validated_at <-
         (match overall_status counts with
          | validated => t <- now ;; ret (Some t)
          | _ => ret None
          end) ;;
       _update_invoice_status invoice_id (overall_status counts) validated_at ;;;
       _log_audit "invoice" invoice_id "INVOICE_VALIDATED"
                  (ValidationSummary (overall_status counts)
                     (List.length (lines_of invoice_id w))
                     (match_count counts) (mismatch_count counts)
                     (created_price_record_count counts)
                     (no_match_count counts)) ;;;
       ret (summary invoice_id (List.length (lines_of invoice_id w)) counts
                    validated_at)) w).
  { unfold validate_invoice, invoice_row, lines_of in *.
    unfold bind at 1. cbn [get_world].
    destruct (filter _ (invoices w)) as [|i rest]; [discriminate|].
    cbn in Hrow. inversion Hrow; subst i; clear Hrow.
    destruct (order_by_line_no _) as [|l0 ls]; [congruence|].
    reflexivity. }
  rewrite Hopen. clear Hopen.
  destruct (all_ok _) as [statuses|]; unfold bind at 1.
  - destruct Hloop as (w1 & Hrun & Hres & Hinv & Hlines & extra & Hpr & Hlearned).
    rewrite Hrun.
    set (counts := fold_left count_status statuses _) in *.
    destruct (overall_status counts) eqn:Hov.
    all: eexists; exists w1; eexists.
    all: (split;
          [ unfold bind, ret, now, _update_invoice_status, _log_audit, modify,
              uuid4, summary; cbn; rewrite Hov; reflexivity |]).
    all: split; [exact Hres|]; split; [reflexivity|].
    all: cbn; rewrite Hinv, Hlines, Hpr.
    all: split; [reflexivity|]; split; [reflexivity|].
    all: exists extra; split; [reflexivity | exact Hlearned].
  - destruct Hloop as (w1 & e & Hrun). rewrite Hrun.
    exists w1, e. reflexivity.
Qed.

(** ** Counting *)

Lemma overall_status_cases c :
  (overall_status c = validated
   /\ mismatch_count c = 0 /\ created_price_record_count c = 0
   /\ no_match_count c = 0)
  \/ (overall_status c = needs_review
      /\ ~ (mismatch_count c = 0 /\ created_price_record_count c = 0
            /\ no_match_count c = 0)).
Proof.
  unfold overall_status.
  destruct (mismatch_count c) as [|a]; destruct (created_price_record_count c) as [|b];
    destruct (no_match_count c) as [|d]; cbn;
    first [left; repeat split; reflexivity
          | right; split; [reflexivity | intros (? & ? & ?); discriminate]].
Qed.

Lemma overall_validated_iff c :
  overall_status c = validated
  <-> mismatch_count c = 0 /\ created_price_record_count c = 0
      /\ no_match_count c = 0.
Proof.
  destruct (overall_status_cases c) as [(H & H0)|(H & H0)]; rewrite H.
  - tauto.
  - split; [discriminate | intros; contradiction].
Qed.

Lemma fold_count_fields statuses :
  forall c,
    let c' := fold_left count_status statuses c in
    mismatch_count c'
    = mismatch_count c + count_occ_status mismatch statuses
    /\ created_price_record_count c'
       = created_price_record_count c
         + count_occ_status created_price_record statuses
    /\ no_match_count c' = no_match_count c + count_occ_status unknown statuses
    /\ match_count c' = match_count c + count_occ_status line_match statuses.
Proof.
  unfold count_occ_status.
  induction statuses as [|st sts IH]; intros c; cbn.
  - repeat split; lia.
  - destruct (IH (count_status c st)) as (H1 & H2 & H3 & H4).
    cbv zeta in *. rewrite H1, H2, H3, H4.
    destruct st; cbn; repeat split; lia.
Qed.

Lemma verdict_never_no_match table line supplier_name d currency st :
  verdict table line supplier_name d currency = Ok st -> st <> no_match.
Proof.
  unfold verdict, compare_prices. intros H Heq. subst st.
  repeat match type of H with
         | context [if ?b then _ else _] => destruct b
         | context [match ?x with _ => _ end] => destruct x
         end; discriminate.
Qed.

Lemma all_ok_Forall {A B} (f : A -> outcome B) (P : B -> Prop) l bs :
  (forall a b, f a = Ok b -> P b) ->
  all_ok (map f l) = Some bs -> Forall P bs.
Proof.
  intros Hf. revert bs. induction l as [|a l IH]; cbn; intros bs H.
  - inversion H. constructor.
  - destruct (f a) as [b|] eqn:Hb; try discriminate.
    destruct (all_ok (map f l)) as [bs'|]; try discriminate.
    inversion H; subst. constructor; eauto.
Qed.

Lemma all_match_iff_counts statuses :
  Forall (fun st => st <> no_match) statuses ->
  (Forall (eq line_match) statuses
   <-> count_occ_status mismatch statuses = 0
       /\ count_occ_status created_price_record statuses = 0
       /\ count_occ_status unknown statuses = 0).
Proof.
  unfold count_occ_status.
  induction 1 as [|st sts Hst _ IH]; cbn.
  - split; [auto | constructor].
  - destruct st; cbn; try congruence.
    + rewrite <- IH. split.
      * intros H. inversion H; assumption.
      * intros H. constructor; [reflexivity | assumption].
    + split; [intros H; inversion H; discriminate | intros (? & _); discriminate].
    + split; [intros H; inversion H; discriminate | intros (_ & ? & _); discriminate].
    + split; [intros H; inversion H; discriminate | intros (_ & _ & ?); discriminate].
Qed.

Lemma validate_ok_row invoice_id w w' r :
  validate invoice_id w = (w', Ok r) ->
  exists invoice, invoice_row invoice_id w = Some invoice.
Proof.
  unfold validate_invoice, invoice_row. unfold bind at 1. cbn [get_world].
  destruct (filter _ (invoices w)) as [|i rest]; [discriminate|].
  intros _. exists i. reflexivity.
Qed.

Lemma update_invoice_status_keeps_validated_at invoice_id st rows :
  map inv_validated_at (update_invoice_status invoice_id st None rows)
  = map inv_validated_at rows.
Proof.
  unfold update_invoice_status. rewrite map_map. apply map_ext.
  intros i. destruct (Nat.eqb _ _); reflexivity.
Qed.

(** C1. After [validate_invoice] has processed an invoice with at least one
    line, the invoice's status is [validated] iff every line resolved to
    [line_match], that is iff no line resolved to [mismatch],
    [created_price_record] or [unknown]; it is [needs_review] otherwise.
    The status is written to the invoice's row together with
    [validated_at], which is set in the [validated] case and left as it
    was in the [needs_review] case. *)
Theorem validate_status_iff_all_lines_match invoice_id w w' r :
  lines_of invoice_id w <> [] ->
  validate invoice_id w = (w', Ok r) ->
  exists invoice statuses w1,
    invoice_row invoice_id w = Some invoice
    /\ resolves invoice_id (inv_supplier_name invoice)
                (invoice_date_of parse_iso_date invoice) (inv_currency invoice)
                w (lines_of invoice_id w) statuses w1
    /\ (vr_status r = validated <-> Forall (eq line_match) statuses)
    /\ (vr_status r = needs_review <-> ~ Forall (eq line_match) statuses)
    /\ (Forall (eq line_match) statuses
        <-> count_occ_status mismatch statuses = 0
            /\ count_occ_status created_price_record statuses = 0
            /\ count_occ_status unknown statuses = 0)
    /\ invoices w'
       = update_invoice_status invoice_id (vr_status r) (vr_validated_at r)
                               (invoices w)
    /\ (forall i, In i (invoices w') -> inv_id i = invoice_id ->
                  inv_status i = vr_status r)
    /\ (vr_status r = validated ->
        vr_validated_at r = Some (clock w1)
        /\ forall i, In i (invoices w') -> inv_id i = invoice_id ->
                     inv_validated_at i = Some (clock w1))
    /\ (vr_status r = needs_review ->
        vr_validated_at r = None
        /\ map inv_validated_at (invoices w') = map inv_validated_at (invoices w)).
Proof.
  intros Hne Hrun.
  destruct (validate_ok_row _ _ Hrun) as [invoice Hrow].
  pose proof (validate_spec invoice_id w Hrow Hne) as Hspec. cbv zeta in Hspec.
  destruct (all_ok _) as [statuses|] eqn:Hall.
  2:{ destruct Hspec as (w2 & e & H). congruence. }
  destruct Hspec as (w2 & w1 & va & Hval & Hres & Hva & Hinv & _).
  rewrite Hrun in Hval. inversion Hval; subst w2 r; clear Hval.
  set (counts := fold_left count_status statuses zero_counts) in *.
  assert (Hnm : Forall (fun st => st <> no_match) statuses).
  { unfold verdicts in Hall. eapply all_ok_Forall; [|exact Hall].
    intros l st. apply verdict_never_no_match. }
  pose proof (all_match_iff_counts Hnm) as Hiff.
  destruct (fold_count_fields statuses zero_counts) as (F1 & F2 & F3 & _).
  fold counts in F1, F2, F3. cbn in F1, F2, F3.
  assert (Hov : overall_status counts = validated
                <-> Forall (eq line_match) statuses).
  { rewrite overall_validated_iff, Hiff, F1, F2, F3. reflexivity. }
  exists invoice, statuses, w1. cbn [summary vr_status vr_validated_at].
  split; [exact Hrow|]. split; [exact Hres|]. split; [exact Hov|].
  split.
  { rewrite <- Hov.
    destruct (overall_status_cases counts) as [(H & _)|(H & _)]; rewrite H;
      split; congruence. }
  split; [exact Hiff|]. split; [exact Hinv|].
  split.
  { intros i Hin Hid. rewrite Hinv in Hin. unfold update_invoice_status in Hin.
    apply in_map_iff in Hin. destruct Hin as (i0 & Hi & _). subst i.
    destruct (Nat.eqb (inv_id i0) invoice_id) eqn:E; [reflexivity|].
    apply Nat.eqb_neq in E. contradiction. }
  split.
  - intros Hval. rewrite Hval in Hva. split; [exact Hva|].
    intros i Hin Hid. rewrite Hinv in Hin. unfold update_invoice_status in Hin.
    apply in_map_iff in Hin. destruct Hin as (i0 & Hi & _). subst i.
    destruct (Nat.eqb (inv_id i0) invoice_id) eqn:E.
    + rewrite Hva. reflexivity.
    + apply Nat.eqb_neq in E. contradiction.
  - intros Hrev. rewrite Hrev in Hva. split; [exact Hva|].
    rewrite Hinv, Hva. apply update_invoice_status_keeps_validated_at.
Qed.

(** ** Comparing with the reference price *)

Lemma verdict_with_reference table line supplier_name d currency record
      expected actual :
  find_reference table line supplier_name d = Some record ->
  pr_unit_price record = Some expected ->
  line_unit_price line = Some actual ->
  truthy_float (Some actual) = true ->
  verdict table line supplier_name d currency
  = Ok (compare_prices actual expected).
Proof.
  intros Hfind Hexp Hact Ht. unfold verdict.
  destruct (find_reference_In _ _ _ _ Hfind) as (_ & _ & Hkey).
  rewrite Hkey, Hfind, Hexp, Hact, Ht. reflexivity.
Qed.

(** C4. For a line with a comparable unit price and a reference record
    found, the comparison is strict: the line is [line_match] exactly when
    [|actual - expected| < 0.0001]; a difference whose absolute value is
    exactly [0.0001] gives [mismatch], one of [0.00009] gives
    [line_match]. *)
Theorem tolerance_boundary_is_strict line invoice_id supplier_name
        invoice_date currency w record expected actual :
  find_reference (buying_price_records w) line supplier_name invoice_date
  = Some record ->
  pr_unit_price record = Some expected ->
  line_unit_price line = Some actual ->
  truthy_float (Some actual) = true ->
  let diff := PrimFloat.sub actual expected in
  let run := validate_line line invoice_id supplier_name invoice_date
                           currency w in
  let status := outcome_map lr_status (snd run) in
  status = Ok (if PrimFloat.ltb (PrimFloat.abs diff) 0.0001%float
               then line_match else mismatch)
  /\ (PrimFloat.abs diff = 0.0001%float -> status = Ok mismatch)
  /\ (PrimFloat.abs diff = 0.00009%float -> status = Ok line_match)
  /\ invoice_lines (fst run)
     = update_line_status (line_id line)
         (if PrimFloat.ltb (PrimFloat.abs diff) 0.0001%float
          then line_match else mismatch)
         (invoice_lines w).
Proof.
  intros Hfind Hexp Hact Ht diff run status.
  destruct (validate_line_spec line invoice_id supplier_name invoice_date
                               currency w) as [Hv Heff].
  assert (Hverd : verdict (buying_price_records w) line supplier_name
                          invoice_date currency
                  = Ok (compare_prices actual expected))
    by (apply verdict_with_reference with (record := record); assumption).
  rewrite Hverd in Hv, Heff.
  unfold compare_prices in Hv, Heff. fold diff in Hv, Heff. fold run in Hv, Heff.
  fold status in Hv.
  split; [exact Hv|]. split; [|split].
  - intros Habs. rewrite Hv, Habs. reflexivity.
  - intros Habs. rewrite Hv, Habs. reflexivity.
  - exact (le_lines Heff).
Qed.

(** ** A zero unit price *)

(** Every [active] row of the price table carries a unit price. *)
Definition active_prices_present (table : list PriceRecord) : Prop :=
  forall r, In r table -> pr_status r = Some active -> pr_unit_price r <> None.

Lemma verdict_zero_price table line supplier_name d currency :
  line_unit_price line = Some 0%float ->
  active_prices_present table ->
  verdict table line supplier_name d currency = Ok unknown.
Proof.
  intros Hz Hwf. unfold verdict, can_learn. rewrite Hz.
  destruct (has_key line); [|reflexivity].
  destruct (find_reference _ _ _ _) as [record|] eqn:Hfind.
  - destruct (find_reference_In _ _ _ _ Hfind) as (Hin & Hact & _).
    specialize (Hwf record Hin Hact).
    destruct (pr_unit_price record); [reflexivity | contradiction].
  - cbn. rewrite andb_false_r. reflexivity.
Qed.

(** C10. A line whose [unit_price] is exactly [0] is marked [unknown]: no
    price record is learned from it, whatever else the line carries, and
    it is not compared with a reference record that was found. *)
Theorem zero_unit_price_is_unknown line invoice_id supplier_name invoice_date
        currency w :
  line_unit_price line = Some 0%float ->
  active_prices_present (buying_price_records w) ->
  let run := validate_line line invoice_id supplier_name invoice_date
                           currency w in
  outcome_map lr_status (snd run) = Ok unknown
  /\ invoice_lines (fst run)
     = update_line_status (line_id line) unknown (invoice_lines w)
  /\ buying_price_records (fst run) = buying_price_records w
  /\ can_learn line supplier_name currency = false.
Proof.
  intros Hz Hwf run.
  destruct (validate_line_spec line invoice_id supplier_name invoice_date
                               currency w) as [Hv Heff].
  assert (Hverd : verdict (buying_price_records w) line supplier_name
                          invoice_date currency = Ok unknown)
    by (apply verdict_zero_price; assumption).
  rewrite Hverd in Hv, Heff. fold run in Hv, Heff.
  split; [exact Hv|]. split; [exact (le_lines Heff)|]. split.
  - destruct (le_prices Heff) as (extra & Hpr & _ & _ & Hnone).
    rewrite Hpr, Hnone, app_nil_r; [reflexivity | discriminate].
  - unfold can_learn. rewrite Hz. cbn. apply andb_false_r.
Qed.

(** ** The validity window *)

(** The bound a stored [valid_from] / [valid_to] imposes: a date, or
    nothing when the column is null or does not parse. *)
Definition bound_date (v : option string) : option date :=
  match parse_bound parse_iso_date v with
  | BDate d => Some d
  | _ => None
  end.

(** The window the code checks: closed at both ends. *)
Definition in_window (c : PriceRecord) (invoice_date : date) : bool :=
  match bound_date (pr_valid_from c) with
  | Some f => (f <=? invoice_date)%Z
  | None => true
  end
  && match bound_date (pr_valid_to c) with
     | Some t => (invoice_date <=? t)%Z
     | None => true
     end.

(** The window as the specification words it: [valid_from, valid_to). *)
Definition in_half_open_window (c : PriceRecord) (invoice_date : date) : bool :=
  match bound_date (pr_valid_from c) with
  | Some f => (f <=? invoice_date)%Z
  | None => true
  end
  && match bound_date (pr_valid_to c) with
     | Some t => (invoice_date <? t)%Z
     | None => true
     end.

(** Neither bound is the empty string (which is neither null nor a date,
    and makes the comparison raise). *)
Definition bounds_typed (c : PriceRecord) : Prop :=
  pr_valid_from c <> Some EmptyString /\ pr_valid_to c <> Some EmptyString.

(** The rows the two queries select. *)
Definition sku_candidates (table : list PriceRecord)
           (supplier_name sku : option string) : list PriceRecord :=
  filter (fun r => opt_string_eqb (pr_supplier_name r) supplier_name
                   && opt_string_eqb (pr_sku r) sku
                   && is_status active (pr_status r)) table.

Definition product_name_candidates (table : list PriceRecord)
           (supplier_name product_name : option string) : list PriceRecord :=
  filter (fun r => truthy_str (pr_product_name r)
                   && opt_string_eqb (option_map str_lower (pr_product_name r))
                                     (option_map str_lower product_name))
         (filter (fun r => opt_string_eqb (pr_supplier_name r) supplier_name
                           && is_status active (pr_status r)) table).

Lemma parse_bound_typed v :
  v <> Some EmptyString ->
  parse_bound parse_iso_date v
  = match bound_date v with Some d => BDate d | None => BNone end.
Proof.
  unfold bound_date, parse_bound. destruct v as [[|a s]|]; cbn.
  - congruence.
  - destruct (parse_iso_date (String a s)); reflexivity.
  - reflexivity.
Qed.

Lemma candidate_valid_typed c d :
  bounds_typed c ->
  candidate_valid parse_iso_date c d = Some (in_window c d).
Proof.
  intros [Hf Ht]. unfold candidate_valid, in_window.
  rewrite (parse_bound_typed Hf), (parse_bound_typed Ht).
  destruct (bound_date (pr_valid_from c)) as [f|];
    destruct (bound_date (pr_valid_to c)) as [t|]; cbn;
    try destruct (f <=? d)%Z; reflexivity.
Qed.

Lemma valid_candidates_typed cs d :
  Forall bounds_typed cs ->
  valid_candidates parse_iso_date cs d
  = Some (filter (fun c => in_window c d) cs).
Proof.
  induction 1 as [|c cs Hc _ IH]; cbn; [reflexivity|].
  rewrite (candidate_valid_typed d Hc), IH. reflexivity.
Qed.

Lemma first_valid_typed cs invoice_date :
  Forall bounds_typed cs ->
  first_valid parse_iso_date cs invoice_date
  = hd_error (match invoice_date with
              | Some d => filter (fun c => in_window c d) cs
              | None => cs
              end).
Proof.
  intros H. unfold first_valid. destruct invoice_date as [d|]; [|reflexivity].
  rewrite (valid_candidates_typed d H). reflexivity.
Qed.

Lemma Forall_filter {A} (P : A -> Prop) f (l : list A) :
  Forall P l -> Forall P (filter f l).
Proof.
  intros H. apply Forall_forall. intros x Hx. apply filter_In in Hx.
  rewrite Forall_forall in H. apply H, Hx.
Qed.

(** C5, as the code has it.  With a known invoice date, a candidate is
    eligible iff [valid_from <= invoice_date] and [invoice_date <=
    valid_to], a null (or unparseable) bound imposing no constraint: the
    window is closed, and a record whose [valid_to] is the invoice date is
    eligible.  Each lookup returns the first eligible candidate.  Without
    an invoice date (missing or unparseable) every [active] candidate is
    eligible. *)
Theorem validity_window_is_closed table supplier_name key invoice_date :
  truthy_str supplier_name = true ->
  truthy_str key = true ->
  Forall bounds_typed table ->
  (forall c d,
      bounds_typed c ->
      (candidate_valid parse_iso_date c d = Some true
       <-> (forall f, bound_date (pr_valid_from c) = Some f -> (f <= d)%Z)
           /\ (forall t, bound_date (pr_valid_to c) = Some t -> (d <= t)%Z))
      /\ (bound_date (pr_valid_to c) = Some d ->
          bound_date (pr_valid_from c) = None ->
          candidate_valid parse_iso_date c d = Some true))
  /\ find_by_sku table supplier_name key invoice_date
     = hd_error (match invoice_date with
                 | Some d => filter (fun c => in_window c d)
                               (sku_candidates table supplier_name key)
                 | None => sku_candidates table supplier_name key
                 end)
  /\ find_by_product_name table supplier_name key invoice_date
     = hd_error (match invoice_date with
                 | Some d => filter (fun c => in_window c d)
                               (product_name_candidates table supplier_name key)
                 | None => product_name_candidates table supplier_name key
                 end)
  /\ (forall invoice,
        inv_invoice_date invoice = None
        \/ (exists s, inv_invoice_date invoice = Some s
                      /\ parse_iso_date s = None) ->
        invoice_date_of parse_iso_date invoice = None).
Proof.
  intros Hs Hk Htyped. split; [|split; [|split]].
  - intros c d Hc. rewrite (candidate_valid_typed d Hc). unfold in_window.
    split.
    + split.
      * intros H. inversion H as [H']. apply andb_prop in H'.
        destruct H' as [H1 H2]. split.
        -- intros f Hf. rewrite Hf in H1. apply Z.leb_le, H1.
        -- intros t Ht. rewrite Ht in H2. apply Z.leb_le, H2.
      * intros [H1 H2]. f_equal. apply andb_true_intro. split.
        -- destruct (bound_date (pr_valid_from c)) as [f|]; [|reflexivity].
           apply Z.leb_le, H1. reflexivity.
        -- destruct (bound_date (pr_valid_to c)) as [t|]; [|reflexivity].
           apply Z.leb_le, H2. reflexivity.
    + intros Ht Hf. rewrite Ht, Hf. cbn. rewrite Z.leb_refl. reflexivity.
  - unfold _find_buying_price_by_sku. rewrite Hs, Hk. cbn [negb orb].
    fold (sku_candidates table supplier_name key).
    rewrite first_valid_typed
      by (apply Forall_filter; assumption).
    destruct (sku_candidates table supplier_name key) eqn:E; cbn [truthy_list negb].
    + destruct invoice_date; reflexivity.
    + reflexivity.
  - unfold _find_buying_price_by_product_name. rewrite Hs, Hk. cbn [negb orb].
    fold (product_name_candidates table supplier_name key).
    rewrite first_valid_typed
      by (unfold product_name_candidates; do 2 apply Forall_filter; assumption).
    unfold product_name_candidates.
    destruct (filter _ table) eqn:E; cbn [truthy_list negb].
    + destruct invoice_date; reflexivity.
    + reflexivity.
  - intros invoice [H|(s0 & H & Hp)]; unfold invoice_date_of; rewrite H.
    + reflexivity.
    + destruct (truthy_str (Some s0)); [exact Hp | reflexivity].
Qed.

(** ** Learning a price *)

(** The rows [_create_buying_price_record] deduplicates against. *)
Definition need_review_candidates (table : list PriceRecord)
           (supplier_name sku : option string) : list PriceRecord :=
  filter (fun r => opt_string_eqb (pr_supplier_name r) supplier_name
                   && opt_string_eqb (pr_sku r) sku
                   && is_status need_review (pr_status r)) table.

(** The record learned from a line. *)
Definition learned_record (id : uuid) (line : InvoiceLine)
           (supplier_name : option string) (invoice_date : option date)
           (currency : option string) : PriceRecord :=
  mkPrice id supplier_name (line_sku line) (line_product_name line)
          (or_str (line_currency line) currency) (line_unit_price line)
          (Some need_review) (option_map date_isoformat invoice_date) None
          (Some learned_from_invoice) None None None None None None.

(** The line has a SKU and everything a learned record needs. *)
Definition learnable_by_sku (line : InvoiceLine)
           (supplier_name currency : option string) : Prop :=
  truthy_str supplier_name = true
  /\ truthy_str (line_sku line) = true
  /\ truthy_str (or_str (line_currency line) currency) = true
  /\ truthy_float (line_unit_price line) = true.

Ltac run_line :=
  cbv beta iota zeta delta
    [_validate_invoice_line _create_buying_price_record _log_audit
     _update_invoice_line_status float_of_column bind ret raise modify
     get_world uuid4 now].

Lemma validate_line_learns line invoice_id supplier_name invoice_date
      currency w :
  learnable_by_sku line supplier_name currency ->
  sku_candidates (buying_price_records w) supplier_name (line_sku line) = [] ->
  need_review_candidates (buying_price_records w) supplier_name (line_sku line)
  = [] ->
  exists w1,
    validate_line line invoice_id supplier_name invoice_date currency w
    = (w1, Ok (mkLineResult created_price_record (Some (uuid_supply w))))
    /\ buying_price_records w1
       = buying_price_records w
         ++ [learned_record (uuid_supply w) line supplier_name invoice_date
                            currency]
    /\ invoice_lines w1
       = update_line_status (line_id line) created_price_record
                            (invoice_lines w).
Proof.
  intros (Hs & Hk & Hc & Hp) Hnone Hnr.
  unfold need_review_candidates in Hnr.
  assert (Hfind : find_by_sku (buying_price_records w) supplier_name
                              (line_sku line) invoice_date = None).
  { unfold _find_buying_price_by_sku. rewrite Hs, Hk. cbn [negb orb].
    unfold sku_candidates in Hnone. rewrite Hnone. reflexivity. }
  eexists. split; [|split].
  - run_line. rewrite Hk, Hfind, Hs, Hc, Hp. cbn [andb orb].
    rewrite Hnr. reflexivity.
  - reflexivity.
  - reflexivity.
Qed.

Lemma validate_line_dedups line invoice_id supplier_name invoice_date
      currency w existing rest :
  learnable_by_sku line supplier_name currency ->
  sku_candidates (buying_price_records w) supplier_name (line_sku line) = [] ->
  need_review_candidates (buying_price_records w) supplier_name (line_sku line)
  = existing :: rest ->
  exists w1,
    validate_line line invoice_id supplier_name invoice_date currency w
    = (w1, Ok (mkLineResult created_price_record (Some (pr_id existing))))
    /\ buying_price_records w1 = buying_price_records w
    /\ invoice_lines w1
       = update_line_status (line_id line) created_price_record
                            (invoice_lines w).
Proof.
  intros (Hs & Hk & Hc & Hp) Hnone Hnr.
  unfold need_review_candidates in Hnr.
  assert (Hfind : find_by_sku (buying_price_records w) supplier_name
                              (line_sku line) invoice_date = None).
  { unfold _find_buying_price_by_sku. rewrite Hs, Hk. cbn [negb orb].
    unfold sku_candidates in Hnone. rewrite Hnone. reflexivity. }
  eexists. split; [|split].
  - run_line. rewrite Hk, Hfind, Hs, Hc, Hp. cbn [andb orb].
    rewrite Hnr. reflexivity.
  - reflexivity.
  - reflexivity.
Qed.

Lemma opt_string_eqb_refl_truthy v : truthy_str v = true -> opt_string_eqb v v = true.
Proof. destruct v as [s|]; cbn; [intros _; apply String.eqb_refl | discriminate]. Qed.

(** C8, as the code has it.  With no [active] price record for (supplier,
    sku), two lines carrying that supplier and sku, a currency and a
    non-zero unit price, validated one after the other, insert at most one
    price record.  If no [need_review] record for (supplier, sku) existed,
    the first line inserts one, with status [need_review] and source
    [learned_from_invoice], and the second line's attempt is deduplicated
    against it and returns its identity.  If one existed already, neither
    line inserts anything and both return the existing identity. *)
Theorem learned_price_is_deduplicated line1 line2 invoice_id supplier_name
        invoice_date currency w :
  learnable_by_sku line1 supplier_name currency ->
  learnable_by_sku line2 supplier_name currency ->
  line_sku line2 = line_sku line1 ->
  sku_candidates (buying_price_records w) supplier_name (line_sku line1) = [] ->
  exists w1 w2 id,
    validate_line line1 invoice_id supplier_name invoice_date currency w
    = (w1, Ok (mkLineResult created_price_record (Some id)))
    /\ validate_line line2 invoice_id supplier_name invoice_date currency w1
       = (w2, Ok (mkLineResult created_price_record (Some id)))
    /\ match need_review_candidates (buying_price_records w) supplier_name
                                    (line_sku line1) with
       | [] =>
           let record := learned_record id line1 supplier_name invoice_date
                                        currency in
           buying_price_records w1 = buying_price_records w ++ [record]
           /\ buying_price_records w2 = buying_price_records w ++ [record]
           /\ pr_status record = Some need_review
           /\ pr_source record = Some learned_from_invoice
       | existing :: _ =>
           id = pr_id existing
           /\ buying_price_records w1 = buying_price_records w
           /\ buying_price_records w2 = buying_price_records w
       end.
Proof.
  intros H1 H2 Hsku Hnone.
  destruct (need_review_candidates (buying_price_records w) supplier_name
                                   (line_sku line1)) as [|existing rest] eqn:Hnr.
  - destruct (@validate_line_learns line1 invoice_id supplier_name invoice_date
                                 currency w H1 Hnone Hnr)
      as (w1 & Hrun1 & Hpr1 & _).
    set (record := learned_record (uuid_supply w) line1 supplier_name
                                  invoice_date currency) in *.
    destruct H1 as (Hs & Hk & _).
    assert (Hnone1 : sku_candidates (buying_price_records w1) supplier_name
                                    (line_sku line2) = []).
    { unfold sku_candidates in *. rewrite Hpr1, filter_app, Hsku, Hnone. cbn.
      rewrite andb_false_r. reflexivity. }
    assert (Hnr1 : need_review_candidates (buying_price_records w1)
                     supplier_name (line_sku line2) = [record]).
    { unfold need_review_candidates in *. rewrite Hpr1, filter_app, Hsku, Hnr.
      cbn. rewrite !opt_string_eqb_refl_truthy by assumption. reflexivity. }
    destruct (@validate_line_dedups line2 invoice_id supplier_name invoice_date
                                 currency w1 _ _ H2 Hnone1 Hnr1)
      as (w2 & Hrun2 & Hpr2 & _).
    exists w1, w2, (uuid_supply w). split; [exact Hrun1|].
    split; [exact Hrun2|]. cbv zeta. fold record.
    split; [exact Hpr1|]. split; [congruence|]. split; reflexivity.
  - destruct (@validate_line_dedups line1 invoice_id supplier_name invoice_date
                                 currency w _ _ H1 Hnone Hnr)
      as (w1 & Hrun1 & Hpr1 & _).
    assert (Hnone1 : sku_candidates (buying_price_records w1) supplier_name
                                    (line_sku line2) = [])
      by (rewrite Hpr1, Hsku; exact Hnone).
    assert (Hnr1 : need_review_candidates (buying_price_records w1)
                     supplier_name (line_sku line2) = existing :: rest)
      by (rewrite Hpr1, Hsku; exact Hnr).
    destruct (@validate_line_dedups line2 invoice_id supplier_name invoice_date
                                 currency w1 _ _ H2 Hnone1 Hnr1)
      as (w2 & Hrun2 & Hpr2 & _).
    exists w1, w2, (pr_id existing). split; [exact Hrun1|].
    split; [exact Hrun2|]. split; [reflexivity|]. split; congruence.
Qed.

(** ** Running validation again *)

(** What [update_line_status] calls in sequence make of one row. *)
Definition row_after (updates : list (uuid * LineStatus)) (row : InvoiceLine)
  : InvoiceLine :=
  fold_left (fun r (u : uuid * LineStatus) =>
               if Nat.eqb (line_id r) (fst u)
               then set_line_status (snd u) r else r)
            updates row.

(** The last status [updates] assigns to [id], if any. *)
Fixpoint last_update (updates : list (uuid * LineStatus)) (id : uuid)
  : option LineStatus :=
  match updates with
  | [] => None
  | u :: rest =>
      match last_update rest id with
      | Some st => Some st
      | None => if Nat.eqb id (fst u) then Some (snd u) else None
      end
  end.

Lemma apply_updates_rows updates :
  forall rows, apply_updates updates rows = map (row_after updates) rows.
Proof.
  unfold apply_updates, row_after.
  induction updates as [|u us IH]; intros rows; cbn.
  - symmetry. apply map_id.
  - rewrite IH. unfold update_line_status. rewrite map_map. reflexivity.
Qed.

Lemma row_after_last updates :
  forall row,
    row_after updates row
    = match last_update updates (line_id row) with
      | Some st => set_line_status st row
      | None => row
      end.
Proof.
  unfold row_after.
  induction updates as [|u us IH]; intros row; cbn; [reflexivity|].
  rewrite IH.
  destruct (Nat.eqb (line_id row) (fst u)) eqn:E; cbn;
    destruct (last_update us (line_id row)); reflexivity.
Qed.

Lemma row_after_idempotent updates row :
  row_after updates (row_after updates row) = row_after updates row.
Proof.
  rewrite (row_after_last updates row).
  destruct (last_update updates (line_id row)) as [st|] eqn:E.
  - rewrite row_after_last. cbn. rewrite E. reflexivity.
  - rewrite row_after_last, E. reflexivity.
Qed.

Lemma apply_updates_idempotent updates rows :
  apply_updates updates (apply_updates updates rows)
  = apply_updates updates rows.
Proof.
  rewrite !apply_updates_rows, map_map. apply map_ext.
  intros row. apply row_after_idempotent.
Qed.

(** A row-wise change that touches only the status column. *)
Definition status_only (h : InvoiceLine -> InvoiceLine) : Prop :=
  forall l, set_line_status unknown (h l) = set_line_status unknown l.

Lemma row_after_status_only updates : status_only (row_after updates).
Proof.
  intros l. rewrite row_after_last.
  destruct (last_update updates (line_id l)); reflexivity.
Qed.

Lemma status_only_fields h l :
  status_only h ->
  line_id (h l) = line_id l /\ line_invoice_id (h l) = line_invoice_id l
  /\ line_no (h l) = line_no l.
Proof.
  intros H. specialize (H l).
  repeat split.
  - change (line_id (set_line_status unknown (h l)) = line_id l).
    rewrite H. reflexivity.
  - change (line_invoice_id (set_line_status unknown (h l)) = line_invoice_id l).
    rewrite H. reflexivity.
  - change (line_no (set_line_status unknown (h l)) = line_no l).
    rewrite H. reflexivity.
Qed.

Lemma verdict_status_only h table l supplier_name d currency :
  status_only h ->
  verdict table (h l) supplier_name d currency
  = verdict table l supplier_name d currency.
Proof.
  intros H.
  change (verdict table (set_line_status unknown (h l)) supplier_name d currency
          = verdict table (set_line_status unknown l) supplier_name d currency).
  rewrite (H l). reflexivity.
Qed.

Lemma filter_map_comm {A} (p : A -> bool) (h : A -> A) l :
  (forall x, p (h x) = p x) -> filter p (map h l) = map h (filter p l).
Proof.
  intros H. induction l as [|x l IH]; cbn; [reflexivity|].
  rewrite H. destruct (p x); cbn; rewrite IH; reflexivity.
Qed.

Lemma order_by_line_no_map h l :
  (forall x, line_no (h x) = line_no x) ->
  order_by_line_no (map h l) = map h (order_by_line_no l).
Proof.
  intros H.
  assert (Hins : forall x l', insert_by_line_no (h x) (map h l')
                              = map h (insert_by_line_no x l')).
  { intros x l'. induction l' as [|y l' IH]; cbn; [reflexivity|].
    unfold line_no_leb. rewrite !H.
    destruct (line_no x), (line_no y); try destruct (_ <=? _)%Z; cbn;
      rewrite ?IH; reflexivity. }
  induction l as [|x l IH]; cbn; [reflexivity|].
  rewrite IH. apply Hins.
Qed.

Lemma lines_of_status_only h invoice_id w w1 :
  status_only h ->
  invoice_lines w1 = map h (invoice_lines w) ->
  lines_of invoice_id w1 = map h (lines_of invoice_id w).
Proof.
  intros H Hl. unfold lines_of. rewrite Hl.
  rewrite filter_map_comm.
  - apply order_by_line_no_map. intros x. apply (status_only_fields x H).
  - intros x. destruct (status_only_fields x H) as (_ & -> & _). reflexivity.
Qed.

Lemma invoice_row_updated invoice_id st va w w1 invoice :
  invoices w1 = update_invoice_status invoice_id st va (invoices w) ->
  invoice_row invoice_id w = Some invoice ->
  invoice_row invoice_id w1 = Some (set_invoice_status st va invoice).
Proof.
  unfold invoice_row, update_invoice_status. intros -> H.
  rewrite filter_map_comm.
  - destruct (filter _ (invoices w)) as [|i rest] eqn:E; [discriminate|].
    cbn in H. inversion H; subst i. cbn.
    assert (Hin : In invoice (invoice :: rest)) by (left; reflexivity).
    rewrite <- E in Hin. apply filter_In in Hin. destruct Hin as [_ Hid].
    rewrite Hid. reflexivity.
  - intros x. destruct (Nat.eqb (inv_id x) invoice_id) eqn:E; cbn; rewrite E;
      reflexivity.
Qed.

Lemma update_invoice_status_twice invoice_id st va va' rows :
  map inv_status
      (update_invoice_status invoice_id st va
         (update_invoice_status invoice_id st va' rows))
  = map inv_status (update_invoice_status invoice_id st va' rows).
Proof.
  unfold update_invoice_status. rewrite !map_map. apply map_ext.
  intros i. destruct (Nat.eqb (inv_id i) invoice_id) eqn:E; cbn; rewrite E;
    reflexivity.
Qed.

Lemma validate_no_lines invoice_id w invoice :
  invoice_row invoice_id w = Some invoice ->
  lines_of invoice_id w = [] ->
  exists w',
    validate invoice_id w
    = (w', Ok (mkValidationResult invoice_id needs_review 0 0 0 0 0 None))
    /\ invoices w'
       = update_invoice_status invoice_id needs_review None (invoices w)
    /\ invoice_lines w' = invoice_lines w
    /\ buying_price_records w' = buying_price_records w.
Proof.
  unfold invoice_row, lines_of. intros Hrow Hl.
  eexists. split; [|split; [|split]].
  - unfold validate_invoice. unfold bind at 1. cbn [get_world].
    destruct (filter _ (invoices w)) as [|i rest]; [discriminate|].
    rewrite Hl. cbn [truthy_list negb].
    unfold bind, ret, _update_invoice_status, _log_audit, modify, uuid4, now.
    cbn. reflexivity.
  - reflexivity.
  - reflexivity.
  - reflexivity.
Qed.

Lemma verdicts_rerun h supplier_name d currency table extra lines :
  status_only h ->
  Forall learned extra ->
  verdicts supplier_name d currency (table ++ extra) (map h lines)
  = verdicts supplier_name d currency table lines.
Proof.
  intros Hh Hex. unfold verdicts. rewrite map_map. apply map_ext.
  intros l. rewrite verdict_app.
  - apply verdict_status_only, Hh.
  - eapply Forall_impl; [|exact Hex]. apply learned_inactive.
Qed.

(** C6. When [validate_invoice] has run on an invoice, running it again on
    the world the first run left (nothing else having changed) resolves
    every line to the same status, leaves every stored line status as the
    first run set it, gives the invoice the same status, and returns the
    same summary counts. *)
Theorem validate_is_idempotent invoice_id w w1 r1 :
  validate invoice_id w = (w1, Ok r1) ->
  exists w2 r2,
    validate invoice_id w1 = (w2, Ok r2)
    /\ vr_status r2 = vr_status r1
    /\ vr_total_lines r2 = vr_total_lines r1
    /\ vr_match_count r2 = vr_match_count r1
    /\ vr_mismatch_count r2 = vr_mismatch_count r1
    /\ vr_created_price_record_count r2 = vr_created_price_record_count r1
    /\ vr_no_match_count r2 = vr_no_match_count r1
    /\ invoice_lines w2 = invoice_lines w1
    /\ map inv_status (invoices w2) = map inv_status (invoices w1)
    /\ exists invoice statuses wa wb,
         invoice_row invoice_id w = Some invoice
         /\ resolves invoice_id (inv_supplier_name invoice)
                     (invoice_date_of parse_iso_date invoice)
                     (inv_currency invoice)
                     w (lines_of invoice_id w) statuses wa
         /\ resolves invoice_id (inv_supplier_name invoice)
                     (invoice_date_of parse_iso_date invoice)
                     (inv_currency invoice)
                     w1 (lines_of invoice_id w1) statuses wb.
Proof.
  intros Hrun.
  destruct (validate_ok_row _ _ Hrun) as [invoice Hrow].
  destruct (lines_of invoice_id w) as [|l0 ls] eqn:Hlines0.
  - (* no lines *)
    destruct (validate_no_lines _ _ Hrow Hlines0) as (w' & Hval & Hinv & Hl & _).
    rewrite Hrun in Hval. inversion Hval; subst w' r1; clear Hval.
    pose proof (invoice_row_updated _ _ _ _ _ Hinv Hrow) as Hrow1.
    assert (Hlines1 : lines_of invoice_id w1 = []).
    { unfold lines_of in *. rewrite Hl. exact Hlines0. }
    destruct (validate_no_lines _ _ Hrow1 Hlines1) as (w2 & Hval2 & Hinv2 & Hl2 & _).
    exists w2. eexists. split; [exact Hval2|]. cbn.
    repeat (split; [reflexivity|]).
    split; [exact Hl2|]. split.
    { rewrite Hinv2, Hinv. apply update_invoice_status_twice. }
    exists invoice, [], w, w1. split; [exact Hrow|].
    rewrite Hlines1. split; constructor.
  - (* at least one line *)
    assert (Hne : lines_of invoice_id w <> []) by (rewrite Hlines0; discriminate).
    pose proof (validate_spec invoice_id w Hrow Hne) as Hspec. cbv zeta in Hspec.
    destruct (all_ok _) as [statuses|] eqn:Hall.
    2:{ destruct Hspec as (w' & e & H). congruence. }
    destruct Hspec as (w' & wa & va & Hval & Hres & _ & Hinv & Hl & extra & Hpr & Hex).
    rewrite Hrun in Hval. inversion Hval; subst w' r1; clear Hval.
    rewrite <- Hlines0 in *. clear Hlines0 l0 ls.
    set (lines := lines_of invoice_id w) in *.
    set (counts := fold_left count_status statuses zero_counts) in *.
    set (updates := combine (map line_id lines) statuses) in *.
    pose proof (invoice_row_updated _ _ _ _ _ Hinv Hrow) as Hrow1.
    assert (Hlines1 : lines_of invoice_id w1 = map (row_after updates) lines).
    { apply lines_of_status_only; [apply row_after_status_only|].
      rewrite Hl. apply apply_updates_rows. }
    assert (Hne1 : lines_of invoice_id w1 <> []).
    { rewrite Hlines1. intros H. apply map_eq_nil in H. contradiction. }
    pose proof (validate_spec invoice_id w1 Hrow1 Hne1) as Hspec. cbv zeta in Hspec.
    cbn [set_invoice_status inv_supplier_name inv_currency] in Hspec.
    change (invoice_date_of parse_iso_date
              (set_invoice_status (overall_status counts) va invoice))
      with (invoice_date_of parse_iso_date invoice) in Hspec.
    rewrite Hlines1, Hpr in Hspec.
    rewrite (verdicts_rerun _ _ _ _ _ (row_after_status_only updates) Hex) in Hspec.
    fold lines in Hall. rewrite Hall in Hspec. fold counts in Hspec.
    destruct Hspec as (w2 & wb & va2 & Hval2 & Hres2 & _ & Hinv2 & Hl2 & _).
    exists w2. eexists. split; [exact Hval2|]. cbn [summary vr_status vr_total_lines
      vr_match_count vr_mismatch_count vr_created_price_record_count
      vr_no_match_count].
    split; [reflexivity|]. split; [apply length_map|].
    repeat (split; [reflexivity|]).
    split.
    { rewrite Hl2, map_map.
      assert (Hids : map (fun x => line_id (row_after updates x)) lines
                     = map line_id lines).
      { apply map_ext. intros x.
        apply (status_only_fields x (row_after_status_only updates)). }
      rewrite Hids. fold updates. rewrite Hl. apply apply_updates_idempotent. }
    split.
    { rewrite Hinv2, Hinv. apply update_invoice_status_twice. }
    exists invoice, statuses, wa, wb. split; [exact Hrow|]. split; [exact Hres|].
    rewrite Hlines1. exact Hres2.
Qed.

End ValidationFacts.

(** * Facts about mismatch resolution *)

(** ** Disputes *)

(** The body of [for line_id in line_ids] in [dispute_invoice]. *)
Definition dispute_line (_ : unit) (lid : uuid) : M unit :=
  t <- now ;;
  modify (with_invoice_lines
            (map (fun l => if Nat.eqb (line_id l) lid
                           then set_line_disputed t l else l))).

(** The line is one of those the dispute names. *)
Definition targeted (line_ids : option (list uuid)) (l : InvoiceLine) : bool :=
  match line_ids with
  | Some ids => existsb (Nat.eqb (line_id l)) ids
  | None => false
  end.

(** Re-applying a keyed overwrite changes nothing. *)
Lemma overwrite_again {A K V} (key : A -> K) (st : A -> V) (P : K -> bool) (c : V) :
  forall l l',
    map key l' = map key l ->
    map st l' = map (fun x => if P (key x) then c else st x) l ->
    map (fun x => if P (key x) then c else st x) l' = map st l'.
Proof.
  induction l as [|x l IH]; intros [|x' l'] Hk Hs; cbn in *;
    try discriminate; [reflexivity|].
  inversion Hk as [[Hk1 Hk2]]. inversion Hs as [[Hs1 Hs2]].
  rewrite (IH l' Hk2 Hs2). f_equal.
  rewrite Hk1. destruct (P (key x)); [symmetry; exact Hs1 | reflexivity].
Qed.

Lemma dispute_lines_loop ids :
  forall w,
    exists w',
      for_each ids dispute_line tt w = (w', Ok tt)
      /\ invoices w' = invoices w
      /\ map line_id (invoice_lines w') = map line_id (invoice_lines w)
      /\ map line_status (invoice_lines w')
         = map (fun l => if existsb (Nat.eqb (line_id l)) ids
                         then Some no_match else line_status l)
               (invoice_lines w).
Proof.
  induction ids as [|a ids IH]; intros w.
  - exists w. cbn. repeat split; try reflexivity.
  - cbn [for_each]. unfold bind at 1. unfold dispute_line at 1.
    unfold bind, now, modify. cbn.
    match goal with
    | |- context [for_each ids dispute_line tt ?w0] =>
        destruct (IH w0) as (w' & Hrun & Hinv & Hids & Hst)
    end.
    exists w'. split; [exact Hrun|]. cbn in Hinv, Hids, Hst.
    split; [exact Hinv|]. split.
    + rewrite Hids, map_map. apply map_ext. intros l.
      destruct (Nat.eqb (line_id l) a); reflexivity.
    + rewrite Hst, map_map. apply map_ext. intros l.
      destruct (Nat.eqb (line_id l) a) eqn:E; cbn; rewrite ?E; cbn;
        destruct (existsb (Nat.eqb (line_id l)) ids); reflexivity.
Qed.

Lemma dispute_invoice_effect invoice_id reason line_ids user_id w :
  exists w' r,
    dispute_invoice invoice_id reason line_ids user_id w = (w', Ok r)
    /\ dr_status r = disputed
    /\ map inv_id (invoices w') = map inv_id (invoices w)
    /\ map inv_status (invoices w')
       = map (fun i => if Nat.eqb (inv_id i) invoice_id
                       then disputed else inv_status i) (invoices w)
    /\ map line_id (invoice_lines w') = map line_id (invoice_lines w)
    /\ map line_status (invoice_lines w')
       = map (fun l => if targeted line_ids l
                       then Some no_match else line_status l)
             (invoice_lines w).
Proof.
  assert (Hinv_id : forall t rows,
             map inv_id (map (fun i => if Nat.eqb (inv_id i) invoice_id
                                       then set_invoice_disputed t i else i) rows)
             = map inv_id rows).
  { intros t rows. rewrite map_map. apply map_ext. intros i.
    destruct (Nat.eqb _ _); reflexivity. }
  assert (Hinv_st : forall t rows,
             map inv_status (map (fun i => if Nat.eqb (inv_id i) invoice_id
                                           then set_invoice_disputed t i else i) rows)
             = map (fun i => if Nat.eqb (inv_id i) invoice_id
                             then disputed else inv_status i) rows).
  { intros t rows. rewrite map_map. apply map_ext. intros i.
    destruct (Nat.eqb _ _); reflexivity. }
  unfold dispute_invoice.
  destruct line_ids as [[|a ids]|].
  1,3: do 2 eexists; split;
    [ unfold bind, now, modify, ret, _generate_dispute_summary, _log_dispute,
        get_world, uuid4; cbn; reflexivity |];
    cbn; split; [reflexivity|]; split; [apply Hinv_id|];
    split; [apply Hinv_st|]; split; [reflexivity|];
    symmetry; apply map_ext; reflexivity.
  unfold bind at 1. unfold now at 1. unfold bind at 1. unfold modify at 1.
  unfold bind at 1.
  fold dispute_line.
  match goal with
  | |- context [for_each (a :: ids) dispute_line tt ?w0] =>
      destruct (dispute_lines_loop (a :: ids) w0) as (w1 & Hrun & Hinv & Hids & Hst)
  end.
  rewrite Hrun. cbn in Hinv, Hids, Hst.
  do 2 eexists. split.
  { unfold bind, now, modify, ret, _generate_dispute_summary, _log_dispute,
      get_world, uuid4. cbn. reflexivity. }
  cbn. rewrite Hinv, Hids, Hst.
  split; [reflexivity|]. split; [apply Hinv_id|]. split; [apply Hinv_st|].
  split; reflexivity.
Qed.

(** C9. [dispute_invoice] sets the status of the invoice to [disputed] and
    of no other invoice.  Without line ids it leaves every line status as it
    was; with line ids it sets the status of exactly the lines named to
    [no_match] and leaves the others.  Disputing again re-applies the same
    transition: the statuses of invoices and lines do not change any
    more. *)
Theorem dispute_sets_only_targets invoice_id reason line_ids user_id w :
  exists w' r w'' r',
    dispute_invoice invoice_id reason line_ids user_id w = (w', Ok r)
    /\ dr_status r = disputed
    /\ map inv_status (invoices w')
       = map (fun i => if Nat.eqb (inv_id i) invoice_id
                       then disputed else inv_status i) (invoices w)
    /\ map line_status (invoice_lines w')
       = map (fun l => if targeted line_ids l
                       then Some no_match else line_status l)
             (invoice_lines w)
    /\ (line_ids = None \/ line_ids = Some [] ->
        map line_status (invoice_lines w') = map line_status (invoice_lines w))
    /\ dispute_invoice invoice_id reason line_ids user_id w' = (w'', Ok r')
    /\ map inv_status (invoices w'') = map inv_status (invoices w')
    /\ map line_status (invoice_lines w'') = map line_status (invoice_lines w').
Proof.
  destruct (dispute_invoice_effect invoice_id reason line_ids user_id w)
    as (w' & r & Hrun & Hst & Hiid & Hist & Hlid & Hlst).
  destruct (dispute_invoice_effect invoice_id reason line_ids user_id w')
    as (w'' & r' & Hrun' & _ & Hiid' & Hist' & Hlid' & Hlst').
  exists w', r, w'', r'.
  split; [exact Hrun|]. split; [exact Hst|]. split; [exact Hist|].
  split; [exact Hlst|]. split.
  { intros [->| ->]; rewrite Hlst; apply map_ext; reflexivity. }
  split; [exact Hrun'|]. split.
  - rewrite Hist'.
    apply (overwrite_again inv_id inv_status (fun id => Nat.eqb id invoice_id)
                           disputed (invoices w) (invoices w') Hiid Hist).
  - rewrite Hlst'. unfold targeted in *.
    destruct line_ids as [ids|].
    + apply (overwrite_again line_id line_status
                             (fun id => existsb (Nat.eqb id) ids)
                             (Some no_match) (invoice_lines w) (invoice_lines w')
                             Hlid Hlst).
    + apply map_ext. reflexivity.
Qed.

(** ** Accepting a price *)

Section AcceptPriceFacts.

Variable parse_iso_date : string -> option date.
Variable date_isoformat : date -> string.
Variable str_lower : string -> string.
Variable datetime_isoformat : timestamp -> string.

Local Abbreviation validate := (validate_invoice parse_iso_date date_isoformat str_lower).

(** The body of [for record in result.data] in [_close_old_price_record]. *)
Definition close_record (valid_from : timestamp) (_ : unit) (record : PriceRecord)
  : M unit :=
  t <- now ;;
  modify (with_buying_price_records
            (map (fun r => if Nat.eqb (pr_id r) (pr_id record)
                           then close_price_record
                                  (datetime_isoformat valid_from) t r
                           else r))).

(** What closing the records with identities [ids] makes of row [r]: a row
    with one of these identities gets [valid_to] (and [updated_at]), any
    other row stays as it is. *)
Definition closed_or_same (valid_from : timestamp) (ids : list uuid)
           (r r' : PriceRecord) : Prop :=
  if existsb (Nat.eqb (pr_id r)) ids
  then exists t, r' = close_price_record (datetime_isoformat valid_from) t r
  else r' = r.

Lemma Forall2_map_left {A B C} (R : B -> C -> Prop) (f : A -> B) l l' :
  Forall2 R (map f l) l' <-> Forall2 (fun x y => R (f x) y) l l'.
Proof.
  revert l'. induction l as [|x l IH]; intros l'; cbn.
  - split; intros H; inversion H; constructor.
  - split; intros H; inversion H; subst; constructor; try assumption;
      apply IH; assumption.
Qed.

Lemma Forall2_same {A} (R : A -> A -> Prop) l :
  (forall x, R x x) -> Forall2 R l l.
Proof. intros H. induction l; constructor; auto. Qed.

Lemma close_loop valid_from data :
  forall w,
    exists w',
      for_each data (close_record valid_from) tt w = (w', Ok tt)
      /\ invoices w' = invoices w
      /\ invoice_lines w' = invoice_lines w
      /\ audit_log w' = audit_log w
      /\ uuid_supply w' = uuid_supply w
      /\ Forall2 (closed_or_same valid_from (map pr_id data))
                 (buying_price_records w) (buying_price_records w').
Proof.
  induction data as [|a data IH]; intros w.
  - exists w. cbn. repeat split; try reflexivity.
    apply Forall2_same. intros x. reflexivity.
  - cbn [for_each]. unfold bind at 1. unfold close_record at 1.
    unfold bind, now, modify. cbn.
    match goal with
    | |- context [for_each data (close_record valid_from) tt ?w0] =>
        destruct (IH w0) as (w' & Hrun & Hinv & Hl & Hau & Hu & Hpr)
    end.
    exists w'. split; [exact Hrun|]. cbn in Hinv, Hl, Hau, Hu, Hpr.
    repeat (split; [assumption|]).
    apply (proj1 (Forall2_map_left _ _ _ _)) in Hpr.
    eapply Forall2_impl; [|exact Hpr].
    intros r r'. unfold closed_or_same. cbn [existsb map].
    destruct (Nat.eqb (pr_id r) (pr_id a)) eqn:E;
      cbn [orb pr_id close_price_record].
    + destruct (existsb (Nat.eqb (pr_id r)) (map pr_id data)).
      * intros [t ->]. exists t. reflexivity.
      * intros ->. eexists. reflexivity.
    + auto.
Qed.

Lemma close_old_price_record_spec product_id supplier_id valid_from w :
  exists w',
    _close_old_price_record datetime_isoformat product_id supplier_id
                            valid_from w = (w', Ok tt)
    /\ invoices w' = invoices w
    /\ invoice_lines w' = invoice_lines w
    /\ audit_log w' = audit_log w
    /\ uuid_supply w' = uuid_supply w
    /\ Forall2 (closed_or_same valid_from
                  (map pr_id (filter (is_open_for product_id supplier_id)
                                     (buying_price_records w))))
               (buying_price_records w) (buying_price_records w').
Proof.
  unfold _close_old_price_record. unfold bind at 1. cbn [get_world].
  apply close_loop.
Qed.

Lemma open_record_is_closed valid_from product_id supplier_id table closed :
  Forall2 (closed_or_same valid_from
             (map pr_id (filter (is_open_for product_id supplier_id) table)))
          table closed ->
  forall r r',
    In (r, r') (combine table closed) ->
    (is_open_for product_id supplier_id r = true ->
     pr_valid_to r' = Some (datetime_isoformat valid_from))
    /\ (NoDup (map pr_id table) ->
        is_open_for product_id supplier_id r = false -> r' = r).
Proof.
  intros HF r r' Hin.
  assert (Hr : In r table) by (eapply in_combine_l; eassumption).
  assert (Hrel : closed_or_same valid_from
                   (map pr_id (filter (is_open_for product_id supplier_id) table))
                   r r').
  { clear Hr. revert HF Hin.
    generalize (map pr_id (filter (is_open_for product_id supplier_id) table)).
    intros ids HF Hin.
    induction HF as [|x y l l' Hxy _ IH]; cbn in Hin; [contradiction|].
    destruct Hin as [Heq|Hin]; [inversion Heq; subst; exact Hxy | auto]. }
  unfold closed_or_same in Hrel. split.
  - intros Hopen.
    assert (Hex : existsb (Nat.eqb (pr_id r))
                    (map pr_id (filter (is_open_for product_id supplier_id) table))
                  = true).
    { apply existsb_exists. exists (pr_id r). split; [|apply Nat.eqb_refl].
      apply in_map. apply filter_In. split; assumption. }
    rewrite Hex in Hrel. destruct Hrel as [t ->]. reflexivity.
  - intros Hnd Hclosed.
    destruct (existsb _ _) eqn:Hex; [|exact Hrel].
    apply existsb_exists in Hex. destruct Hex as (i & Hi & Heq).
    apply Nat.eqb_eq in Heq. subst i.
    apply in_map_iff in Hi. destruct Hi as (r0 & Hid & Hr0).
    apply filter_In in Hr0. destruct Hr0 as [Hr0 Hopen0].
    assert (r0 = r).
    { clear - Hnd Hid Hr Hr0. induction table as [|x l IH]; [contradiction|].
      cbn in Hnd. inversion Hnd as [|? ? Hnotin Hnd']; subst.
      destruct Hr as [->|Hr], Hr0 as [->|Hr0]; auto.
      - exfalso. apply Hnotin. rewrite <- Hid. apply in_map, Hr0.
      - exfalso. apply Hnotin. rewrite Hid. apply in_map, Hr. }
    subst r0. congruence.
Qed.

(** C2, as the code has it.  No call of [accept_price] succeeds.  Class
    [ValidationService] defines neither [get_supplier_id_by_name] nor
    [find_product_by_sku], so once the line and its invoice are found the
    call raises [AttributeError] at line 38, before a price record is closed
    or inserted and before [validate_invoice] is run.  Every call raises,
    with the exception below, and leaves every table as it was. *)
Theorem accept_price_raises_before_any_write invoice_line_id new_price reason
        valid_from user_id w :
  accept_price parse_iso_date date_isoformat str_lower datetime_isoformat
               invoice_line_id new_price reason valid_from user_id w
  = (w,
     Raise
       match filter (fun l => Nat.eqb (line_id l) invoice_line_id)
                    (invoice_lines w) with
       | [] => ValueError "Invoice line not found"
       | line_data :: _ =>
           match filter (fun i => Nat.eqb (inv_id i) (line_invoice_id line_data))
                        (invoices w) with
           | [] => AttributeError "'NoneType' object has no attribute 'get'"
           | _ :: _ =>
               AttributeError
                 "'ValidationService' object has no attribute 'get_supplier_id_by_name'"
           end
       end).
Proof.
  unfold accept_price. unfold bind at 1. cbn [get_world].
  destruct (filter _ (invoice_lines w)) as [|line_data ?]; [reflexivity|].
  destruct (filter _ (invoices w)) as [|invoice_data ?]; reflexivity.
Qed.

End AcceptPriceFacts.

(** * Facts about the PDF parser *)

Section PDFParserFacts.

Variable py_float : string -> option float.
Variable _parse_date : string -> option string.
Variable extract_invoice : Invoice -> outcome ExtractedInvoice.
Variable header_update_ok : uuid -> ExtractedInvoice -> bool.
Variable line_insert_ok : InvoiceLine -> bool.
Variable default_model : string.

Local Abbreviation parse :=
  (parse_invoice py_float _parse_date extract_invoice header_update_ok
                 line_insert_ok default_model).

(** The loop building [line_records]. *)
Definition build_record (invoice_id : uuid) (acc : list InvoiceLine)
           (line : CleanLine) : M (list InvoiceLine) :=
  id <- uuid4 ;; ret (acc ++ [line_record id invoice_id line]).

(** The loop inserting them. *)
Definition insert_record (inserted_count : nat) (record : InvoiceLine) : M nat :=
  try_except
    (if line_insert_ok record
     then modify (with_invoice_lines (fun t => t ++ [record])) ;;;
          ret (inserted_count + 1)
     else raise (StorageError "insert into invoice_lines rejected"))
    (fun _ => ret inserted_count).

Lemma build_records_loop invoice_id lines :
  forall acc w,
    exists w' records,
      for_each lines (build_record invoice_id) acc w = (w', Ok (acc ++ records))
      /\ invoices w' = invoices w
      /\ invoice_lines w' = invoice_lines w
      /\ clock w' = clock w
      /\ List.length records = List.length lines
      /\ Forall (fun l => line_invoice_id l = invoice_id) records.
Proof.
  induction lines as [|line lines IH]; intros acc w.
  - exists w, []. cbn. rewrite app_nil_r. repeat split; constructor.
  - cbn [for_each]. unfold bind at 1. unfold build_record at 1.
    unfold bind, uuid4, ret.
    match goal with
    | |- context [for_each lines (build_record invoice_id) ?a ?w0] =>
        destruct (IH a w0) as (w' & records & Hrun & Hinv & Hl & Hc & Hlen & Hall)
    end.
    exists w', (line_record (uuid_supply w) invoice_id line :: records).
    rewrite Hrun, <- app_assoc. cbn in *.
    repeat split; try assumption; try congruence.
    constructor; [reflexivity | assumption].
Qed.

Lemma insert_records_loop records :
  forall n w,
    exists w',
      for_each records insert_record n w
      = (w', Ok (n + List.length (filter line_insert_ok records)))
      /\ invoices w' = invoices w
      /\ clock w' = clock w
      /\ invoice_lines w' = invoice_lines w ++ filter line_insert_ok records.
Proof.
  induction records as [|record records IH]; intros n w.
  - exists w. cbn. rewrite Nat.add_0_r, app_nil_r. repeat split.
  - cbn [for_each filter]. unfold bind at 1. unfold insert_record at 1.
    unfold try_except. destruct (line_insert_ok record).
    + unfold bind, modify, ret, raise.
      match goal with
      | |- context [for_each records insert_record ?m ?w0] =>
          destruct (IH m w0) as (w' & Hrun & Hinv & Hc & Hl)
      end.
      exists w'. rewrite Hrun. cbn in *. rewrite Hl, <- app_assoc.
      repeat split; try assumption. do 2 f_equal. lia.
    + unfold raise, ret.
      destruct (IH n w) as (w' & Hrun & Hinv & Hc & Hl).
      exists w'. rewrite Hrun. repeat split; assumption.
Qed.

Lemma replace_invoice_lines_spec invoice_id lines w :
  exists w' inserted,
    _replace_invoice_lines line_insert_ok invoice_id lines w
    = (w', Ok (List.length inserted))
    /\ invoices w' = invoices w
    /\ clock w' = clock w
    /\ invoice_lines w'
       = filter (fun l => negb (Nat.eqb (line_invoice_id l) invoice_id))
                (invoice_lines w) ++ inserted
    /\ Forall (fun l => line_invoice_id l = invoice_id) inserted
    /\ (List.length inserted <= List.length lines)%nat.
Proof.
  unfold _replace_invoice_lines. unfold bind at 1. unfold modify at 1.
  destruct lines as [|line lines].
  - cbn [truthy_list negb]. eexists. exists []. cbn. rewrite app_nil_r.
    repeat split; constructor.
  - cbn [truthy_list negb]. unfold bind at 1.
    fold (build_record invoice_id). fold insert_record.
    match goal with
    | |- context [for_each (line :: lines) (build_record invoice_id) [] ?w0] =>
        destruct (build_records_loop invoice_id (line :: lines) [] w0)
          as (w1 & records & Hrun & Hinv & Hl & Hc & Hlen & Hall)
    end.
    rewrite Hrun. cbn [app].
    destruct (insert_records_loop records 0 w1) as (w2 & Hrun2 & Hinv2 & Hc2 & Hl2).
    rewrite Hrun2. exists w2, (filter line_insert_ok records).
    cbn in *. split; [reflexivity|]. split; [congruence|]. split; [congruence|].
    split; [congruence|]. split.
    + apply Forall_forall. intros x Hx. apply filter_In in Hx.
      rewrite Forall_forall in Hall. apply Hall, Hx.
    + rewrite <- Hlen. apply filter_length_le.
Qed.

(** What the header update, wrapped in its [try], does to the rows. *)
Lemma header_update_spec invoice_id extracted w :
  exists w' h,
    try_except
      (_update_invoice_header_fields _parse_date header_update_ok invoice_id
                                     extracted)
      (fun _ => ret tt) w = (w', Ok tt)
    /\ invoices w' = map h (invoices w)
    /\ (forall i, inv_id (h i) = inv_id i /\ inv_status (h i) = inv_status i
                  /\ inv_parsed_at (h i) = inv_parsed_at i)
    /\ invoice_lines w' = invoice_lines w
    /\ clock w' = clock w.
Proof.
  unfold try_except, _update_invoice_header_fields.
  destruct (has_header_fields _parse_date extracted); cbn [negb].
  2:{ exists w, (fun i => i). cbn. rewrite map_id. repeat split. }
  destruct (header_update_ok invoice_id extracted).
  - eexists. exists (fun i => if Nat.eqb (inv_id i) invoice_id
                             then set_header_fields _parse_date extracted i
                             else i).
    cbn. repeat split; destruct (Nat.eqb (inv_id i) invoice_id); reflexivity.
  - exists w, (fun i => i). cbn. rewrite map_id. repeat split.
Qed.

Lemma Forall2_map_self {A} (R : A -> A -> Prop) (f : A -> A) l :
  (forall x, R x (f x)) -> Forall2 R l (map f l).
Proof. intros H. induction l; cbn; constructor; auto. Qed.

(** How an invoice row relates to what [parse_invoice] makes of it when
    [inserted] lines were inserted and the clock read [t]. *)
Definition parsed_row (invoice_id : uuid) (inserted : nat) (t : timestamp)
           (i i' : Invoice) : Prop :=
  inv_id i' = inv_id i
  /\ (Nat.eqb (inv_id i) invoice_id && (0 <? inserted)%nat = true ->
      inv_status i' = parsed /\ inv_parsed_at i' = Some t)
  /\ (Nat.eqb (inv_id i) invoice_id && (0 <? inserted)%nat = false ->
      inv_status i' = inv_status i /\ inv_parsed_at i' = inv_parsed_at i).

(** C7. [parse_invoice] moves the invoice to [parsed], and sets
    [parsed_at], iff at least one cleaned line was inserted when the lines
    were replaced.  With no line inserted, the status stays what it was:
    a [received] invoice stays [received]. *)
Theorem parse_invoice_parsed_iff_line_inserted invoice_id w w' r :
  parse invoice_id w = (w', Ok r) ->
  exists inserted t,
    ps_lines_parsed r = List.length inserted
    /\ filter (fun l => Nat.eqb (line_invoice_id l) invoice_id) (invoice_lines w')
       = inserted
    /\ Forall2 (parsed_row invoice_id (List.length inserted) t)
               (invoices w) (invoices w')
    /\ (forall i i',
          In (i, i') (combine (invoices w) (invoices w')) ->
          inv_id i = invoice_id -> inv_status i = received ->
          (inv_status i' = parsed <-> (0 < List.length inserted)%nat)
          /\ (inv_status i' = parsed -> inv_parsed_at i' = Some t)
          /\ (List.length inserted = 0 ->
              inv_status i' = received /\ inv_parsed_at i' = inv_parsed_at i)).
Proof.
  intros H. unfold parse_invoice in H. unfold bind at 1 in H.
  cbn [get_world] in H.
  destruct (filter _ (invoices w)) as [|invoice ?]; [discriminate|].
  destruct (extract_invoice invoice) as [extracted|e]; [|discriminate].
  unfold bind at 1 in H.
  destruct (header_update_spec invoice_id extracted w)
    as (wh & h & Hrun & Hinv & Hh & Hl & Hc).
  rewrite Hrun in H. unfold bind at 1 in H.
  destruct (replace_invoice_lines_spec invoice_id
              (_clean_invoice_lines py_float (ex_lines extracted)) wh)
    as (wr & inserted & Hrun2 & Hinv2 & Hc2 & Hl2 & Hall & _).
  rewrite Hrun2 in H.
  assert (Hfilter :
    filter (fun l => Nat.eqb (line_invoice_id l) invoice_id) (invoice_lines wr)
    = inserted).
  { rewrite Hl2, filter_app.
    rewrite filter_none.
    - cbn. apply forallb_filter_id. apply forallb_forall.
      rewrite Forall_forall in Hall. intros x Hx. apply Nat.eqb_eq, Hall, Hx.
    - apply Forall_forall. intros x Hx. apply filter_In in Hx.
      destruct Hx as [_ Hx]. apply negb_true_iff in Hx. exact Hx. }
  exists inserted, (clock wr).
  assert (Hrows : Forall2 (parsed_row invoice_id (List.length inserted) (clock wr))
                          (invoices w) (invoices w')
                  /\ ps_lines_parsed r = List.length inserted
                  /\ invoice_lines w' = invoice_lines wr).
  { destruct (0 <? List.length inserted)%nat eqn:Hpos.
    - cbv beta iota zeta delta
        [bind _update_invoice_status_to_parsed now modify _log_invoice_parsed
         uuid4 ret] in H.
      inversion H; subst w' r; clear H. cbn. split; [|split; reflexivity].
      rewrite Hinv2, Hinv, map_map. apply Forall2_map_self. intros i.
      destruct (Hh i) as (Hid & Hst & Hpa). unfold parsed_row.
      rewrite Hid, Hpos. destruct (Nat.eqb (inv_id i) invoice_id); cbn;
        repeat split; intros; try discriminate; congruence.
    - cbv beta iota zeta delta [bind now modify _log_invoice_parsed uuid4 ret] in H.
      inversion H; subst w' r; clear H. cbn. split; [|split; reflexivity].
      rewrite Hinv2, Hinv. apply Forall2_map_self. intros i.
      destruct (Hh i) as (Hid & Hst & Hpa). unfold parsed_row.
      rewrite Hpos, andb_false_r.
      repeat split; intros; try discriminate; congruence. }
  destruct Hrows as (Hrows & Hcount & Hlines).
  split; [exact Hcount|]. split; [rewrite Hlines; exact Hfilter|].
  split; [exact Hrows|].
  intros i i' Hin Hid Hst.
  assert (Hrel : parsed_row invoice_id (List.length inserted) (clock wr) i i').
  { clear - Hrows Hin. induction Hrows as [|x y l l' Hxy _ IH]; cbn in Hin;
      [contradiction|].
    destruct Hin as [Heq|Hin]; [inversion Heq; subst; exact Hxy | auto]. }
  destruct Hrel as (_ & Hyes & Hno).
  rewrite Hid, Nat.eqb_refl in Hyes, Hno. cbn [andb] in Hyes, Hno.
  destruct (0 <? List.length inserted)%nat eqn:Hpos.
  - apply Nat.ltb_lt in Hpos. destruct (Hyes eq_refl) as [Hs Hp].
    split; [tauto|]. split; [auto|]. intros H0. lia.
  - apply Nat.ltb_ge in Hpos. destruct (Hno eq_refl) as [Hs Hp].
    rewrite Hs, Hst. split; [split; [discriminate | lia]|].
    split; [discriminate|]. auto.
Qed.

End PDFParserFacts.

(** * Facts about mail ingestion *)

Section EmailPollingFacts.

Variable str_lower : string -> string.
Variable strftime : timestamp -> string.
Variable MAX_PDF_SIZE_MB : Z.

(** The message with identity [message_id] is flagged unread. *)
Definition unread_in (message_id : string) (box : list MailMessage) : Prop :=
  forall m, In m box -> msg_id m = message_id -> msg_isRead m = false.

Lemma mark_emails_as_read_leaves_unread message_id w :
  snd (mark_emails_as_read message_id w) = Ok tt
  /\ unread_in message_id (mailbox (fst (mark_emails_as_read message_id w))).
Proof.
  unfold mark_emails_as_read, unread_in. unfold bind, get_world.
  destruct (find_message message_id (mailbox w)) as [m0|] eqn:Hfind; cbn.
  - split; [reflexivity|]. intros m Hin Hid.
    unfold graph_patch_isRead in Hin. apply in_map_iff in Hin.
    destruct Hin as (m1 & Hm & _). subst m.
    destruct (String.eqb (msg_id m1) message_id) eqn:E; [reflexivity|].
    cbn in Hid. apply String.eqb_neq in E. contradiction.
  - split; [reflexivity|]. intros m Hin Hid.
    unfold find_message in Hfind.
    pose proof (find_none _ _ Hfind m Hin) as Hm. cbn in Hm.
    apply String.eqb_neq in Hm. contradiction.
Qed.

(** Whenever [process_email] reports success, the message it processed is
    flagged unread in the mailbox it leaves. *)
Lemma process_email_leaves_unread email_data w w' :
  process_email str_lower strftime MAX_PDF_SIZE_MB email_data w = (w', Ok true) ->
  unread_in (ed_id email_data) (mailbox w').
Proof.
  intros H.
  cbv beta iota zeta delta
    [process_email get_email_attachments download_attachment
     save_pdf_to_pdfs_bucket insert_invoice _insert_audit_log
     try_except bind ret raise modify get_world uuid4 now] in H.
  repeat match type of H with
         | context [if ?b then _ else _] => destruct b eqn:?
         | context [match ?x with Some _ => _ | None => _ end] =>
             destruct x eqn:?
         | context [match ?x with [] => _ | _ :: _ => _ end] =>
             destruct x eqn:?
         | context [match ?x with _ => _ end] => destruct x eqn:?
         end.
  all: try discriminate.
  all: inversion H; subst; clear H.
  all: match goal with
       | Hp : context [mark_emails_as_read ?id ?w0] |- _ =>
           pose proof (proj2 (mark_emails_as_read_leaves_unread id w0)) as Hun;
           destruct (mark_emails_as_read id w0) as [w1 [u|e]];
           [|discriminate];
           inversion Hp; subst; exact Hun
       end.
Qed.

End EmailPollingFacts.

(** C3 (the code at work).  [process_email] stores the PDF of an unread
    message and inserts its invoice, and returns [True]; the message is
    still flagged unread afterwards, because [mark_emails_as_read] sends
    [isRead = False].  The next fetch of unread messages returns it again,
    and once the in-memory set of processed identities is gone (a restart)
    it is ingested a second time. *)
Theorem processed_message_stays_unread :
  let run := Demo.process_email Demo.email Demo.mail_world in
  let restarted := with_processed_message_ids (fun _ => []) (fst run) in
  let again := Demo.process_email Demo.email restarted in
  snd run = Ok true
  /\ map file_name (pdfs_bucket (fst run))
     = ["20240131_000000_000000_invoice_7.pdf"]
  /\ map (fun i => (inv_source_message_id i, inv_status i)) (invoices (fst run))
     = [(Some "AAMkAD1", received)]
  /\ map (fun m => (msg_id m, msg_isRead m)) (mailbox (fst run))
     = [("AAMkAD1", false)]
  /\ snd (fetch_emails 5 None (fst run)) = Ok [Demo.email]
  /\ snd again = Ok true
  /\ map (fun i => (inv_source_message_id i, inv_status i)) (invoices (fst again))
     = [(Some "AAMkAD1", received); (Some "AAMkAD1", received)].
Proof. vm_compute. repeat split. Qed.
(** * More facts about the validation service *)

Section ValidationFrame.

Variable parse_iso_date : string -> option date.
Variable date_isoformat : date -> string.
Variable str_lower : string -> string.

Local Abbreviation find_by_sku := (_find_buying_price_by_sku parse_iso_date).
Local Abbreviation find_by_product_name :=
  (_find_buying_price_by_product_name parse_iso_date str_lower).
Local Abbreviation validate_line :=
  (_validate_invoice_line parse_iso_date date_isoformat str_lower).
Local Abbreviation validate :=
  (validate_invoice parse_iso_date date_isoformat str_lower).
Local Abbreviation reference := (find_reference parse_iso_date str_lower).
Local Abbreviation line_verdict := (verdict parse_iso_date str_lower).
Local Abbreviation body :=
  (loop_body parse_iso_date date_isoformat str_lower).

(** The number of lines the four counters have counted. *)
Definition counted (c : Counts) : nat :=
  match_count c + mismatch_count c + created_price_record_count c
  + no_match_count c.

(** What a line raises when its reference record has no [unit_price]:
    the exception of [float(None)]. *)
Definition float_of_none : exn :=
  TypeError "float() argument must be a string or a real number".

(** An [active] row without a [unit_price]. *)
Definition unpriced (r : PriceRecord) : Prop :=
  pr_status r = Some active /\ pr_unit_price r = None.

(** What a run makes of a stored line: nothing but its status column can
    differ, and not even that unless the line's identity is in [ids]. *)
Definition line_kept (ids : list uuid) (l l' : InvoiceLine) : Prop :=
  set_line_status unknown l' = set_line_status unknown l
  /\ (~ In (line_id l) ids -> l' = l).

(** What a run makes of a stored invoice: a row with another identity is
    as it was, the row of [invoice_id] keeps everything but its status
    and [validated_at]. *)
Definition invoice_kept (invoice_id : uuid) (i i' : Invoice) : Prop :=
  (inv_id i <> invoice_id -> i' = i)
  /\ set_invoice_status received (Some 0%Z) i'
     = set_invoice_status received (Some 0%Z) i.

Lemma verdict_raise table line supplier_name d currency e :
  line_verdict table line supplier_name d currency = Raise e ->
  e = float_of_none
  /\ exists record, In record table /\ unpriced record.
Proof.
  unfold verdict. intros H.
  destruct (has_key line); [|discriminate].
  destruct (reference table line supplier_name d) as [record|] eqn:Hfind;
    [|discriminate].
  destruct (find_reference_In _ _ _ _ _ _ Hfind) as (Hin & Hact & _).
  destruct (pr_unit_price record) eqn:Hp.
  - destruct (line_unit_price line); discriminate.
  - inversion H. split; [reflexivity|]. exists record. split; [exact Hin|].
    split; assumption.
Qed.

Lemma active_not_learned r extra :
  pr_status r = Some active -> Forall learned extra -> ~ In r extra.
Proof.
  intros Hact Hl Hin. rewrite Forall_forall in Hl.
  destruct (Hl r Hin) as [Hst _]. congruence.
Qed.

Lemma apply_updates_cons u updates rows :
  apply_updates (u :: updates) rows
  = apply_updates updates (update_line_status (fst u) (snd u) rows).
Proof. reflexivity. Qed.

Lemma count_status_counted c st :
  st <> no_match -> counted (count_status c st) = S (counted c).
Proof. intros H. destruct st; unfold counted; cbn; try lia. contradiction. Qed.

Lemma count_status_created c st :
  created_price_record_count c <= created_price_record_count (count_status c st).
Proof. destruct st; cbn; lia. Qed.

(** What the loop over the lines does to the tables, whatever its
    outcome. *)
Lemma loop_frame invoice_id supplier_name invoice_date currency lines :
  forall c w w' r,
    for_each lines (body invoice_id supplier_name invoice_date currency) c w
    = (w', r) ->
    invoices w' = invoices w
    /\ (exists updates,
           invoice_lines w' = apply_updates updates (invoice_lines w)
           /\ incl (map fst updates) (map line_id lines))
    /\ (exists extra,
           buying_price_records w' = buying_price_records w ++ extra
           /\ Forall learned extra
           /\ match r with
              | Ok c' => List.length extra + created_price_record_count c
                         <= created_price_record_count c'
              | Raise _ => True
              end)
    /\ match r with
       | Ok c' => counted c' = counted c + List.length lines
       | Raise e =>
           e = float_of_none
           /\ exists record, In record (buying_price_records w)
                             /\ unpriced record
       end.
Proof.
  induction lines as [|line lines IH]; intros c w w' r H.
  - cbn in H. inversion H; subst. split; [reflexivity|]. split.
    { exists []. split; [reflexivity | intros x []]. }
    split.
    { exists []. rewrite app_nil_r. repeat split; [constructor | cbn; lia]. }
    cbn. lia.
  - rewrite for_each_loop_cons in H.
    destruct (validate_line_spec parse_iso_date date_isoformat str_lower line
                invoice_id supplier_name invoice_date currency w) as [Hv Heff].
    destruct (validate_line line invoice_id supplier_name invoice_date
                            currency w) as [w1 r1] eqn:E.
    cbn [fst snd] in *.
    destruct r1 as [res|e]; cbn [outcome_map] in Hv.
    + rewrite <- Hv in Heff.
      destruct Heff as [Hinv Hlines (extra & Hpr & Hlearned & Hlen & Hnone) _].
      destruct (@IH _ _ _ _ H)
        as (Hinv' & (updates & Hl' & Hincl) & (extra' & Hpr' & Hlearned' & Hcnt)
            & Hr).
      split; [congruence|]. split.
      { exists ((line_id line, lr_status res) :: updates). split.
        - rewrite Hl', Hlines. reflexivity.
        - cbn. intros x [<-|Hx]; [left; reflexivity | right; apply Hincl, Hx]. }
      split.
      { exists (extra ++ extra'). rewrite Hpr', Hpr, app_assoc.
        split; [reflexivity|]. split; [apply Forall_app; split; assumption|].
        destruct r as [c'|]; [|exact I]. rewrite length_app.
        assert (List.length extra + created_price_record_count c
                <= created_price_record_count (count_status c (lr_status res))).
        { destruct (lr_status res) eqn:Est;
            try (rewrite Hnone by (intros Hc; inversion Hc); cbn; lia).
          cbn. lia. }
        lia. }
      destruct r as [c'|e].
      * rewrite Hr. cbn [List.length].
        rewrite count_status_counted; [lia|].
        eapply verdict_never_no_match. symmetry. exact Hv.
      * destruct Hr as (He & record & Hin & Hun). split; [exact He|].
        exists record. split; [|exact Hun].
        rewrite Hpr in Hin. apply in_app_or in Hin. destruct Hin as [Hin|Hin];
          [exact Hin|].
        exfalso. eapply active_not_learned; [apply Hun | exact Hlearned | exact Hin].
    + inversion H; subst w' r; clear H.
      rewrite <- Hv in Heff.
      destruct Heff as [Hinv Hlines (extra & Hpr & Hlearned & Hlen & Hnone) _].
      split; [exact Hinv|]. split.
      { exists []. split; [exact Hlines | intros x []]. }
      split.
      { exists extra. repeat split; assumption. }
      symmetry in Hv. apply verdict_raise in Hv. exact Hv.
Qed.

(** [validate_invoice], opened: what it does when the invoice is missing,
    when it has no lines, and how its outcome follows from the loop's. *)
Lemma validate_outcome invoice_id w :
  match invoice_row invoice_id w with
  | None =>
      validate invoice_id w = (w, Raise (ValueError "Invoice not found"))
  | Some invoice =>
      match lines_of invoice_id w with
      | [] =>
          exists w',
            validate invoice_id w
            = (w', Ok (mkValidationResult invoice_id needs_review 0 0 0 0 0 None))
            /\ invoices w'
               = update_invoice_status invoice_id needs_review None (invoices w)
            /\ invoice_lines w' = invoice_lines w
            /\ buying_price_records w' = buying_price_records w
      | _ :: _ =>
          exists w1 rc,
            for_each (lines_of invoice_id w)
                     (body invoice_id (inv_supplier_name invoice)
                           (invoice_date_of parse_iso_date invoice)
                           (inv_currency invoice))
                     zero_counts w = (w1, rc)
            /\ match rc with
               | Ok counts =>
                   exists w' validated_at,
                     validate invoice_id w
                     = (w', Ok (summary invoice_id
                                        (List.length (lines_of invoice_id w))
                                        counts validated_at))
                     /\ invoices w'
                        = update_invoice_status invoice_id
                            (overall_status counts) validated_at (invoices w1)
                     /\ invoice_lines w' = invoice_lines w1
                     /\ buying_price_records w' = buying_price_records w1
               | Raise e => validate invoice_id w = (w1, Raise e)
               end
      end
  end.
Proof.
  destruct (invoice_row invoice_id w) as [invoice|] eqn:Hrow.
  - destruct (lines_of invoice_id w) as [|l0 ls] eqn:Hl.
    + apply (validate_no_lines parse_iso_date date_isoformat str_lower
                               invoice_id w Hrow Hl).
    + rewrite <- Hl.
      destruct (for_each (lines_of invoice_id w)
                  (body invoice_id (inv_supplier_name invoice)
                        (invoice_date_of parse_iso_date invoice)
                        (inv_currency invoice)) zero_counts w)
        as [w1 rc] eqn:Hloop.
      exists w1, rc. split; [reflexivity|].
      assert (Hopen :
        validate invoice_id w
        = (counts <- for_each (lines_of invoice_id w)
                       (body invoice_id (inv_supplier_name invoice)
                             (invoice_date_of parse_iso_date invoice)
                             (inv_currency invoice))
                       zero_counts ;;
           validated_at <-
             (match overall_status counts with
              | validated => t <- now ;; ret (Some t)
              | _ => ret None
              end) ;;
           _update_invoice_status invoice_id (overall_status counts)
                                  validated_at ;;;
           _log_audit "invoice" invoice_id "INVOICE_VALIDATED"
                      (ValidationSummary (overall_status counts)
                         (List.length (lines_of invoice_id w))
                         (match_count counts) (mismatch_count counts)
                         (created_price_record_count counts)
                         (no_match_count counts)) ;;;
           ret (summary invoice_id (List.length (lines_of invoice_id w)) counts
                        validated_at)) w).
      { clear Hloop. unfold validate_invoice, invoice_row, lines_of in *.
        unfold bind at 1. cbn [get_world].
        destruct (filter _ (invoices w)) as [|i rest]; [discriminate|].
        cbn in Hrow. inversion Hrow; subst i; clear Hrow.
        rewrite Hl. reflexivity. }
      destruct rc as [counts|e];
        rewrite Hopen; clear Hopen; unfold bind at 1; rewrite Hloop;
        [|reflexivity].
      destruct (overall_status counts) eqn:Hov.
      all: do 2 eexists.
      all: (split;
            [ unfold bind, ret, now, _update_invoice_status, _log_audit, modify,
                uuid4, summary; cbn; rewrite Hov; reflexivity |]).
      all: cbn; repeat split; reflexivity.
  - unfold validate_invoice, invoice_row in *. unfold bind at 1. cbn [get_world].
    destruct (filter _ (invoices w)) as [|i rest]; [reflexivity | discriminate].
Qed.

Lemma update_invoice_status_kept invoice_id st va rows :
  Forall2 (invoice_kept invoice_id) rows
          (update_invoice_status invoice_id st va rows).
Proof.
  unfold update_invoice_status. induction rows as [|i rows IH]; cbn;
    constructor; [|exact IH].
  destruct (Nat.eqb (inv_id i) invoice_id) eqn:E.
  - apply Nat.eqb_eq in E. split; [intros; contradiction | reflexivity].
  - split; reflexivity.
Qed.

Lemma Forall2_refl_on {A} (R : A -> A -> Prop) l :
  (forall x, R x x) -> Forall2 R l l.
Proof. intros H. induction l; constructor; auto. Qed.

Lemma last_update_not_in updates id :
  ~ In id (map fst updates) -> last_update updates id = None.
Proof.
  induction updates as [|u us IH]; cbn; intros H; [reflexivity|].
  rewrite IH by tauto.
  destruct (Nat.eqb id (fst u)) eqn:E; [|reflexivity].
  apply Nat.eqb_eq in E. exfalso. apply H. left. symmetry. exact E.
Qed.

Lemma apply_updates_kept updates ids rows :
  incl (map fst updates) ids ->
  Forall2 (line_kept ids) rows (apply_updates updates rows).
Proof.
  intros Hincl. rewrite apply_updates_rows.
  induction rows as [|l rows IH]; cbn; constructor; [|exact IH].
  split.
  - apply row_after_status_only.
  - intros Hnot. rewrite row_after_last, last_update_not_in; [reflexivity|].
    intros Hin. apply Hnot, Hincl, Hin.
Qed.

Lemma validate_frame_lemma invoice_id w w' r :
  validate invoice_id w = (w', r) ->
  (exists extra,
      buying_price_records w' = buying_price_records w ++ extra
      /\ Forall learned extra
      /\ match r with
         | Ok res => List.length extra <= vr_created_price_record_count res
         | Raise _ => True
         end)
  /\ Forall2 (line_kept (map line_id (lines_of invoice_id w)))
             (invoice_lines w) (invoice_lines w')
  /\ Forall2 (invoice_kept invoice_id) (invoices w) (invoices w')
  /\ match r with
     | Ok res =>
         vr_match_count res + vr_mismatch_count res
         + vr_created_price_record_count res + vr_no_match_count res
         = vr_total_lines res
         /\ vr_total_lines res = List.length (lines_of invoice_id w)
         /\ vr_invoice_id res = invoice_id
     | Raise e =>
         (invoice_row invoice_id w = None /\ w' = w
          /\ e = ValueError "Invoice not found")
         \/ (invoice_row invoice_id w <> None /\ e = float_of_none
             /\ exists record, In record (buying_price_records w)
                               /\ unpriced record)
     end.
Proof.
  intros H. pose proof (validate_outcome invoice_id w) as Hout.
  destruct (invoice_row invoice_id w) as [invoice|] eqn:Hrow.
  - destruct (lines_of invoice_id w) as [|l0 ls] eqn:Hl.
    + destruct Hout as (w0 & Hrun & Hinv & Hlines & Hpr).
      rewrite Hrun in H. inversion H; subst w0 r; clear H.
      split.
      { exists []. rewrite app_nil_r. repeat split; [assumption | constructor |].
        cbn. lia. }
      split.
      { rewrite Hlines. apply Forall2_refl_on. intros x. split; reflexivity. }
      split; [rewrite Hinv; apply update_invoice_status_kept|].
      cbn. repeat split.
    + rewrite <- Hl in *. destruct Hout as (w1 & rc & Hloop & Hrest).
      destruct (@loop_frame _ _ _ _ _ _ _ _ _ Hloop)
        as (Hinv1 & (updates & Hl1 & Hincl) & (extra & Hpr1 & Hlearned & Hcnt)
            & Hr).
      destruct rc as [counts|e].
      * destruct Hrest as (w0 & va & Hrun & Hinv & Hlines & Hpr).
        rewrite Hrun in H. inversion H; subst w0 r; clear H.
        split.
        { exists extra. rewrite Hpr. repeat split; try assumption.
          cbn in *. lia. }
        split; [rewrite Hlines, Hl1; apply apply_updates_kept, Hincl|].
        split; [rewrite Hinv, Hinv1; apply update_invoice_status_kept|].
        cbn. unfold counted in Hr. cbn in Hr. repeat split. lia.
      * rewrite Hrest in H. inversion H; subst w1 r; clear H.
        split; [exists extra; repeat split; assumption|].
        split; [rewrite Hl1; apply apply_updates_kept, Hincl|].
        split; [rewrite Hinv1; apply Forall2_refl_on; intros x; split; reflexivity|].
        right. split; [discriminate | exact Hr].
  - rewrite Hout in H. inversion H; subst w' r; clear H.
    split; [exists []; rewrite app_nil_r; repeat split; constructor|].
    split; [apply Forall2_refl_on; intros x; split; reflexivity|].
    split; [apply Forall2_refl_on; intros x; split; reflexivity|].
    left. repeat split.
Qed.

(** What a run does to the table of invoices. *)
Lemma validate_invoices_effect invoice_id w w' r :
  validate invoice_id w = (w', r) ->
  match r with
  | Ok res =>
      invoices w'
      = update_invoice_status invoice_id (vr_status res) (vr_validated_at res)
                              (invoices w)
      /\ (vr_status res = validated \/ vr_status res = needs_review)
      /\ invoice_row invoice_id w <> None
  | Raise _ => invoices w' = invoices w
  end.
Proof.
  intros H. pose proof (validate_outcome invoice_id w) as Hout.
  destruct (invoice_row invoice_id w) as [invoice|] eqn:Hrow.
  - destruct (lines_of invoice_id w) as [|l0 ls] eqn:Hl.
    + destruct Hout as (w0 & Hrun & Hinv & _).
      rewrite Hrun in H. inversion H; subst w0 r; clear H. cbn.
      split; [exact Hinv|]. split; [right; reflexivity | discriminate].
    + rewrite <- Hl in *. destruct Hout as (w1 & rc & Hloop & Hrest).
      destruct (@loop_frame _ _ _ _ _ _ _ _ _ Hloop) as (Hinv1 & _).
      destruct rc as [counts|e].
      * destruct Hrest as (w0 & va & Hrun & Hinv & _).
        rewrite Hrun in H. inversion H; subst w0 r; clear H. cbn.
        rewrite Hinv, Hinv1. split; [reflexivity|]. split; [|discriminate].
        destruct (overall_status_cases counts) as [(Hov & _)|(Hov & _)];
          rewrite Hov; [left | right]; reflexivity.
      * rewrite Hrest in H. inversion H; subst w1 r; clear H. exact Hinv1.
  - rewrite Hout in H. inversion H; subst w' r; clear H. reflexivity.
Qed.

(** ** What a run leaves alone *)

(** [validate_invoice] never modifies or deletes a price record: whatever
    its outcome, the price table afterwards is the one before followed by
    the records learned, each of status [need_review] and source
    [learned_from_invoice], and a successful run learns at most as many as
    it counts in [created_price_record_count].  It adds and removes no
    invoice line and changes nothing but the status of a line, and that
    only for lines carrying the identity of a line of this invoice; every
    other invoice's row is left as it was. *)
Theorem validate_invoice_frame invoice_id w :
  let w' := fst (validate invoice_id w) in
  (exists extra,
      buying_price_records w' = buying_price_records w ++ extra
      /\ Forall learned extra
      /\ (forall res, snd (validate invoice_id w) = Ok res ->
                      List.length extra <= vr_created_price_record_count res))
  /\ Forall2 (line_kept (map line_id (lines_of invoice_id w)))
             (invoice_lines w) (invoice_lines w')
  /\ Forall2 (invoice_kept invoice_id) (invoices w) (invoices w').
Proof.
  destruct (validate invoice_id w) as [w' r] eqn:H. cbn [fst snd].
  destruct (@validate_frame_lemma _ _ _ _ H)
    as ((extra & Hpr & Hlearned & Hcnt) & Hlines & Hinv & _).
  split; [|split; assumption].
  exists extra. split; [exact Hpr|]. split; [exact Hlearned|].
  intros res Hres. subst r. exact Hcnt.
Qed.

(** With the invoice present and a [unit_price] on every [active] price
    record, [validate_invoice] returns a summary. *)
Lemma validate_succeeds invoice_id w invoice :
  invoice_row invoice_id w = Some invoice ->
  active_prices_present (buying_price_records w) ->
  exists w' res, validate invoice_id w = (w', Ok res).
Proof.
  intros Hrow Hwf.
  destruct (validate invoice_id w) as [w' [res|e]] eqn:H; [eauto|].
  destruct (@validate_frame_lemma _ _ _ _ H) as (_ & _ & _ & [(Hnone & _)|(_ & _ & Hrec)]).
  - congruence.
  - destruct Hrec as (record & Hin & Hact & Hp).
    exfalso. exact (Hwf record Hin Hact Hp).
Qed.

(** ** The summary *)

(** The four counters of a summary add up to [total_lines], which is the
    number of lines stored for the invoice: every line is counted in
    exactly one of [match_count], [mismatch_count],
    [created_price_record_count] and [no_match_count] (the lines marked
    [unknown]). *)
Theorem validate_summary_counts_add_up invoice_id w w' res :
  validate invoice_id w = (w', Ok res) ->
  vr_match_count res + vr_mismatch_count res
  + vr_created_price_record_count res + vr_no_match_count res
  = vr_total_lines res
  /\ vr_total_lines res
     = List.length (filter (fun l => Nat.eqb (line_invoice_id l) invoice_id)
                           (invoice_lines w))
  /\ vr_invoice_id res = invoice_id.
Proof.
  intros H. destruct (@validate_frame_lemma _ _ _ _ H) as (_ & _ & _ & Hsum & Hlen & Hid).
  split; [exact Hsum|]. split; [|exact Hid].
  rewrite Hlen. unfold lines_of.
  generalize (filter (fun l => Nat.eqb (line_invoice_id l) invoice_id)
                     (invoice_lines w)).
  assert (Hins : forall x l, List.length (insert_by_line_no x l)
                             = S (List.length l)).
  { intros x l. induction l as [|y l IH]; cbn; [reflexivity|].
    destruct (line_no_leb x y); cbn; [reflexivity | rewrite IH; reflexivity]. }
  intros l. induction l as [|x l IH]; cbn; [reflexivity|].
  rewrite Hins, IH. reflexivity.
Qed.

(** ** An invoice without lines *)

(** An invoice that has no lines is never [validated]: the run marks it
    [needs_review], leaves [validated_at] as it was, returns a summary
    of zeros, and touches neither the lines nor the price table. *)
Theorem validate_invoice_without_lines invoice_id w invoice :
  invoice_row invoice_id w = Some invoice ->
  lines_of invoice_id w = [] ->
  exists w',
    validate invoice_id w
    = (w', Ok (mkValidationResult invoice_id needs_review 0 0 0 0 0 None))
    /\ invoice_row invoice_id w'
       = Some (set_invoice_status needs_review None invoice)
    /\ map inv_validated_at (invoices w') = map inv_validated_at (invoices w)
    /\ invoice_lines w' = invoice_lines w
    /\ buying_price_records w' = buying_price_records w.
Proof.
  intros Hrow Hl. pose proof (validate_outcome invoice_id w) as Hout.
  rewrite Hrow, Hl in Hout. destruct Hout as (w' & Hrun & Hinv & Hlines & Hpr).
  exists w'. split; [exact Hrun|]. split.
  { eapply invoice_row_updated; eassumption. }
  split; [rewrite Hinv; apply update_invoice_status_keeps_validated_at|].
  split; assumption.
Qed.

(** ** An invoice without a supplier *)

Lemma verdict_without_supplier table line supplier_name d currency :
  truthy_str supplier_name = false ->
  line_verdict table line supplier_name d currency = Ok unknown.
Proof.
  intros Hs. unfold verdict, find_reference, can_learn,
    _find_buying_price_by_sku, _find_buying_price_by_product_name.
  rewrite Hs. cbn [negb orb andb].
  destruct (has_key line); [|reflexivity].
  destruct (truthy_str (line_sku line)); [reflexivity|].
  destruct (truthy_str (line_product_name line)); reflexivity.
Qed.

Lemma all_ok_const {A B} (f : A -> outcome B) (b : B) l :
  (forall a, f a = Ok b) -> all_ok (map f l) = Some (map (fun _ => b) l).
Proof.
  intros H. induction l as [|a l IH]; cbn; [reflexivity|].
  rewrite H, IH. reflexivity.
Qed.

Lemma fold_unknown {A} (l : list A) :
  forall c,
    fold_left count_status (map (fun _ => unknown) l) c
    = mkCounts (match_count c) (mismatch_count c)
               (created_price_record_count c)
               (no_match_count c + List.length l).
Proof.
  induction l as [|a l IH]; intros c; cbn.
  - destruct c; cbn. rewrite Nat.add_0_r. reflexivity.
  - rewrite IH. cbn. f_equal. lia.
Qed.

(** When the invoice carries no supplier name (null or empty), no line
    can be matched and none can be learned from: every line is marked
    [unknown] and counted in [no_match_count], the invoice is
    [needs_review], and the price table is left as it was. *)
Theorem validate_invoice_without_supplier invoice_id w invoice :
  invoice_row invoice_id w = Some invoice ->
  truthy_str (inv_supplier_name invoice) = false ->
  lines_of invoice_id w <> [] ->
  let n := List.length (lines_of invoice_id w) in
  exists w',
    validate invoice_id w
    = (w', Ok (mkValidationResult invoice_id needs_review n 0 0 0 n None))
    /\ invoice_lines w'
       = apply_updates (map (fun l => (line_id l, unknown))
                            (lines_of invoice_id w))
                       (invoice_lines w)
    /\ (forall l, In l (invoice_lines w') ->
                  In (line_id l) (map line_id (lines_of invoice_id w)) ->
                  line_status l = Some unknown)
    /\ buying_price_records w' = buying_price_records w.
Proof.
  intros Hrow Hs Hne n.
  pose proof (validate_spec parse_iso_date date_isoformat str_lower
                            invoice_id w Hrow Hne) as Hspec.
  cbv zeta in Hspec. unfold verdicts in Hspec.
  rewrite (@all_ok_const _ _ _ unknown) in Hspec
    by (intros l; apply verdict_without_supplier; exact Hs).
  destruct Hspec as (w' & w1 & va & Hrun & _ & Hva & _ & Hlines & _).
  rewrite fold_unknown in Hrun, Hva.
  change (mkCounts (match_count zero_counts) (mismatch_count zero_counts)
                   (created_price_record_count zero_counts)
                   (no_match_count zero_counts
                    + List.length (lines_of invoice_id w)))
    with (mkCounts 0 0 0 n) in Hrun, Hva.
  assert (Hov : overall_status (mkCounts 0 0 0 n) = needs_review).
  { unfold overall_status. cbn. subst n.
    destruct (lines_of invoice_id w); [congruence | reflexivity]. }
  unfold summary in Hrun. rewrite Hov in Hrun, Hva. cbn in Hrun. subst va.
  exists w'. split; [exact Hrun|].
  assert (Hcomb : combine (map line_id (lines_of invoice_id w))
                          (map (fun _ : InvoiceLine => unknown)
                               (lines_of invoice_id w))
                  = map (fun l => (line_id l, unknown)) (lines_of invoice_id w)).
  { generalize (lines_of invoice_id w). intros l.
    induction l as [|x l IH]; cbn; [reflexivity | rewrite IH; reflexivity]. }
  rewrite Hcomb in Hlines. split; [exact Hlines|]. split.
  - intros l Hin Hid. rewrite Hlines, apply_updates_rows in Hin.
    apply in_map_iff in Hin. destruct Hin as (l0 & <- & _).
    rewrite row_after_last in *.
    assert (Hlast : forall ls id,
               In id (map line_id ls) ->
               last_update (map (fun l => (line_id l, unknown)) ls) id
               = Some unknown).
    { clear. intros ls id. induction ls as [|x ls IH]; cbn; [tauto|].
      intros Hin.
      destruct (in_dec Nat.eq_dec id (map line_id ls)) as [Hi|Hi].
      - rewrite (IH Hi). reflexivity.
      - rewrite last_update_not_in by (rewrite map_map; exact Hi).
        destruct Hin as [Hx|Hx]; [|contradiction].
        subst id. rewrite Nat.eqb_refl. reflexivity. }
    destruct (last_update _ (line_id l0)) as [st|] eqn:E.
    + cbn in Hid. rewrite (Hlast _ _ Hid) in E. inversion E. reflexivity.
    + rewrite (Hlast _ _ Hid) in E. discriminate.
  - destruct (@validate_frame_lemma _ _ _ _ Hrun) as ((extra & Hpr & _ & Hcnt) & _).
    cbn in Hcnt. destruct extra; [|cbn in Hcnt; lia].
    rewrite Hpr, app_nil_r. reflexivity.
Qed.

End ValidationFrame.
(** * More facts about the price lookups *)

Section LookupFacts.

Variable parse_iso_date : string -> option date.
Variable date_isoformat : date -> string.
Variable str_lower : string -> string.

Local Abbreviation find_by_sku := (_find_buying_price_by_sku parse_iso_date).
Local Abbreviation find_by_product_name :=
  (_find_buying_price_by_product_name parse_iso_date str_lower).
Local Abbreviation validate_line :=
  (_validate_invoice_line parse_iso_date date_isoformat str_lower).
Local Abbreviation reference := (find_reference parse_iso_date str_lower).

Lemma valid_candidates_valid cs d :
  forall l r,
    valid_candidates parse_iso_date cs d = Some l -> In r l ->
    candidate_valid parse_iso_date r d = Some true.
Proof.
  induction cs as [|c cs IH]; cbn; intros l r H Hin.
  - inversion H; subst. contradiction.
  - destruct (candidate_valid parse_iso_date c d) as [keep|] eqn:Hc;
      try discriminate.
    destruct (valid_candidates parse_iso_date cs d) as [l'|]; try discriminate.
    inversion H; subst; clear H. destruct keep.
    + destruct Hin as [<-|Hin]; [exact Hc | eapply IH; [reflexivity | exact Hin]].
    + eapply IH; [reflexivity | exact Hin].
Qed.

Lemma first_valid_valid cs d r :
  first_valid parse_iso_date cs (Some d) = Some r ->
  candidate_valid parse_iso_date r d = Some true.
Proof.
  unfold first_valid.
  destruct (valid_candidates parse_iso_date cs d) as [l|] eqn:Hl;
    try discriminate.
  intros H. eapply valid_candidates_valid; [exact Hl | apply hd_error_In, H].
Qed.

Lemma opt_string_eqb_eq a b : opt_string_eqb a b = true -> a = b.
Proof.
  destruct a as [x|], b as [y|]; cbn; try discriminate.
  intros H. apply String.eqb_eq in H. congruence.
Qed.

(** The record a line is compared with is always a row of the price table
    that is [active], of the invoice's supplier and, for a line with a
    SKU, of that SKU, otherwise of the line's product name up to letter
    case; with a known invoice date it is a record whose validity window
    holds that date.  A record under review, of another supplier or
    outside its window is never the reference. *)
Theorem reference_record_is_active_and_valid table line supplier_name
        invoice_date r :
  reference table line supplier_name invoice_date = Some r ->
  In r table
  /\ pr_status r = Some active
  /\ pr_supplier_name r = supplier_name
  /\ (if truthy_str (line_sku line)
      then pr_sku r = line_sku line
      else option_map str_lower (pr_product_name r)
           = option_map str_lower (line_product_name line))
  /\ (forall d, invoice_date = Some d ->
                candidate_valid parse_iso_date r d = Some true).
Proof.
  unfold find_reference. destruct (truthy_str (line_sku line)).
  - intros H. destruct (find_by_sku_In _ _ _ _ _ H) as (Hin & Hact & Hs & Hk).
    repeat split; auto using opt_string_eqb_eq.
    intros d ->. revert H. unfold _find_buying_price_by_sku.
    destruct (negb (truthy_str supplier_name) || negb (truthy_str (line_sku line)));
      try discriminate.
    destruct (negb (truthy_list _)); try discriminate.
    apply first_valid_valid.
  - destruct (truthy_str (line_product_name line)); try discriminate.
    intros H.
    destruct (find_by_product_name_In _ _ _ _ _ _ H) as (Hin & Hact & Hs).
    split; [exact Hin|]. split; [exact Hact|].
    split; [apply opt_string_eqb_eq, Hs|].
    revert H. unfold _find_buying_price_by_product_name.
    destruct (negb (truthy_str supplier_name)
              || negb (truthy_str (line_product_name line))); try discriminate.
    destruct (negb (truthy_list _)); try discriminate.
    intros H. split.
    + apply first_valid_In in H. apply filter_In in H. destruct H as [_ H].
      apply andb_prop in H. destruct H as [_ H].
      apply opt_string_eqb_eq, H.
    + intros d ->. eapply first_valid_valid, H.
Qed.

(** ** Learning from a line without SKU *)

(** The line has a product name but no SKU, and everything else a learned
    record needs. *)
Definition learnable_by_product_name (line : InvoiceLine)
           (supplier_name currency : option string) : Prop :=
  truthy_str supplier_name = true
  /\ truthy_str (line_sku line) = false
  /\ truthy_str (line_product_name line) = true
  /\ truthy_str (or_str (line_currency line) currency) = true
  /\ truthy_float (line_unit_price line) = true.

Lemma validate_line_learns_by_name line invoice_id supplier_name invoice_date
      currency w :
  learnable_by_product_name line supplier_name currency ->
  find_by_product_name (buying_price_records w) supplier_name
                       (line_product_name line) invoice_date = None ->
  exists w1,
    validate_line line invoice_id supplier_name invoice_date currency w
    = (w1, Ok (mkLineResult created_price_record (Some (uuid_supply w))))
    /\ buying_price_records w1
       = buying_price_records w
         ++ [learned_record date_isoformat (uuid_supply w) line supplier_name
                            invoice_date currency]
    /\ uuid_supply w1 = S (S (uuid_supply w)).
Proof.
  intros (Hs & Hk & Hn & Hc & Hp) Hfind.
  eexists. split; [|split].
  - cbv beta iota zeta delta
      [_validate_invoice_line _create_buying_price_record _log_audit
       _update_invoice_line_status float_of_column bind ret raise modify
       get_world uuid4 now].
    rewrite Hk, Hn, Hfind, Hs, Hc, Hp. cbn [andb orb]. reflexivity.
  - reflexivity.
  - reflexivity.
Qed.

(** For a line without SKU the learned record is not deduplicated: with
    no [active] record for its product name, validating the line inserts
    a new [need_review] record every time, also when an identical one is
    there already.  Validating it twice leaves two records that differ in
    their identity only. *)
Theorem learned_price_without_sku_is_duplicated line invoice_id supplier_name
        invoice_date currency w :
  learnable_by_product_name line supplier_name currency ->
  find_by_product_name (buying_price_records w) supplier_name
                       (line_product_name line) invoice_date = None ->
  exists w1 w2 id1 id2,
    validate_line line invoice_id supplier_name invoice_date currency w
    = (w1, Ok (mkLineResult created_price_record (Some id1)))
    /\ validate_line line invoice_id supplier_name invoice_date currency w1
       = (w2, Ok (mkLineResult created_price_record (Some id2)))
    /\ id1 <> id2
    /\ buying_price_records w2
       = buying_price_records w
         ++ [learned_record date_isoformat id1 line supplier_name invoice_date
                            currency;
             learned_record date_isoformat id2 line supplier_name invoice_date
                            currency].
Proof.
  intros Hl Hfind.
  destruct (@validate_line_learns_by_name line invoice_id supplier_name
              invoice_date currency w Hl Hfind) as (w1 & Hrun1 & Hpr1 & Hid1).
  assert (Hfind1 : find_by_product_name (buying_price_records w1) supplier_name
                     (line_product_name line) invoice_date = None).
  { rewrite Hpr1, find_by_product_name_app; [exact Hfind|].
    constructor; [reflexivity | constructor]. }
  destruct (@validate_line_learns_by_name line invoice_id supplier_name
              invoice_date currency w1 Hl Hfind1) as (w2 & Hrun2 & Hpr2 & _).
  exists w1, w2, (uuid_supply w), (uuid_supply w1).
  split; [exact Hrun1|]. split; [exact Hrun2|]. split; [lia|].
  rewrite Hpr2, Hpr1, <- app_assoc. reflexivity.
Qed.

End LookupFacts.
(** * More facts about mismatch resolution *)

(** ** A dispute checks nothing *)

Lemma dispute_lines_frame ids :
  forall w w' r,
    for_each ids dispute_line tt w = (w', r) ->
    r = Ok tt
    /\ invoices w' = invoices w
    /\ buying_price_records w' = buying_price_records w
    /\ audit_log w' = audit_log w
    /\ uuid_supply w' = uuid_supply w
    /\ map line_invoice_id (invoice_lines w')
       = map line_invoice_id (invoice_lines w).
Proof.
  induction ids as [|a ids IH]; intros w w' r H.
  - cbn in H. inversion H; subst. repeat split.
  - cbn [for_each] in H. unfold bind at 1 in H. unfold dispute_line at 1 in H.
    unfold bind, now, modify in H. cbn in H.
    apply IH in H. cbn in H.
    destruct H as (H1 & H2 & H3 & H4 & H5 & H6).
    repeat (split; [assumption|]).
    rewrite H6, map_map. apply map_ext. intros l.
    destruct (Nat.eqb (line_id l) a); reflexivity.
Qed.

Lemma filter_true {A} (l : list A) : filter (fun _ => true) l = l.
Proof. induction l as [|x l IH]; cbn; [|rewrite IH]; reflexivity. Qed.

(** The rows [_generate_dispute_summary] reads. *)
Definition disputed_lines (invoice_id : uuid) (line_ids : option (list uuid))
           (rows : list InvoiceLine) : list InvoiceLine :=
  filter (fun l => match line_ids with
                   | Some (_ :: _) => targeted line_ids l
                   | _ => true
                   end)
         (filter (fun l => Nat.eqb (line_invoice_id l) invoice_id) rows).

Lemma dispute_invoice_rows invoice_id reason line_ids user_id w :
  exists w' summary t,
    dispute_invoice invoice_id reason line_ids user_id w
    = (w', Ok (mkDisputeResult invoice_id disputed summary t))
    /\ invoices w'
       = map (fun i => if Nat.eqb (inv_id i) invoice_id
                       then set_invoice_disputed (clock w) i else i)
             (invoices w)
    /\ buying_price_records w' = buying_price_records w
    /\ map line_invoice_id (invoice_lines w')
       = map line_invoice_id (invoice_lines w)
    /\ audit_log w'
       = audit_log w
         ++ [mkAudit (Some (uuid_supply w)) "invoices" (inr invoice_id)
                     "invoice_dispute" (DisputeDetails reason summary)
                     user_id (Some (t - 1)%Z)]
    /\ summary
       = SummaryHeader invoice_id
         :: SummaryAffected
              (List.length (disputed_lines invoice_id line_ids
                                           (invoice_lines w')))
         :: map (fun l => SummaryLine (line_sku l) (line_unit_price l)
                                      (line_quantity l) (line_total l))
                (disputed_lines invoice_id line_ids (invoice_lines w')).
Proof.
  unfold dispute_invoice, disputed_lines.
  destruct line_ids as [[|a ids]|].
  1,3: do 3 eexists; split;
    [ unfold bind, now, modify, ret, _generate_dispute_summary, _log_dispute,
        get_world, uuid4; cbn; reflexivity |];
    cbn; rewrite Z.add_simpl_r;
    rewrite filter_true; repeat split.
  unfold bind at 1. unfold now at 1. unfold bind at 1. unfold modify at 1.
  unfold bind at 1. fold dispute_line.
  match goal with
  | |- context [for_each (a :: ids) dispute_line tt ?w0] =>
      destruct (for_each (a :: ids) dispute_line tt w0) as [w1 r1] eqn:Hloop;
      destruct (@dispute_lines_frame _ _ _ _ Hloop)
        as (-> & Hinv & Hpr & Hau & Hu & Hown)
  end.
  cbn in Hinv, Hpr, Hau, Hu, Hown.
  do 3 eexists. split.
  { unfold bind, now, modify, ret, _generate_dispute_summary, _log_dispute,
      get_world, uuid4. cbn. reflexivity. }
  cbn. rewrite Hinv, Hpr, Hau, Hu, Hown, Z.add_simpl_r.
  repeat split.
Qed.

(** [dispute_invoice] does not look the invoice up.  For an identity no
    invoice carries it changes no row of [invoices], and still answers
    [disputed] and writes an [invoice_dispute] entry to the audit log; the
    price table is never touched, and with no line of that invoice stored
    the summary reports zero affected lines. *)
Theorem dispute_of_unknown_invoice_succeeds invoice_id reason line_ids user_id w :
  (forall i, In i (invoices w) -> inv_id i <> invoice_id) ->
  exists w' r,
    dispute_invoice invoice_id reason line_ids user_id w = (w', Ok r)
    /\ dr_invoice_id r = invoice_id
    /\ dr_status r = disputed
    /\ invoices w' = invoices w
    /\ buying_price_records w' = buying_price_records w
    /\ (exists entry,
           audit_log w' = audit_log w ++ [entry]
           /\ au_action entry = "invoice_dispute"
           /\ au_entity_id entry = inr invoice_id)
    /\ ((forall l, In l (invoice_lines w) -> line_invoice_id l <> invoice_id) ->
        dr_dispute_summary r = [SummaryHeader invoice_id; SummaryAffected 0]).
Proof.
  intros Hnone.
  destruct (dispute_invoice_rows invoice_id reason line_ids user_id w)
    as (w' & summary & t & Hrun & Hinv & Hpr & Hown & Hau & Hsum).
  exists w'. eexists. split; [exact Hrun|]. cbn.
  split; [reflexivity|]. split; [reflexivity|]. split.
  { rewrite Hinv. rewrite <- (map_id (invoices w)) at 2. apply map_ext_in.
    intros i Hi. destruct (Nat.eqb (inv_id i) invoice_id) eqn:E; [|reflexivity].
    apply Nat.eqb_eq in E. exfalso. exact (Hnone i Hi E). }
  split; [exact Hpr|]. split.
  { eexists. split; [exact Hau|]. split; reflexivity. }
  intros Hlines.
  assert (Hempty : filter (fun l => Nat.eqb (line_invoice_id l) invoice_id)
                          (invoice_lines w') = []).
  { apply filter_none. apply Forall_forall. intros l Hl.
    apply Nat.eqb_neq. intros Heq.
    assert (Hin : In (line_invoice_id l) (map line_invoice_id (invoice_lines w')))
      by (apply in_map, Hl).
    rewrite Hown in Hin. apply in_map_iff in Hin.
    destruct Hin as (l0 & Heq0 & Hl0). apply (Hlines l0 Hl0). congruence. }
  rewrite Hsum. unfold disputed_lines. rewrite Hempty. reflexivity.
Qed.

(** ** Closing the open price records *)

Section ClosePriceRecords.

Variable datetime_isoformat : timestamp -> string.

Lemma closed_record_not_open valid_from product_id supplier_id t r :
  is_open_for product_id supplier_id
              (close_price_record (datetime_isoformat valid_from) t r) = false.
Proof.
  unfold is_open_for. cbn.
  destruct (pr_product_id r), (pr_supplier_id r); reflexivity.
Qed.

Lemma closed_rows valid_from product_id supplier_id table :
  forall closed,
    Forall2 (closed_or_same datetime_isoformat valid_from
               (map pr_id (filter (is_open_for product_id supplier_id) table)))
            table closed ->
    map pr_id closed = map pr_id table
    /\ filter (is_open_for product_id supplier_id) closed = [].
Proof.
  assert (Hids : forall r, In r table ->
                   is_open_for product_id supplier_id r = true ->
                   existsb (Nat.eqb (pr_id r))
                     (map pr_id (filter (is_open_for product_id supplier_id)
                                        table)) = true).
  { intros r Hr Hopen. apply existsb_exists. exists (pr_id r).
    split; [|apply Nat.eqb_refl]. apply in_map, filter_In. split; assumption. }
  revert Hids.
  generalize (map pr_id (filter (is_open_for product_id supplier_id) table)).
  intros ids Hids closed HF.
  induction HF as [|r r' l l' Hr _ IH]; [split; reflexivity|].
  destruct IH as [IHid IHopen].
  { intros x Hx. apply Hids. right. exact Hx. }
  unfold closed_or_same in Hr. cbn [map filter].
  destruct (existsb (Nat.eqb (pr_id r)) ids) eqn:Hex.
  - destruct Hr as [t ->]. rewrite closed_record_not_open.
    split; [cbn; f_equal; exact IHid | exact IHopen].
  - subst r'. split; [f_equal; exact IHid|].
    destruct (is_open_for product_id supplier_id r) eqn:Hopen; [|exact IHopen].
    rewrite (Hids r (or_introl eq_refl) Hopen) in Hex. discriminate.
Qed.

(** For a run of [_close_old_price_record] that returns: every record of
    the (product, supplier) pair that had no [valid_to], none, one or
    several, has its [valid_to] set to [valid_from], so that no record of
    the pair is open afterwards; no record is added or removed, a record
    that was not open for the pair is as it was (identities being unique),
    and invoices and invoice lines are not touched. *)
Theorem close_old_price_record_closes_every_open_record product_id supplier_id
        valid_from w w' :
  _close_old_price_record datetime_isoformat product_id supplier_id valid_from w
  = (w', Ok tt) ->
  map pr_id (buying_price_records w') = map pr_id (buying_price_records w)
  /\ filter (is_open_for product_id supplier_id) (buying_price_records w') = []
  /\ (forall r r',
        In (r, r') (combine (buying_price_records w) (buying_price_records w')) ->
        (is_open_for product_id supplier_id r = true ->
         pr_valid_to r' = Some (datetime_isoformat valid_from))
        /\ (NoDup (map pr_id (buying_price_records w)) ->
            is_open_for product_id supplier_id r = false -> r' = r))
  /\ invoices w' = invoices w
  /\ invoice_lines w' = invoice_lines w.
Proof.
  intros H.
  destruct (close_old_price_record_spec datetime_isoformat product_id
              supplier_id valid_from w)
    as (w1 & Hrun & Hinv & Hl & _ & _ & Hpr).
  rewrite H in Hrun. inversion Hrun; subst w1; clear Hrun.
  destruct (@closed_rows _ _ _ _ _ Hpr) as [Hids Hopen].
  split; [exact Hids|]. split; [exact Hopen|].
  split; [|split; assumption].
  intros r r' Hin. eapply (@open_record_is_closed datetime_isoformat); eassumption.
Qed.

End ClosePriceRecords.
(** * More facts about the PDF parser *)

From Stdlib Require Floats.SpecFloat Floats.FloatOps Floats.FloatAxioms.

(** The [line_records] built for [lines], their identities drawn from
    [uuid4()] in order. *)
Fixpoint number_records (next : uuid) (invoice_id : uuid)
         (lines : list CleanLine) : list InvoiceLine :=
  match lines with
  | [] => []
  | line :: rest =>
      line_record next invoice_id line :: number_records (S next) invoice_id rest
  end.

Section PDFParserMore.

Variable py_float : string -> option float.
Variable _parse_date : string -> option string.
Variable extract_invoice : Invoice -> outcome ExtractedInvoice.
Variable line_insert_ok : InvoiceLine -> bool.
Variable default_model : string.

(** The rows [_replace_invoice_lines] keeps: those of the other invoices. *)
Definition other_lines (invoice_id : uuid) (rows : list InvoiceLine)
  : list InvoiceLine :=
  filter (fun l => negb (Nat.eqb (line_invoice_id l) invoice_id)) rows.

(** The rows it inserts: the records the storage service accepts. *)
Definition inserted_lines (next invoice_id : uuid) (lines : list CleanLine)
  : list InvoiceLine :=
  filter line_insert_ok (number_records next invoice_id lines).

Lemma build_records_numbered invoice_id lines :
  forall acc w,
    exists w',
      for_each lines (build_record invoice_id) acc w
      = (w', Ok (acc ++ number_records (uuid_supply w) invoice_id lines))
      /\ invoices w' = invoices w
      /\ invoice_lines w' = invoice_lines w
      /\ buying_price_records w' = buying_price_records w
      /\ clock w' = clock w
      /\ uuid_supply w' = uuid_supply w + List.length lines.
Proof.
  induction lines as [|line lines IH]; intros acc w.
  - exists w. cbn. rewrite app_nil_r, Nat.add_0_r. repeat split.
  - cbn [for_each]. unfold bind at 1. unfold build_record at 1.
    unfold bind, uuid4, ret.
    match goal with
    | |- context [for_each lines (build_record invoice_id) ?a ?w0] =>
        destruct (IH a w0) as (w' & Hrun & Hinv & Hl & Hpr & Hc & Hu)
    end.
    exists w'. rewrite Hrun, <- app_assoc. cbn in *.
    repeat split; try assumption. lia.
Qed.

Lemma insert_records_frame records :
  forall n w,
    exists w',
      for_each records (insert_record line_insert_ok) n w
      = (w', Ok (n + List.length (filter line_insert_ok records)))
      /\ invoices w' = invoices w
      /\ buying_price_records w' = buying_price_records w
      /\ clock w' = clock w
      /\ uuid_supply w' = uuid_supply w
      /\ invoice_lines w' = invoice_lines w ++ filter line_insert_ok records.
Proof.
  induction records as [|record records IH]; intros n w.
  - exists w. cbn. rewrite Nat.add_0_r, app_nil_r. repeat split.
  - cbn [for_each filter]. unfold bind at 1. unfold insert_record at 1.
    unfold try_except. destruct (line_insert_ok record).
    + unfold bind, modify, ret, raise.
      match goal with
      | |- context [for_each records (insert_record line_insert_ok) ?m ?w0] =>
          destruct (IH m w0) as (w' & Hrun & Hinv & Hpr & Hc & Hu & Hl)
      end.
      exists w'. rewrite Hrun. cbn in *. rewrite Hl, <- app_assoc.
      repeat split; try assumption. do 2 f_equal. lia.
    + unfold raise, ret.
      destruct (IH n w) as (w' & Hrun & Hinv & Hpr & Hc & Hu & Hl).
      exists w'. rewrite Hrun. repeat split; assumption.
Qed.

Lemma number_records_fields next invoice_id lines :
  Forall (fun l => line_status l = None /\ line_invoice_id l = invoice_id
                   /\ next <= line_id l < next + List.length lines)
         (number_records next invoice_id lines).
Proof.
  revert next. induction lines as [|line lines IH]; intros next; cbn;
    constructor.
  - cbn. repeat split; lia.
  - eapply Forall_impl; [|apply IH]. cbn. intros l (H1 & H2 & H3).
    repeat split; try assumption; lia.
Qed.

Lemma replace_invoice_lines_effect_lemma invoice_id lines w :
  let inserted := inserted_lines (uuid_supply w) invoice_id lines in
  exists w',
    _replace_invoice_lines line_insert_ok invoice_id lines w
    = (w', Ok (List.length inserted))
    /\ invoice_lines w' = other_lines invoice_id (invoice_lines w) ++ inserted
    /\ invoices w' = invoices w
    /\ buying_price_records w' = buying_price_records w
    /\ clock w' = clock w.
Proof.
  unfold inserted_lines, other_lines, _replace_invoice_lines.
  unfold bind at 1. unfold modify at 1.
  destruct lines as [|line lines].
  - cbn [truthy_list negb]. eexists. cbn. rewrite app_nil_r. repeat split.
  - cbn [truthy_list negb]. unfold bind at 1.
    fold (build_record invoice_id). fold (insert_record line_insert_ok).
    match goal with
    | |- context [for_each (line :: lines) (build_record invoice_id) [] ?w0] =>
        destruct (build_records_numbered invoice_id (line :: lines) [] w0)
          as (w1 & Hrun & Hinv & Hl & Hpr & Hc & Hu)
    end.
    rewrite Hrun. cbn [app].
    match goal with
    | |- context [for_each ?rs (insert_record line_insert_ok) 0 w1] =>
        destruct (insert_records_frame rs 0 w1)
          as (w2 & Hrun2 & Hinv2 & Hpr2 & Hc2 & Hu2 & Hl2)
    end.
    rewrite Hrun2. exists w2. cbn in *.
    split; [reflexivity|]. split; [congruence|]. split; [congruence|].
    split; congruence.
Qed.

(** ** Replacing the lines of an invoice *)

(** For a run of [_replace_invoice_lines] that returns: the stored lines
    of the invoice have been deleted, also when there was nothing to
    insert, and the lines of every other invoice are in place and in
    order; after them come, in order, one record per cleaned line the
    storage service accepted, a rejected line not hindering the others.
    The count returned is the number of these records; each carries the
    invoice's identity, a fresh identity of its own and no status, so that
    a re-parse drops the statuses validation had stored. *)
Theorem replace_invoice_lines_effect invoice_id lines w w' n :
  _replace_invoice_lines line_insert_ok invoice_id lines w = (w', Ok n) ->
  let inserted := inserted_lines (uuid_supply w) invoice_id lines in
  n = List.length inserted
  /\ invoice_lines w' = other_lines invoice_id (invoice_lines w) ++ inserted
  /\ filter (fun l => Nat.eqb (line_invoice_id l) invoice_id) (invoice_lines w')
     = inserted
  /\ Forall (fun l => line_status l = None /\ line_invoice_id l = invoice_id
                      /\ uuid_supply w <= line_id l)
            inserted
  /\ n <= List.length lines
  /\ (Forall (fun r => line_insert_ok r = true)
             (number_records (uuid_supply w) invoice_id lines) ->
      n = List.length lines)
  /\ invoices w' = invoices w.
Proof.
  intros H inserted.
  destruct (replace_invoice_lines_effect_lemma invoice_id lines w)
    as (w0 & Hrun & Hl & Hinv & _).
  fold inserted in Hrun, Hl.
  rewrite H in Hrun. inversion Hrun; subst w0 n; clear Hrun H.
  assert (Hfields : Forall (fun l => line_status l = None
                                     /\ line_invoice_id l = invoice_id
                                     /\ uuid_supply w <= line_id l) inserted).
  { unfold inserted, inserted_lines. apply Forall_filter.
    eapply Forall_impl; [|apply number_records_fields]. cbn. tauto. }
  assert (Hlen : forall n, List.length (number_records n invoice_id lines)
                           = List.length lines).
  { clear. induction lines as [|l ls IH]; intros n; cbn; [|rewrite IH];
      reflexivity. }
  split; [reflexivity|]. split; [exact Hl|]. split.
  { rewrite Hl, filter_app. unfold other_lines. rewrite filter_none.
    - cbn. apply forallb_filter_id. apply forallb_forall.
      rewrite Forall_forall in Hfields. intros x Hx.
      apply Nat.eqb_eq. apply (Hfields x Hx).
    - apply Forall_forall. intros x Hx. apply filter_In in Hx.
      destruct Hx as [_ Hx]. apply negb_true_iff in Hx. exact Hx. }
  split; [exact Hfields|]. split.
  { unfold inserted, inserted_lines. rewrite <- (Hlen (uuid_supply w)).
    apply filter_length_le. }
  split; [|exact Hinv].
  intros Hall. unfold inserted, inserted_lines.
  rewrite forallb_filter_id; [apply Hlen|].
  apply forallb_forall. rewrite Forall_forall in Hall. exact Hall.
Qed.

(** ** A whole parse *)

Section Header.

Variable header_update_ok : uuid -> ExtractedInvoice -> bool.

Local Abbreviation parse :=
  (parse_invoice py_float _parse_date extract_invoice header_update_ok
                 line_insert_ok default_model).

Lemma header_update_frame invoice_id extracted w :
  exists w' h,
    try_except
      (_update_invoice_header_fields _parse_date header_update_ok invoice_id
                                     extracted)
      (fun _ => ret tt) w = (w', Ok tt)
    /\ invoices w' = map h (invoices w)
    /\ (forall i, inv_id (h i) = inv_id i /\ inv_status (h i) = inv_status i
                  /\ inv_parsed_at (h i) = inv_parsed_at i)
    /\ invoice_lines w' = invoice_lines w
    /\ buying_price_records w' = buying_price_records w
    /\ clock w' = clock w
    /\ uuid_supply w' = uuid_supply w.
Proof.
  unfold try_except, _update_invoice_header_fields.
  destruct (has_header_fields _parse_date extracted); cbn [negb].
  2:{ exists w, (fun i => i). cbn. rewrite map_id. repeat split. }
  destruct (header_update_ok invoice_id extracted).
  - eexists. exists (fun i => if Nat.eqb (inv_id i) invoice_id
                             then set_header_fields _parse_date extracted i
                             else i).
    cbn. repeat split; destruct (Nat.eqb (inv_id i) invoice_id); reflexivity.
  - exists w, (fun i => i). cbn. rewrite map_id. repeat split.
Qed.

(** [parse_invoice], opened: its two failures, and otherwise what it
    returns and stores, as functions of the world it starts from. *)
Lemma parse_outcome invoice_id w :
  match invoice_row invoice_id w with
  | None => parse invoice_id w = (w, Raise (ValueError "Invoice not found"))
  | Some invoice =>
      match extract_invoice invoice with
      | Raise e => parse invoice_id w = (w, Raise e)
      | Ok extracted =>
          let inserted :=
            inserted_lines (uuid_supply w) invoice_id
              (_clean_invoice_lines py_float (ex_lines extracted)) in
          let moved (i : Invoice) :=
            Nat.eqb (inv_id i) invoice_id && (0 <? List.length inserted)%nat in
          exists w',
            parse invoice_id w
            = (w', Ok (mkParseResult parsed (List.length inserted)
                                     default_model (ex_warnings extracted)))
            /\ invoice_lines w'
               = other_lines invoice_id (invoice_lines w) ++ inserted
            /\ map inv_id (invoices w') = map inv_id (invoices w)
            /\ map inv_status (invoices w')
               = map (fun i => if moved i then parsed else inv_status i)
                     (invoices w)
            /\ map inv_parsed_at (invoices w')
               = map (fun i => if moved i then Some (clock w)
                               else inv_parsed_at i)
                     (invoices w)
            /\ buying_price_records w' = buying_price_records w
      end
  end.
Proof.
  unfold invoice_row.
  destruct (filter (fun i => Nat.eqb (inv_id i) invoice_id) (invoices w))
    as [|invoice rest] eqn:Hrow; cbn [hd_error].
  { unfold parse_invoice. unfold bind at 1. cbn [get_world]. rewrite Hrow.
    reflexivity. }
  destruct (extract_invoice invoice) as [extracted|e] eqn:Hex.
  2:{ unfold parse_invoice. unfold bind at 1. cbn [get_world].
      rewrite Hrow, Hex. reflexivity. }
  cbv zeta. unfold parse_invoice. unfold bind at 1. cbn [get_world].
  rewrite Hrow, Hex. unfold bind at 1.
  destruct (header_update_frame invoice_id extracted w)
    as (wh & h & Hrun & Hinv & Hh & Hl & Hpr & Hc & Hu).
  rewrite Hrun. unfold bind at 1.
  destruct (replace_invoice_lines_effect_lemma invoice_id
              (_clean_invoice_lines py_float (ex_lines extracted)) wh)
    as (wr & Hrun2 & Hl2 & Hinv2 & Hpr2 & Hc2).
  rewrite Hrun2. rewrite Hu in *.
  set (inserted := inserted_lines (uuid_supply w) invoice_id
                     (_clean_invoice_lines py_float (ex_lines extracted))) in *.
  destruct (0 <? List.length inserted)%nat eqn:Hpos.
  - cbv beta iota zeta delta
      [bind _update_invoice_status_to_parsed now modify _log_invoice_parsed
       uuid4 ret].
    eexists. split; [reflexivity|]. cbn.
    rewrite Hl2, Hl, Hinv2, Hinv, Hpr2, Hpr, Hc2, Hc, !map_map.
    split; [reflexivity|].
    repeat split; try (apply map_ext; intros i; destruct (Hh i) as (Hid & Hst & Hpa);
      rewrite Hid; destruct (Nat.eqb (inv_id i) invoice_id); cbn;
      first [reflexivity | congruence]).
  - cbv beta iota zeta delta [bind now modify _log_invoice_parsed uuid4 ret].
    eexists. split; [reflexivity|]. cbn.
    rewrite Hl2, Hl, Hinv2, Hinv, Hpr2, Hpr, !map_map.
    split; [reflexivity|].
    repeat split; try (apply map_ext; intros i; destruct (Hh i) as (Hid & Hst & Hpa);
      rewrite ?andb_false_r; congruence).
Qed.

End Header.

(** Whether the storage service accepts or rejects the update of the
    header fields makes no difference to the rest of a parse: the result
    returned, the lines stored, and the status and [parsed_at] of every
    invoice are the same in both cases. *)
Theorem parse_invoice_ignores_header_failure ok1 ok2 invoice_id w :
  let run1 := parse_invoice py_float _parse_date extract_invoice ok1
                            line_insert_ok default_model invoice_id w in
  let run2 := parse_invoice py_float _parse_date extract_invoice ok2
                            line_insert_ok default_model invoice_id w in
  snd run1 = snd run2
  /\ invoice_lines (fst run1) = invoice_lines (fst run2)
  /\ map inv_id (invoices (fst run1)) = map inv_id (invoices (fst run2))
  /\ map inv_status (invoices (fst run1)) = map inv_status (invoices (fst run2))
  /\ map inv_parsed_at (invoices (fst run1))
     = map inv_parsed_at (invoices (fst run2)).
Proof.
  cbv zeta.
  pose proof (parse_outcome ok1 invoice_id w) as H1.
  pose proof (parse_outcome ok2 invoice_id w) as H2.
  destruct (invoice_row invoice_id w) as [invoice|].
  - destruct (extract_invoice invoice) as [extracted|e].
    + destruct H1 as (w1 & -> & Hl1 & Hid1 & Hst1 & Hpa1 & _).
      destruct H2 as (w2 & -> & Hl2 & Hid2 & Hst2 & Hpa2 & _).
      cbn [fst snd]. repeat split; congruence.
    + rewrite H1, H2. repeat split.
  - rewrite H1, H2. repeat split.
Qed.

End PDFParserMore.

(** ** Signs *)

(** [x is None or not x < 0] *)
Definition not_negative (v : option float) : bool :=
  match v with
  | Some x => negb (PrimFloat.ltb x PrimFloat.zero)
  | None => true
  end.

Lemma ltb_abs_zero f : PrimFloat.ltb (PrimFloat.abs f) PrimFloat.zero = false.
Proof.
  rewrite FloatAxioms.ltb_spec, FloatAxioms.abs_spec.
  change (FloatOps.Prim2SF PrimFloat.zero) with (SpecFloat.S754_zero false).
  destruct (FloatOps.Prim2SF f) as [s|s| |s m e]; reflexivity.
Qed.

Lemma abs_if_negative_not_negative v : not_negative (abs_if_negative v) = true.
Proof.
  destruct v as [f|]; cbn; [|reflexivity].
  destruct (PrimFloat.ltb f PrimFloat.zero) eqn:E; cbn.
  - rewrite ltb_abs_zero. reflexivity.
  - rewrite E. reflexivity.
Qed.

(** The four amounts of a line that [_clean_invoice_lines] normalises. *)
Definition amounts_not_negative (quantity unit_price net_amount line_total
                                 : option float) : Prop :=
  not_negative quantity = true /\ not_negative unit_price = true
  /\ not_negative net_amount = true /\ not_negative line_total = true.

(** Whatever the extraction answered, no cleaned line has a negative
    quantity, unit price, net amount or line total (each is null or not
    below zero), and so neither has any line record built from the cleaned
    lines and inserted for the invoice. *)
Theorem cleaned_amounts_are_not_negative py_float line_insert_ok next
        invoice_id lines :
  Forall (fun c => amounts_not_negative (cl_quantity c) (cl_unit_price c)
                                        (cl_net_amount c) (cl_line_total c))
         (_clean_invoice_lines py_float lines)
  /\ Forall (fun l => amounts_not_negative (line_quantity l) (line_unit_price l)
                                           (line_net_amount l) (line_total l))
            (inserted_lines line_insert_ok next invoice_id
                            (_clean_invoice_lines py_float lines)).
Proof.
  assert (Hclean : Forall (fun c => amounts_not_negative
                                      (cl_quantity c) (cl_unit_price c)
                                      (cl_net_amount c) (cl_line_total c))
                          (_clean_invoice_lines py_float lines)).
  { unfold _clean_invoice_lines. apply Forall_forall. intros c Hc.
    apply in_map_iff in Hc. destruct Hc as (line & <- & _).
    repeat split; apply abs_if_negative_not_negative. }
  split; [exact Hclean|].
  unfold inserted_lines. apply Forall_filter.
  revert next. induction Hclean as [|c cs Hc _ IH]; intros next; cbn;
    constructor; [exact Hc | apply IH].
Qed.
(** * More facts about mail ingestion *)

Lemma length_append (a b : string) :
  String.length (String.append a b) = String.length a + String.length b.
Proof. induction a as [|c a IH]; cbn; [|rewrite IH]; reflexivity. Qed.

Lemma substring_all (b : string) : substring 0 (String.length b) b = b.
Proof. induction b as [|c b IH]; cbn; [|rewrite IH]; reflexivity. Qed.

Lemma substring_append_right (a b : string) :
  substring (String.length a) (String.length b) (String.append a b) = b.
Proof. induction a as [|c a IH]; cbn; [apply substring_all | exact IH]. Qed.

Lemma ends_with_append (pre suffix : string) :
  ends_with suffix (String.append pre suffix) = true.
Proof.
  unfold ends_with. rewrite length_append.
  replace (String.length pre + String.length suffix - String.length suffix)
    with (String.length pre) by lia.
  rewrite substring_append_right, String.eqb_refl, andb_true_r.
  apply Nat.leb_le. lia.
Qed.

Lemma find_app_none {A} (p : A -> bool) l l' :
  find p l = None -> find p (l ++ l') = find p l'.
Proof.
  induction l as [|x l IH]; cbn; [reflexivity|].
  destruct (p x); [discriminate | exact IH].
Qed.

Lemma In_firstn {A} (x : A) n l : In x (firstn n l) -> In x l.
Proof.
  revert l. induction n as [|n IH]; intros [|y l]; cbn; try tauto.
  intros [H|H]; [left; exact H | right; apply IH, H].
Qed.

Lemma In_insert_by_received x y l :
  In x (insert_by_received y l) -> x = y \/ In x l.
Proof.
  induction l as [|z l IH]; cbn.
  - intros [H|[]]; left; congruence.
  - destruct (msg_receivedDateTime z <=? msg_receivedDateTime y)%Z; cbn.
    + intros [H|H]; [left; congruence | right; exact H].
    + intros [H|H]; [right; left; exact H|].
      destruct (IH H) as [H'|H']; [left; exact H' | right; right; exact H'].
Qed.

Lemma In_order_by_received x l : In x (order_by_received_desc l) -> In x l.
Proof.
  induction l as [|y l IH]; cbn; [tauto|].
  intros H. apply In_insert_by_received in H.
  destruct H as [H|H]; [left; congruence | right; apply IH, H].
Qed.

Section EmailPollingMore.

Variable str_lower : string -> string.
Variable strftime : timestamp -> string.
Variable MAX_EMAILS_PER_RUN : nat.
Variable MAX_PDF_SIZE_MB : Z.

Local Abbreviation fetch := (fetch_emails MAX_EMAILS_PER_RUN).
Local Abbreviation save := (save_pdf_to_pdfs_bucket strftime).
Local Abbreviation process := (process_email str_lower strftime MAX_PDF_SIZE_MB).
Local Abbreviation poll :=
  (poll_and_process_emails str_lower strftime MAX_EMAILS_PER_RUN
                           MAX_PDF_SIZE_MB).

(** ** Fetching *)

(** [max_emails or settings.MAX_EMAILS_PER_RUN] *)
Definition fetch_limit (max_emails : option nat) : nat :=
  match max_emails with
  | Some (S n) => S n
  | _ => MAX_EMAILS_PER_RUN
  end.

Lemma fetch_emails_outcome max_emails w :
  exists emails,
    fetch max_emails w = (w, Ok emails)
    /\ List.length emails <= fetch_limit max_emails
    /\ Forall (fun e =>
                 ed_hasAttachments e = Some true
                 /\ exists m, In m (mailbox w) /\ msg_id m = ed_id e
                              /\ msg_isRead m = false
                              /\ msg_hasAttachments m = Some true)
              emails.
Proof.
  unfold fetch_emails. fold (fetch_limit max_emails).
  eexists. split; [reflexivity|]. split; [apply firstn_le_length|].
  apply Forall_forall. intros e He.
  apply In_firstn in He. apply filter_In in He. destruct He as [He Hatt].
  unfold graph_list_unread in He. apply in_map_iff in He.
  destruct He as (m & <- & Hm). apply In_firstn in Hm.
  apply In_order_by_received in Hm. apply filter_In in Hm.
  destruct Hm as [Hin Hunread]. apply negb_true_iff in Hunread.
  cbn in Hatt |- *.
  destruct (msg_hasAttachments m) as [[|]|] eqn:Hflag; try discriminate.
  split; [reflexivity|]. exists m. repeat split; assumption.
Qed.

(** A run of [fetch_emails] that returns has changed nothing, and has
    returned at most [max_emails] entries, [MAX_EMAILS_PER_RUN] of them
    when [max_emails] is missing or zero; each is flagged as having
    attachments and is, by its identity, an unread message of the
    mailbox. *)
Theorem fetch_emails_returns_unread_with_attachments max_emails w w' emails :
  fetch_emails MAX_EMAILS_PER_RUN max_emails w = (w', Ok emails) ->
  w' = w
  /\ List.length emails <= fetch_limit max_emails
  /\ Forall (fun e =>
               ed_hasAttachments e = Some true
               /\ exists m, In m (mailbox w) /\ msg_id m = ed_id e
                            /\ msg_isRead m = false
                            /\ msg_hasAttachments m = Some true)
            emails.
Proof.
  intros H.
  destruct (fetch_emails_outcome max_emails w) as (emails0 & Hrun & Hlen & Hall).
  rewrite H in Hrun. inversion Hrun; subst w' emails0; clear Hrun.
  repeat split; assumption.
Qed.

(** ** Storing a PDF *)

(** [filename.replace(" ", "_").replace("/", "_")] *)
Definition safe_filename (filename : string) : string :=
  str_replace "/" "_" (str_replace " " "_" filename).

Lemma save_pdf_cases pdf_content filename w :
  save pdf_content filename w
  = match find (fun f => ends_with (String.append "_" (safe_filename filename))
                                   (file_name f))
               (pdfs_bucket w) with
    | Some existing => (w, Ok (file_name existing))
    | None =>
        let path := String.append (strftime (clock w))
                                  (String.append "_" (safe_filename filename)) in
        (with_pdfs_bucket (fun b => b ++ [mkFile path pdf_content])
                          (fst (now w)),
         Ok path)
    end.
Proof.
  unfold save_pdf_to_pdfs_bucket. fold (safe_filename filename).
  unfold bind at 1. cbn [get_world].
  destruct (find _ (pdfs_bucket w)); reflexivity.
Qed.

Lemma save_pdf_outcome pdf_content filename w :
  exists w1 path,
    save pdf_content filename w = (w1, Ok path)
    /\ ends_with (String.append "_" (safe_filename filename)) path = true
    /\ In path (map file_name (pdfs_bucket w1))
    /\ (pdfs_bucket w1 = pdfs_bucket w
        \/ pdfs_bucket w1 = pdfs_bucket w ++ [mkFile path pdf_content])
    /\ invoices w1 = invoices w.
Proof.
  rewrite save_pdf_cases.
  set (dup := fun f => ends_with (String.append "_" (safe_filename filename))
                                 (file_name f)).
  destruct (find dup (pdfs_bucket w)) as [existing|] eqn:Hfind.
  - exists w, (file_name existing). split; [reflexivity|].
    destruct (find_some _ _ Hfind) as [Hin Hdup].
    split; [exact Hdup|]. split; [apply in_map, Hin|].
    split; [left; reflexivity | reflexivity].
  - cbv zeta. eexists. eexists. split; [reflexivity|].
    rewrite ends_with_append. split; [reflexivity|].
    split; [|split; [right; reflexivity | reflexivity]].
    cbn. rewrite map_app. apply in_or_app. right. left. reflexivity.
Qed.

(** The path a run of [save_pdf_to_pdfs_bucket] returns ends with an
    underscore and the safe file name, and names a file of the bucket.
    The run has left the bucket as it was, or has added this one file with
    the content given: it never replaces or removes a stored file. *)
Theorem save_pdf_returns_stored_path pdf_content filename w w1 path :
  save_pdf_to_pdfs_bucket strftime pdf_content filename w = (w1, Ok path) ->
  ends_with (String.append "_" (safe_filename filename)) path = true
  /\ In path (map file_name (pdfs_bucket w1))
  /\ (pdfs_bucket w1 = pdfs_bucket w
      \/ pdfs_bucket w1 = pdfs_bucket w ++ [mkFile path pdf_content]).
Proof.
  intros H.
  destruct (save_pdf_outcome pdf_content filename w)
    as (w0 & path0 & Hrun & Hends & Hin & Hbucket & _).
  rewrite H in Hrun. inversion Hrun; subst w0 path0; clear Hrun.
  repeat split; assumption.
Qed.

(** ** Processing a message *)

(** The row [insert_invoice] writes. *)
Definition received_invoice (id : uuid) (message_id storage_path : string)
  : Invoice :=
  mkInvoice id (Some message_id) (Some "pdfs") (Some storage_path) received
            None None None None None None None None None None None None.

Lemma mark_emails_as_read_frame message_id w :
  exists w',
    mark_emails_as_read message_id w = (w', Ok tt)
    /\ invoices w' = invoices w
    /\ invoice_lines w' = invoice_lines w
    /\ buying_price_records w' = buying_price_records w
    /\ audit_log w' = audit_log w
    /\ pdfs_bucket w' = pdfs_bucket w
    /\ processed_message_ids w' = processed_message_ids w.
Proof.
  unfold mark_emails_as_read. unfold bind, get_world.
  destruct (find_message message_id (mailbox w)); cbn;
    eexists; repeat split; reflexivity.
Qed.

(** What [process_email] leaves in the world when it answers [success]. *)
Definition ingested (email_data : EmailData) (success : bool) (w w' : World)
  : Prop :=
  if success
  then existsb (String.eqb (ed_id email_data)) (processed_message_ids w) = false
       /\ (exists path,
              invoices w'
              = invoices w
                ++ [received_invoice (uuid_supply w) (ed_id email_data) path]
              /\ In path (map file_name (pdfs_bucket w')))
       /\ processed_message_ids w'
          = ed_id email_data :: processed_message_ids w
       /\ List.length (audit_log w') = 2 + List.length (audit_log w)
  else invoices w' = invoices w
       /\ audit_log w' = audit_log w
       /\ processed_message_ids w' = processed_message_ids w.

Lemma process_email_outcome email_data w :
  exists w' success,
    process email_data w = (w', Ok success)
    /\ invoice_lines w' = invoice_lines w
    /\ buying_price_records w' = buying_price_records w
    /\ ingested email_data success w w'.
Proof.
  destruct (process email_data w) as [w' r] eqn:H.
  cbv beta iota zeta delta
    [process_email get_email_attachments download_attachment
     save_pdf_to_pdfs_bucket insert_invoice _insert_audit_log
     try_except bind ret raise modify get_world uuid4 now] in H.
  repeat match type of H with
         | context [if ?b then _ else _] => destruct b eqn:?
         | context [match ?x with Some _ => _ | None => _ end] =>
             destruct x eqn:?
         | context [match ?x with [] => _ | _ :: _ => _ end] =>
             destruct x eqn:?
         | context [match ?x with _ => _ end] => destruct x eqn:?
         end.
  all: try discriminate.
  all: try (inversion H; subst; clear H; do 2 eexists;
            split; [reflexivity|]; cbn; repeat split; reflexivity).
  all: match goal with
       | Hp : context [mark_emails_as_read ?id ?w0] |- _ =>
           destruct (mark_emails_as_read_frame id w0)
             as (wm & Hmark & Hinv & Hl & Hpr & Hau & Hpdf & Hids);
           rewrite Hmark in Hp;
           first [discriminate | inversion Hp; subst; clear Hp]
       end.
  all: inversion H; subst; clear H; do 2 eexists; split; [reflexivity|].
  all: cbn in *; rewrite ?Hinv, ?Hl, ?Hpr, ?Hau, ?Hpdf, ?Hids.
  all: split; [reflexivity|]; split; [reflexivity|]; split; [assumption|].
  all: split; [|split; [reflexivity | rewrite !length_app; cbn; lia]].
  all: eexists; split; [reflexivity|].
  1:{ match goal with
      | Hs : Some (file_name ?s) = Some _, Hf : find _ (pdfs_bucket w) = Some ?s
        |- _ => inversion Hs; subst; apply in_map, (find_some _ _ Hf)
      end. }
  all: match goal with
       | Hs : Some _ = Some ?p |- In ?p _ => injection Hs as <-
       end.
  all: rewrite map_app; apply in_or_app; right; left; reflexivity.
Qed.

(** What [process_email] has done when it answers [True]. *)
Definition ingested_one (email_data : EmailData) (w w' : World) : Prop :=
  existsb (String.eqb (ed_id email_data)) (processed_message_ids w) = false
  /\ (exists path,
         invoices w'
         = invoices w
           ++ [received_invoice (uuid_supply w) (ed_id email_data) path]
         /\ In path (map file_name (pdfs_bucket w')))
  /\ processed_message_ids w' = ed_id email_data :: processed_message_ids w
  /\ List.length (audit_log w') <= 2 + List.length (audit_log w).

(** [process_email] never raises, and it writes neither invoice lines nor
    price records.  When it answers [True] the message had not been
    processed before in this run, exactly one invoice has been appended,
    with status [received], bucket [pdfs], the message's identity and the
    path of a file of the bucket, at most two audit entries have been
    written, and the identity has joined the processed set. *)
Theorem process_email_success_ingests_one_invoice email_data w :
  exists w' success,
    process_email str_lower strftime MAX_PDF_SIZE_MB email_data w
    = (w', Ok success)
    /\ invoice_lines w' = invoice_lines w
    /\ buying_price_records w' = buying_price_records w
    /\ (success = true -> ingested_one email_data w w').
Proof.
  destruct (process_email_outcome email_data w)
    as (w' & success & Hrun & Hl & Hpr & Hing).
  exists w', success. split; [exact Hrun|]. split; [exact Hl|].
  split; [exact Hpr|].
  intros ->. destruct Hing as (Hnew & Hinv & Hids & Hau).
  unfold ingested_one. rewrite Hau.
  split; [exact Hnew|]. split; [exact Hinv|]. split; [exact Hids|].
  apply Nat.le_refl.
Qed.

(** Within a run a message is ingested once: after [process_email] has
    answered [True] for a message, processing the same message again
    answers [False] and changes nothing. *)
Theorem process_email_twice_ingests_once email_data w w1 :
  process_email str_lower strftime MAX_PDF_SIZE_MB email_data w
  = (w1, Ok true) ->
  process_email str_lower strftime MAX_PDF_SIZE_MB email_data w1
  = (w1, Ok false)
  /\ List.length (invoices w1) = S (List.length (invoices w)).
Proof.
  intros H.
  destruct (process_email_outcome email_data w)
    as (w' & success & Hrun & _ & _ & Hing).
  rewrite H in Hrun. inversion Hrun; subst w' success; clear Hrun.
  destruct Hing as (_ & (path & Hinv & _) & Hids & _).
  split.
  - unfold process_email. unfold bind at 1. cbn [get_world].
    rewrite Hids. cbn [existsb]. rewrite String.eqb_refl. reflexivity.
  - rewrite Hinv, length_app. cbn. lia.
Qed.


(** ** An attachment over the size limit *)

(** The size limit is checked after the PDF has been stored.  For a
    message whose first PDF attachment is larger than [MAX_PDF_SIZE_MB],
    [process_email] answers [False] and inserts no invoice, but the
    attachment has been downloaded and saved: the bucket holds a file whose
    name ends with the attachment's safe file name, and when no such file
    was there before, the bucket has grown by one file that no invoice
    refers to. *)
Theorem oversize_pdf_is_stored_but_not_ingested email_data w m attachment rest
        size :
  existsb (String.eqb (ed_id email_data)) (processed_message_ids w) = false ->
  find_message (ed_id email_data) (mailbox w) = Some m ->
  filter (is_pdf str_lower) (msg_attachments m) = attachment :: rest ->
  att_size attachment = Some size ->
  (MAX_PDF_SIZE_MB * 1024 * 1024 < size)%Z ->
  let filename := match att_name attachment with
                  | Some n => n
                  | None => default_filename (ed_id email_data)
                  end in
  let stored f := ends_with (String.append "_" (safe_filename filename))
                            (file_name f) in
  exists w',
    process email_data w = (w', Ok false)
    /\ invoices w' = invoices w
    /\ existsb stored (pdfs_bucket w') = true
    /\ (existsb stored (pdfs_bucket w) = false ->
        List.length (pdfs_bucket w') = S (List.length (pdfs_bucket w))).
Proof.
  intros Hnew Hmsg Hpdf Hsize Hbig filename stored.
  assert (Hdl : exists a0,
             find (fun a => String.eqb (att_id a) (att_id attachment))
                  (msg_attachments m) = Some a0).
  { destruct (find _ (msg_attachments m)) as [a0|] eqn:E; [eauto|].
    exfalso.
    assert (Hin : In attachment (msg_attachments m)).
    { assert (H : In attachment (attachment :: rest)) by (left; reflexivity).
      rewrite <- Hpdf in H. apply filter_In in H. tauto. }
    pose proof (find_none _ _ E attachment Hin) as Hf. cbn in Hf.
    rewrite String.eqb_refl in Hf. discriminate. }
  destruct Hdl as (a0 & Hdl).
  assert (Hget :
    exists w1 path,
      get_email_attachments str_lower strftime (ed_id email_data) w
      = (w1, Ok (set_storage_path (Some path) attachment :: rest))
      /\ save (att_content a0) filename w = (w1, Ok path)).
  { unfold get_email_attachments. unfold bind at 1. cbn [get_world].
    rewrite Hmsg, Hpdf. unfold bind at 1. unfold try_except at 1.
    unfold bind at 1. unfold download_attachment at 1. unfold bind at 1.
    cbn [get_world]. rewrite Hmsg, Hdl. unfold ret at 1. unfold bind at 1.
    fold filename.
    destruct (save_pdf_outcome (att_content a0) filename w)
      as (w1 & path & Hsave & _).
    exists w1, path. split; [|exact Hsave]. rewrite Hsave. reflexivity. }
  destruct Hget as (w1 & path & Hget & Hsave).
  destruct (save_pdf_outcome (att_content a0) filename w)
    as (w1' & path' & Hsave' & Hends & Hin & Hbucket & _).
  rewrite Hsave in Hsave'. inversion Hsave'; subst w1' path'; clear Hsave'.
  assert (Hinv : invoices w1 = invoices w).
  { rewrite save_pdf_cases in Hsave.
    destruct (find _ (pdfs_bucket w)); inversion Hsave; reflexivity. }
  exists w1. split.
  { unfold process_email. unfold bind at 1. cbn [get_world]. rewrite Hnew.
    unfold try_except. unfold bind at 1. rewrite Hget.
    cbn [att_storage_path set_storage_path att_size]. rewrite Hsize.
    assert (Hlt : (MAX_PDF_SIZE_MB * 1024 * 1024 <? size)%Z = true)
      by (apply Z.ltb_lt; exact Hbig).
    rewrite Hlt. destruct (negb (truthy_str (Some path))); reflexivity. }
  split; [exact Hinv|]. split.
  { apply existsb_exists. apply in_map_iff in Hin.
    destruct Hin as (f & Hname & Hf). exists f. split; [exact Hf|].
    unfold stored. rewrite Hname. exact Hends. }
  intros Hnone. destruct Hbucket as [Hsame|Hgrown].
  - exfalso. apply in_map_iff in Hin. destruct Hin as (f & Hname & Hf).
    rewrite Hsame in Hf.
    assert (Hex : existsb stored (pdfs_bucket w) = true).
    { apply existsb_exists. exists f. split; [exact Hf|].
      unfold stored. rewrite Hname. exact Hends. }
    congruence.
  - rewrite Hgrown, length_app. cbn. lia.
Qed.

(** ** A polling run *)

Lemma poll_loop emails :
  forall (c : nat * nat) w,
    exists w' c',
      for_each emails
        (fun c email =>
           success <- process email ;;
           ret (if success then (fst c + 1, snd c) else (fst c, snd c + 1)))
        c w = (w', Ok c')
      /\ fst c' + snd c' = fst c + snd c + List.length emails
      /\ List.length (invoices w') + fst c = List.length (invoices w) + fst c'
      /\ invoice_lines w' = invoice_lines w
      /\ buying_price_records w' = buying_price_records w.
Proof.
  induction emails as [|email emails IH]; intros c w.
  - exists w, c. cbn. repeat split; lia.
  - cbn [for_each]. unfold bind at 1. unfold bind at 1.
    destruct (process_email_outcome email w)
      as (w1 & success & Hrun & Hl & Hpr & Hing).
    rewrite Hrun. unfold ret at 1.
    match goal with
    | |- context [for_each emails _ ?c1 w1] =>
        destruct (IH c1 w1) as (w' & c' & Hloop & Hsum & Hinv & Hl' & Hpr')
    end.
    exists w', c'. split; [exact Hloop|].
    unfold ingested in Hing. destruct success; cbn [fst snd List.length] in *.
    + destruct Hing as (_ & (path & Hinv1 & _) & _).
      rewrite Hinv1, length_app in Hinv. cbn in Hinv.
      repeat split; try congruence; lia.
    + destruct Hing as (Hinv1 & _). rewrite Hinv1 in Hinv.
      repeat split; try congruence; lia.
Qed.

Lemma poll_outcome w :
  exists w' r,
    poll w = (w', Ok r)
    /\ po_processed r + po_failed r = po_total_emails r
    /\ po_total_emails r <= MAX_EMAILS_PER_RUN
    /\ List.length (invoices w') = List.length (invoices w) + po_processed r
    /\ invoice_lines w' = invoice_lines w
    /\ buying_price_records w' = buying_price_records w.
Proof.
  unfold poll_and_process_emails. unfold bind at 1.
  destruct (fetch_emails_outcome None w) as (emails & Hfetch & Hlen & _).
  rewrite Hfetch. unfold bind at 1.
  destruct (poll_loop emails (0, 0) w) as (w1 & c' & Hloop & Hsum & Hinv & Hl & Hpr).
  rewrite Hloop. unfold bind, now, ret. cbn [fst snd] in *.
  do 2 eexists. split; [reflexivity|]. cbn.
  repeat split; try assumption; lia.
Qed.

(** In the result of a run of [poll_and_process_emails] that returns,
    every message fetched is counted once, as processed or as failed, and
    there are at most [MAX_EMAILS_PER_RUN] of them.  The table of invoices
    has grown by at least the number counted as processed and by at most
    the number of messages fetched, and neither invoice lines nor price
    records have been written. *)
Theorem poll_counts_add_up w w' r :
  poll_and_process_emails str_lower strftime MAX_EMAILS_PER_RUN
                          MAX_PDF_SIZE_MB w
  = (w', Ok r) ->
  po_processed r + po_failed r = po_total_emails r
  /\ po_total_emails r <= MAX_EMAILS_PER_RUN
  /\ List.length (invoices w) + po_processed r <= List.length (invoices w')
  /\ List.length (invoices w') <= List.length (invoices w) + po_total_emails r
  /\ invoice_lines w' = invoice_lines w
  /\ buying_price_records w' = buying_price_records w.
Proof.
  intros H.
  destruct (poll_outcome w) as (w0 & r0 & Hrun & Hsum & Hmax & Hinv & Hl & Hpr).
  rewrite H in Hrun. inversion Hrun; subst w0 r0; clear Hrun.
  repeat split; try assumption; lia.
Qed.

End EmailPollingMore.
(** * Facts about the orchestrator's batches *)

(** The number of invoices with status [status]. *)
Definition count_invoices (status : InvoiceStatus) (rows : list Invoice) : nat :=
  List.length (filter (fun i => InvoiceStatus_eqb (inv_status i) status) rows).

Lemma NoDup_map_filter {A B} (f : A -> B) (p : A -> bool) l :
  NoDup (map f l) -> NoDup (map f (filter p l)).
Proof.
  induction l as [|x l IH]; cbn; intros H; [constructor|].
  inversion H as [|? ? Hnot Hnd]; subst.
  destruct (p x); cbn; [|auto].
  constructor; [|auto].
  intros Hin. apply Hnot. apply in_map_iff in Hin.
  destruct Hin as (y & Hy & Hin). apply filter_In in Hin.
  rewrite <- Hy. apply in_map. tauto.
Qed.

Lemma NoDup_map_firstn {A B} (f : A -> B) n l :
  NoDup (map f l) -> NoDup (map f (firstn n l)).
Proof.
  revert l. induction n as [|n IH]; intros [|x l]; cbn; intros H;
    try constructor.
  - inversion H as [|? ? Hnot Hnd]; subst.
    intros Hin. apply Hnot. apply in_map_iff in Hin.
    destruct Hin as (y & Hy & Hin). apply In_firstn in Hin.
    rewrite <- Hy. apply in_map, Hin.
  - inversion H; subst. auto.
Qed.

Lemma update_invoice_status_ids invoice_id st va rows :
  map inv_id (update_invoice_status invoice_id st va rows) = map inv_id rows.
Proof.
  unfold update_invoice_status. rewrite map_map. apply map_ext. intros i.
  destruct (Nat.eqb (inv_id i) invoice_id); reflexivity.
Qed.

Lemma update_invoice_status_absent invoice_id st va rows :
  ~ In invoice_id (map inv_id rows) ->
  update_invoice_status invoice_id st va rows = rows.
Proof.
  intros H. unfold update_invoice_status.
  rewrite <- (map_id rows) at 2. apply map_ext_in. intros i Hi.
  destruct (Nat.eqb (inv_id i) invoice_id) eqn:E; [|reflexivity].
  apply Nat.eqb_eq in E. exfalso. apply H. rewrite <- E. apply in_map, Hi.
Qed.

(** Moving the one row of an invoice out of [status] lowers the count of
    rows in [status] by one. *)
Lemma count_invoices_update status invoice_id st va rows i :
  NoDup (map inv_id rows) ->
  In i rows -> inv_id i = invoice_id -> inv_status i = status ->
  InvoiceStatus_eqb st status = false ->
  S (count_invoices status (update_invoice_status invoice_id st va rows))
  = count_invoices status rows.
Proof.
  unfold count_invoices. intros Hnd Hin Hid Hst Hne.
  induction rows as [|x rows IH]; [contradiction|].
  cbn in Hnd. inversion Hnd as [|? ? Hnot Hnd']; subst.
  destruct Hin as [->|Hin].
  - cbn. rewrite Nat.eqb_refl. cbn. rewrite Hne.
    fold (update_invoice_status (inv_id i) st va rows).
    rewrite update_invoice_status_absent by exact Hnot.
    replace (InvoiceStatus_eqb (inv_status i) (inv_status i)) with true
      by (destruct (inv_status i); reflexivity).
    reflexivity.
  - cbn. destruct (Nat.eqb (inv_id x) (inv_id i)) eqn:E.
    + apply Nat.eqb_eq in E. exfalso. apply Hnot. rewrite E. apply in_map, Hin.
    + fold (update_invoice_status (inv_id i) st va rows).
      destruct (InvoiceStatus_eqb (inv_status x) (inv_status i)); cbn;
        rewrite <- (IH Hnd' Hin); reflexivity.
Qed.

Lemma update_invoice_status_other invoice_id st va rows i :
  In i rows -> inv_id i <> invoice_id ->
  In i (update_invoice_status invoice_id st va rows).
Proof.
  intros Hin Hne. unfold update_invoice_status. apply in_map_iff.
  exists i. split; [|exact Hin].
  destruct (Nat.eqb (inv_id i) invoice_id) eqn:E; [|reflexivity].
  apply Nat.eqb_eq in E. contradiction.
Qed.

(** A batch that always answers, and lowers a measure of the world by the
    count it answers, is drained in at most that many rounds and one. *)
Lemma drain_terminates (batch : M nat) (inv : World -> Prop)
      (measure : World -> nat) :
  (forall w, inv w ->
             exists w' n, batch w = (w', Ok n) /\ inv w'
                          /\ measure w' + n = measure w) ->
  forall fuel total w,
    inv w -> measure w < fuel ->
    exists w' done,
      drain fuel batch total w = (w', Ok (Some (total + done)))
      /\ inv w' /\ measure w' + done = measure w.
Proof.
  intros Hbatch. induction fuel as [|fuel IH]; intros total w Hinv Hlt; [lia|].
  cbn [drain]. unfold bind.
  destruct (Hbatch w Hinv) as (w1 & n & Hrun & Hinv1 & Hm).
  rewrite Hrun. destruct (Nat.eqb n 0) eqn:E.
  - apply Nat.eqb_eq in E. subst n. exists w1, 0.
    rewrite Nat.add_0_r. unfold ret. repeat split; assumption.
  - apply Nat.eqb_neq in E.
    destruct (IH (total + n) w1 Hinv1) as (w' & done & Hd & Hinv' & Hm');
      [lia|].
    exists w', (n + done). rewrite Hd, Nat.add_assoc.
    repeat split; [assumption | lia].
Qed.

Section ValidationBatch.

Variable parse_iso_date : string -> option date.
Variable date_isoformat : date -> string.
Variable str_lower : string -> string.
Variable MAX_EMAILS_PER_RUN : nat.

Local Abbreviation validate :=
  (validate_invoice parse_iso_date date_isoformat str_lower).
Local Abbreviation one := (validate_one parse_iso_date date_isoformat str_lower).
Local Abbreviation batch :=
  (process_parsed_invoices_batch parse_iso_date date_isoformat str_lower
                                 MAX_EMAILS_PER_RUN).

Lemma validate_one_loop ids :
  forall c w,
    NoDup (map inv_id (invoices w)) ->
    NoDup ids ->
    (forall id, In id ids ->
                exists i, In i (invoices w) /\ inv_id i = id
                          /\ inv_status i = parsed) ->
    exists w' n,
      for_each ids one c w = (w', Ok (c + n))
      /\ n <= List.length ids
      /\ count_invoices parsed (invoices w') + n
         = count_invoices parsed (invoices w)
      /\ map inv_id (invoices w') = map inv_id (invoices w).
Proof.
  induction ids as [|id ids IH]; intros c w Hnd Hids Hrows.
  - exists w, 0. cbn. rewrite Nat.add_0_r. repeat split; lia.
  - inversion Hids as [|? ? Hnot Hids']; subst.
    cbn [for_each]. unfold bind at 1. unfold validate_one at 1.
    unfold try_except, bind.
    destruct (validate id w) as [w1 r] eqn:Hval.
    pose proof (validate_invoices_effect parse_iso_date date_isoformat
                                         str_lower id w Hval) as Heff.
    destruct (Hrows id (or_introl eq_refl)) as (i & Hin & Hid & Hst).
    destruct r as [res|e].
    + destruct Heff as (Hinv & Hstatus & _). unfold ret at 1.
      assert (Hids1 : map inv_id (invoices w1) = map inv_id (invoices w))
        by (rewrite Hinv; apply update_invoice_status_ids).
      destruct (IH (c + 1) w1) as (w' & n & Hloop & Hn & Hcount & Hmap).
      { rewrite Hids1. exact Hnd. }
      { exact Hids'. }
      { intros id' Hin'. destruct (Hrows id' (or_intror Hin'))
          as (i' & Hi' & Hid' & Hst').
        exists i'. split; [|split; assumption].
        rewrite Hinv. apply update_invoice_status_other; [exact Hi'|].
        intros Heq. apply Hnot. congruence. }
      exists w', (S n). rewrite Hloop. split; [f_equal; f_equal; lia|].
      cbn [List.length]. split; [lia|]. split; [|congruence].
      rewrite <- (@count_invoices_update parsed id (vr_status res)
                    (vr_validated_at res) (invoices w) i Hnd Hin Hid Hst).
      * rewrite <- Hinv. lia.
      * destruct Hstatus as [-> | ->]; reflexivity.
    + unfold ret at 1.
      destruct (IH c w1) as (w' & n & Hloop & Hn & Hcount & Hmap).
      { rewrite Heff. exact Hnd. }
      { exact Hids'. }
      { intros id' Hin'. rewrite Heff. apply Hrows. right. exact Hin'. }
      exists w', n. rewrite Hloop. split; [reflexivity|].
      cbn [List.length]. split; [lia|]. rewrite Heff in Hcount, Hmap.
      split; assumption.
Qed.

Lemma validation_batch_step w :
  NoDup (map inv_id (invoices w)) ->
  exists w' n,
    batch w = (w', Ok n)
    /\ NoDup (map inv_id (invoices w'))
    /\ count_invoices parsed (invoices w') + n
       = count_invoices parsed (invoices w)
    /\ n <= MAX_EMAILS_PER_RUN.
Proof.
  intros Hnd. unfold process_parsed_invoices_batch, try_except.
  unfold bind at 1. cbn [get_world].
  set (rows := firstn MAX_EMAILS_PER_RUN
                 (filter (fun i => InvoiceStatus_eqb (inv_status i) parsed)
                         (invoices w))).
  assert (Hsel : select_ids_by_status MAX_EMAILS_PER_RUN parsed w
                 = map inv_id rows) by reflexivity.
  rewrite Hsel.
  destruct (map inv_id rows) as [|id ids] eqn:Hdata; cbn [truthy_list negb].
  { exists w, 0. unfold ret. rewrite Nat.add_0_r. repeat split; [assumption | lia]. }
  rewrite <- Hdata.
  destruct (@validate_one_loop (map inv_id rows) 0 w Hnd)
    as (w' & n & Hloop & Hn & Hcount & Hmap).
  { apply NoDup_map_firstn, NoDup_map_filter, Hnd. }
  { intros id0 Hin. apply in_map_iff in Hin. destruct Hin as (i & Hid & Hi).
    apply In_firstn in Hi. apply filter_In in Hi. destruct Hi as [Hi Hst].
    exists i. split; [exact Hi|]. split; [exact Hid|].
    destruct (inv_status i); try discriminate. reflexivity. }
  rewrite Hloop. exists w', n. split; [reflexivity|].
  split; [rewrite Hmap; exact Hnd|]. split; [exact Hcount|].
  rewrite length_map in Hn. unfold rows in Hn.
  pose proof (firstn_le_length MAX_EMAILS_PER_RUN
                (filter (fun i => InvoiceStatus_eqb (inv_status i) parsed)
                        (invoices w))).
  lia.
Qed.

(** ** The validation phase ends *)

(** With unique invoice identities, [process_parsed_invoices_batch] never
    raises, counts at most [MAX_EMAILS_PER_RUN] invoices, and lowers the
    number of [parsed] invoices by exactly the count it returns: every
    invoice it counts has left [parsed] for [validated] or
    [needs_review], an invoice whose validation raised stays [parsed] and
    is not counted.  The orchestrator's loop "validate batches until one
    returns 0" therefore ends within one round more than there are
    [parsed] invoices, and its total is the number of invoices that left
    [parsed]. *)
Theorem validation_phase_terminates w :
  NoDup (map inv_id (invoices w)) ->
  (exists w1 n,
      batch w = (w1, Ok n)
      /\ n <= MAX_EMAILS_PER_RUN
      /\ count_invoices parsed (invoices w1) + n
         = count_invoices parsed (invoices w))
  /\ exists w' total,
       drain (S (count_invoices parsed (invoices w))) batch 0 w
       = (w', Ok (Some total))
       /\ count_invoices parsed (invoices w') + total
          = count_invoices parsed (invoices w).
Proof.
  intros Hnd. split.
  - destruct (@validation_batch_step w Hnd) as (w1 & n & Hrun & _ & Hcount & Hn).
    exists w1, n. repeat split; assumption.
  - destruct (@drain_terminates batch
                (fun w => NoDup (map inv_id (invoices w)))
                (fun w => count_invoices parsed (invoices w)))
      with (fuel := S (count_invoices parsed (invoices w))) (total := 0) (w := w)
      as (w' & done & Hd & _ & Hm).
    + intros w0 H0. destruct (@validation_batch_step w0 H0)
        as (w1 & n & Hrun & Hnd1 & Hcount & _).
      exists w1, n. repeat split; assumption.
    + exact Hnd.
    + lia.
    + exists w', done. split; [exact Hd | exact Hm].
Qed.

End ValidationBatch.

Section ParseBatch.

Variable py_float : string -> option float.
Variable _parse_date : string -> option string.
Variable extract_invoice : Invoice -> outcome ExtractedInvoice.
Variable header_update_ok : uuid -> ExtractedInvoice -> bool.
Variable line_insert_ok : InvoiceLine -> bool.
Variable default_model : string.
Variable MAX_EMAILS_PER_RUN : nat.

Local Abbreviation parse :=
  (parse_invoice py_float _parse_date extract_invoice header_update_ok
                 line_insert_ok default_model).
Local Abbreviation one :=
  (parse_one py_float _parse_date extract_invoice header_update_ok
             line_insert_ok default_model).
Local Abbreviation batch :=
  (process_received_invoices_batch py_float _parse_date extract_invoice
     header_update_ok line_insert_ok default_model MAX_EMAILS_PER_RUN).

(** Every extraction succeeds and finds no line. *)
Definition extracts_no_lines : Prop :=
  forall invoice, exists extracted,
    extract_invoice invoice = Ok extracted /\ ex_lines extracted = [].

Hypothesis Hempty : extracts_no_lines.

Lemma parse_without_lines invoice_id w :
  In invoice_id (map inv_id (invoices w)) ->
  exists w' r,
    parse invoice_id w = (w', Ok r)
    /\ ps_status r = parsed /\ ps_lines_parsed r = 0
    /\ map inv_id (invoices w') = map inv_id (invoices w)
    /\ map inv_status (invoices w') = map inv_status (invoices w).
Proof.
  intros Hin.
  pose proof (parse_outcome py_float _parse_date extract_invoice line_insert_ok
                            default_model header_update_ok invoice_id w) as Hout.
  destruct (invoice_row invoice_id w) as [invoice|] eqn:Hrow.
  - destruct (Hempty invoice) as (extracted & Hex & Hlines).
    rewrite Hex in Hout. cbv zeta in Hout. rewrite Hlines in Hout.
    cbn in Hout. destruct Hout as (w' & Hrun & _ & Hids & Hst & _).
    exists w'. eexists. split; [exact Hrun|]. cbn.
    split; [reflexivity|]. split; [reflexivity|]. split; [exact Hids|].
    rewrite Hst. apply map_ext. intros i. rewrite andb_false_r. reflexivity.
  - exfalso. unfold invoice_row in Hrow. apply in_map_iff in Hin.
    destruct Hin as (i & Hid & Hi).
    assert (Hf : In i (filter (fun i => Nat.eqb (inv_id i) invoice_id)
                              (invoices w))).
    { apply filter_In. split; [exact Hi|]. apply Nat.eqb_eq, Hid. }
    destruct (filter _ (invoices w)); [contradiction | discriminate].
Qed.

Lemma parse_one_loop ids :
  forall c w,
    incl ids (map inv_id (invoices w)) ->
    exists w',
      for_each ids one c w = (w', Ok (c + List.length ids))
      /\ map inv_id (invoices w') = map inv_id (invoices w)
      /\ map inv_status (invoices w') = map inv_status (invoices w).
Proof.
  induction ids as [|id ids IH]; intros c w Hincl.
  - exists w. cbn. rewrite Nat.add_0_r. repeat split.
  - cbn [for_each]. unfold bind at 1. unfold parse_one at 1.
    unfold try_except, bind.
    destruct (@parse_without_lines id w (Hincl id (or_introl eq_refl)))
      as (w1 & r & Hrun & _ & _ & Hids & Hst).
    rewrite Hrun. unfold ret at 1.
    destruct (IH (c + 1) w1) as (w' & Hloop & Hids' & Hst').
    { rewrite Hids. intros x Hx. apply Hincl. right. exact Hx. }
    exists w'. rewrite Hloop. cbn [List.length].
    split; [f_equal; f_equal; lia|]. split; congruence.
Qed.

Lemma count_invoices_statuses status rows rows' :
  map inv_status rows' = map inv_status rows ->
  count_invoices status rows' = count_invoices status rows.
Proof.
  unfold count_invoices. revert rows'.
  induction rows as [|x rows IH]; intros [|y rows'] H; cbn in *;
    try discriminate; [reflexivity|].
  inversion H as [[H1 H2]]. rewrite H1.
  destruct (InvoiceStatus_eqb (inv_status x) status); cbn;
    rewrite (IH rows' H2); reflexivity.
Qed.

Lemma parse_batch_step w :
  exists w',
    batch w
    = (w', Ok (Nat.min MAX_EMAILS_PER_RUN (count_invoices received (invoices w))))
    /\ map inv_id (invoices w') = map inv_id (invoices w)
    /\ map inv_status (invoices w') = map inv_status (invoices w).
Proof.
  unfold process_received_invoices_batch, try_except.
  unfold bind at 1. cbn [get_world].
  set (rows := firstn MAX_EMAILS_PER_RUN
                 (filter (fun i => InvoiceStatus_eqb (inv_status i) received)
                         (invoices w))).
  assert (Hsel : select_ids_by_status MAX_EMAILS_PER_RUN received w
                 = map inv_id rows) by reflexivity.
  assert (Hlen : List.length (map inv_id rows)
                 = Nat.min MAX_EMAILS_PER_RUN
                           (count_invoices received (invoices w))).
  { rewrite length_map. unfold rows. apply length_firstn. }
  rewrite Hsel, <- Hlen.
  destruct (map inv_id rows) as [|id ids] eqn:Hdata; cbn [truthy_list negb].
  { exists w. unfold ret. repeat split. }
  rewrite <- Hdata.
  destruct (@parse_one_loop (map inv_id rows) 0 w) as (w' & Hloop & Hids & Hst).
  { intros x Hx. apply in_map_iff in Hx. destruct Hx as (i & <- & Hi).
    apply In_firstn in Hi. apply filter_In in Hi. apply in_map. tauto. }
  rewrite Hloop. exists w'. repeat split; assumption.
Qed.

Lemma parse_drain_stalls fuel :
  forall total w,
    0 < MAX_EMAILS_PER_RUN ->
    0 < count_invoices received (invoices w) ->
    exists w',
      drain fuel batch total w = (w', Ok None)
      /\ map inv_status (invoices w') = map inv_status (invoices w).
Proof.
  induction fuel as [|fuel IH]; intros total w Hmax Hpos.
  - exists w. split; reflexivity.
  - cbn [drain]. unfold bind.
    destruct (parse_batch_step w) as (w1 & Hrun & Hids & Hst).
    rewrite Hrun.
    destruct (Nat.eqb _ 0) eqn:E; [apply Nat.eqb_eq in E; lia|].
    destruct (IH (total + Nat.min MAX_EMAILS_PER_RUN
                                  (count_invoices received (invoices w))) w1 Hmax)
      as (w' & Hd & Hst').
    { rewrite (@count_invoices_statuses received _ _ Hst). exact Hpos. }
    exists w'. split; [exact Hd | congruence].
Qed.

End ParseBatch.

(** ** The parsing phase may not end *)

(** [process_received_invoices_batch] counts an invoice as processed
    whenever [parse_invoice] returns, also when no line was inserted and
    the invoice therefore stays [received].  When the extraction of every
    invoice succeeds without lines, a batch changes no invoice status and
    returns the number of [received] invoices it selected, so with at
    least one [received] invoice the orchestrator's loop "parse batches
    until one returns 0" does not end: for every number of rounds, it is
    still running when the rounds are used up, with every invoice status
    as it was. *)
Theorem parsing_phase_stalls_without_lines py_float _parse_date extract_invoice
        header_update_ok line_insert_ok default_model MAX_EMAILS_PER_RUN w :
  extracts_no_lines extract_invoice ->
  0 < MAX_EMAILS_PER_RUN ->
  0 < count_invoices received (invoices w) ->
  let batch :=
    process_received_invoices_batch py_float _parse_date extract_invoice
      header_update_ok line_insert_ok default_model MAX_EMAILS_PER_RUN in
  (exists w1,
      batch w = (w1, Ok (Nat.min MAX_EMAILS_PER_RUN
                                 (count_invoices received (invoices w))))
      /\ map inv_status (invoices w1) = map inv_status (invoices w))
  /\ forall fuel,
       exists w',
         drain fuel batch 0 w = (w', Ok None)
         /\ map inv_status (invoices w') = map inv_status (invoices w).
Proof.
  intros Hempty Hmax Hpos batch. split.
  - destruct (@parse_batch_step py_float _parse_date extract_invoice
                header_update_ok line_insert_ok default_model
                MAX_EMAILS_PER_RUN Hempty w) as (w1 & Hrun & _ & Hst).
    exists w1. split; assumption.
  - intros fuel.
    apply (@parse_drain_stalls py_float _parse_date extract_invoice
             header_update_ok line_insert_ok default_model MAX_EMAILS_PER_RUN
             Hempty fuel 0 w Hmax Hpos).
Qed.
(** * Facts about the status endpoint *)

From Stdlib Require Import Permutation.

Lemma insert_by_line_no_perm x l : Permutation (insert_by_line_no x l) (x :: l).
Proof.
  induction l as [|y l IH]; cbn; [apply Permutation_refl|].
  destruct (line_no_leb x y); [apply Permutation_refl|].
  eapply Permutation_trans; [apply perm_skip, IH | apply perm_swap].
Qed.

Lemma order_by_line_no_perm l : Permutation (order_by_line_no l) l.
Proof.
  induction l as [|x l IH]; cbn; [apply Permutation_refl|].
  eapply Permutation_trans; [apply insert_by_line_no_perm | apply perm_skip, IH].
Qed.

Lemma Permutation_filter_length {A} (p : A -> bool) l l' :
  Permutation l l' -> List.length (filter p l) = List.length (filter p l').
Proof.
  induction 1 as [|x l l' _ IH|x y l|l l' l'' _ IH1 _ IH2]; cbn.
  - reflexivity.
  - destruct (p x); cbn; rewrite IH; reflexivity.
  - destruct (p x), (p y); reflexivity.
  - congruence.
Qed.

Lemma all_ok_length {A} (l : list (outcome A)) bs :
  all_ok l = Some bs -> List.length bs = List.length l.
Proof.
  revert bs. induction l as [|[a|e] l IH]; cbn; intros bs H.
  - inversion H. reflexivity.
  - destruct (all_ok l) as [bs'|]; [|discriminate]. inversion H; subst. cbn.
    rewrite (IH bs' eq_refl). reflexivity.
  - discriminate.
Qed.

Lemma last_update_in ids :
  forall statuses id,
    List.length statuses = List.length ids ->
    In id ids -> last_update (combine ids statuses) id <> None.
Proof.
  induction ids as [|i ids IH]; intros [|st statuses] id Hlen Hin; cbn in *;
    try contradiction; try discriminate.
  destruct (last_update (combine ids statuses) id) eqn:E; [discriminate|].
  destruct Hin as [->|Hin].
  - rewrite Nat.eqb_refl. discriminate.
  - exfalso. apply (IH statuses id); [lia | exact Hin | exact E].
Qed.

Lemma In_fst_combine {A B} (x : A) (a : list A) (b : list B) :
  In x (map fst (combine a b)) -> In x a.
Proof.
  intros H. apply in_map_iff in H. destruct H as ([y z] & <- & H).
  apply in_combine_l in H. exact H.
Qed.

(** With distinct identities, the updates of a run leave every line with
    the status the run resolved it to. *)
Lemma row_after_statuses lines :
  forall statuses,
    NoDup (map line_id lines) ->
    List.length statuses = List.length lines ->
    map line_status
        (map (row_after (combine (map line_id lines) statuses)) lines)
    = map Some statuses.
Proof.
  induction lines as [|l lines IH]; intros [|st statuses] Hnd Hlen;
    cbn [map combine List.length] in *; try discriminate; [reflexivity|].
  inversion Hnd as [|? ? Hnot Hnd']; subst.
  assert (Hlen' : List.length statuses = List.length lines) by lia.
  f_equal.
  - rewrite row_after_last. cbn [last_update fst snd].
    rewrite last_update_not_in.
    + rewrite Nat.eqb_refl. reflexivity.
    + intros Hin. apply Hnot. apply In_fst_combine in Hin. exact Hin.
  - rewrite <- (IH statuses Hnd' Hlen'). rewrite !map_map.
    apply map_ext_in. intros x Hx. rewrite !row_after_last.
    cbn [last_update fst snd].
    destruct (last_update (combine (map line_id lines) statuses) (line_id x))
      eqn:E; [reflexivity|].
    exfalso. apply (@last_update_in (map line_id lines) statuses (line_id x)).
    + rewrite length_map. exact Hlen'.
    + apply in_map, Hx.
    + exact E.
Qed.

Lemma status_counts rows :
  forall statuses,
    map line_status rows = map Some statuses ->
    List.length (filter is_match_status rows)
    = count_occ_status line_match statuses
    /\ List.length (filter is_error_status rows)
       = count_occ_status mismatch statuses
         + count_occ_status created_price_record statuses
         + count_occ_status no_match statuses.
Proof.
  unfold count_occ_status.
  induction rows as [|l rows IH]; intros [|st statuses] H; cbn in H;
    try discriminate; [split; reflexivity|].
  inversion H as [[Hst Hrest]]. destruct (IH statuses Hrest) as [IH1 IH2].
  cbn [filter]. unfold is_match_status, is_error_status in *. rewrite Hst.
  destruct st; cbn; rewrite ?IH1, ?IH2; split; lia.
Qed.

Section StatusEndpoint.

Variable parse_iso_date : string -> option date.
Variable date_isoformat : date -> string.
Variable str_lower : string -> string.

Local Abbreviation validate :=
  (validate_invoice parse_iso_date date_isoformat str_lower).

(** What [GET /invoice/{id}/status] answers after [validate_invoice] has
    run on the invoice (line identities being unique): the status and the
    number of lines of the summary, its [match_count], and as
    [error_count] the sum of [mismatch_count] and
    [created_price_record_count].  The lines the run marked [unknown],
    which the summary counts in [no_match_count], are in neither count of
    the endpoint. *)
Theorem status_endpoint_after_validation invoice_id w w' res :
  NoDup (map line_id (invoice_lines w)) ->
  validate invoice_id w = (w', Ok res) ->
  get_validation_status invoice_id w'
  = HTTP_OK (mkStatusSummary invoice_id (vr_status res) (vr_total_lines res)
               (vr_match_count res)
               (vr_mismatch_count res + vr_created_price_record_count res))
  /\ vr_match_count res
     + (vr_mismatch_count res + vr_created_price_record_count res)
     + vr_no_match_count res = vr_total_lines res.
Proof.
  intros Hnd Hrun.
  assert (Hsum : vr_match_count res
                 + (vr_mismatch_count res + vr_created_price_record_count res)
                 + vr_no_match_count res = vr_total_lines res).
  { destruct (validate_frame_lemma parse_iso_date date_isoformat str_lower
                                   invoice_id w Hrun) as (_ & _ & _ & H & _).
    lia. }
  split; [|exact Hsum]. clear Hsum.
  destruct (validate_ok_row _ _ _ _ _ Hrun) as [invoice Hrow].
  set (F := filter (fun l => Nat.eqb (line_invoice_id l) invoice_id)
                   (invoice_lines w)).
  assert (Hperm : Permutation (lines_of invoice_id w) F)
    by apply order_by_line_no_perm.
  assert (Hendpoint :
    forall st va rows,
      invoices w' = update_invoice_status invoice_id st va (invoices w) ->
      filter (fun l => Nat.eqb (line_invoice_id l) invoice_id) (invoice_lines w')
      = rows ->
      get_validation_status invoice_id w'
      = HTTP_OK (mkStatusSummary invoice_id st (List.length rows)
                   (List.length (filter is_match_status rows))
                   (List.length (filter is_error_status rows)))).
  { intros st va rows Hinv Hrows.
    pose proof (invoice_row_updated invoice_id st va w w' Hinv Hrow) as Hrow'.
    unfold get_validation_status. unfold invoice_row in Hrow'.
    destruct (filter _ (invoices w')) as [|i rest]; [discriminate|].
    cbn in Hrow'. inversion Hrow'; subst i. rewrite Hrows. reflexivity. }
  destruct (lines_of invoice_id w) as [|l0 ls] eqn:Hl.
  - destruct (validate_no_lines parse_iso_date date_isoformat str_lower
                                invoice_id w Hrow Hl)
      as (w0 & Hrun0 & Hinv & Hlines & _).
    rewrite Hrun in Hrun0. inversion Hrun0; subst w0 res; clear Hrun0.
    assert (HF : F = []).
    { apply Permutation_length in Hperm. destruct F; [reflexivity|discriminate]. }
    rewrite (Hendpoint needs_review None [] Hinv); [reflexivity|].
    rewrite Hlines. exact HF.
  - assert (Hne : lines_of invoice_id w <> []) by (rewrite Hl; discriminate).
    rewrite <- Hl in *.
    pose proof (validate_spec parse_iso_date date_isoformat str_lower
                              invoice_id w Hrow Hne) as Hspec.
    cbv zeta in Hspec.
    destruct (all_ok _) as [statuses|] eqn:Hall.
    2:{ destruct Hspec as (w0 & e & H). congruence. }
    destruct Hspec as (w0 & w1 & va & Hval & _ & _ & Hinv & Hlines & _).
    rewrite Hrun in Hval. inversion Hval; subst w0 res; clear Hval.
    set (U := combine (map line_id (lines_of invoice_id w)) statuses) in *.
    assert (Hlen : List.length statuses = List.length (lines_of invoice_id w)).
    { rewrite (all_ok_length _ Hall). unfold verdicts. apply length_map. }
    assert (Hnm : count_occ_status no_match statuses = 0).
    { assert (Hf : Forall (fun st => st <> no_match) statuses).
      { unfold verdicts in Hall. eapply all_ok_Forall; [|exact Hall].
        intros l st. apply verdict_never_no_match. }
      clear - Hf. unfold count_occ_status.
      induction Hf as [|st sts Hst _ IH]; cbn; [reflexivity|].
      destruct st; cbn; try exact IH. contradiction. }
    assert (HF' : filter (fun l => Nat.eqb (line_invoice_id l) invoice_id)
                         (invoice_lines w')
                  = map (row_after U) F).
    { rewrite Hlines, apply_updates_rows. unfold F. apply filter_map_comm.
      intros x.
      destruct (@status_only_fields (row_after U) x (row_after_status_only U))
        as (_ & -> & _).
      reflexivity. }
    assert (Hst : map line_status (map (row_after U) (lines_of invoice_id w))
                  = map Some statuses).
    { apply row_after_statuses; [|exact Hlen].
      apply (Permutation_NoDup (l := map line_id F)).
      - apply Permutation_map, Permutation_sym, Hperm.
      - unfold F. apply NoDup_map_filter, Hnd. }
    destruct (status_counts _ _ Hst) as [Hm He].
    assert (Hp : Permutation (map (row_after U) (lines_of invoice_id w))
                             (map (row_after U) F))
      by apply Permutation_map, Hperm.
    rewrite (Permutation_filter_length is_match_status Hp) in Hm.
    rewrite (Permutation_filter_length is_error_status Hp) in He.
    destruct (fold_count_fields statuses zero_counts) as (F1 & F2 & F3 & F4).
    cbn in F1, F2, F3, F4.
    rewrite (Hendpoint _ _ _ Hinv HF').
    unfold summary. cbn [vr_status vr_total_lines vr_match_count
                         vr_mismatch_count vr_created_price_record_count
                         vr_no_match_count].
    rewrite length_map, Hm, He, Hnm, F1, F2, F4, Nat.add_0_r.
    rewrite <- (Permutation_length Hperm). reflexivity.
Qed.

End StatusEndpoint.

(** * The theorems at work on the example data *)

Lemma validate_status_iff_all_lines_match_witness :
  exists invoice statuses w1,
    invoice_row 1 Demo.world = Some invoice
    /\ resolves PyRuntime.fromisoformat_date PyRuntime.date_isoformat
                PyRuntime.str_lower 1 (inv_supplier_name invoice)
                (invoice_date_of PyRuntime.fromisoformat_date invoice)
                (inv_currency invoice)
                Demo.world (lines_of 1 Demo.world) statuses w1
    /\ (vr_status Demo.result = validated <-> Forall (eq line_match) statuses)
    /\ (vr_status Demo.result = needs_review
        <-> ~ Forall (eq line_match) statuses).
Proof.
  assert (Hne : lines_of 1 Demo.world <> []) by (vm_compute; discriminate).
  remember (fst (Demo.validate 1 Demo.world)) as w' eqn:Hw'.
  assert (Hrun : validate_invoice PyRuntime.fromisoformat_date
                                  PyRuntime.date_isoformat PyRuntime.str_lower
                                  1 Demo.world
                 = (w', Ok Demo.result))
    by (subst w'; vm_compute; reflexivity).
  destruct (@validate_status_iff_all_lines_match
              PyRuntime.fromisoformat_date PyRuntime.date_isoformat
              PyRuntime.str_lower 1 Demo.world w' Demo.result Hne Hrun)
    as (invoice & statuses & w1 & H1 & H2 & H3 & H4 & _).
  exists invoice, statuses, w1. repeat split; try assumption; tauto.
Defined.

Lemma accept_price_on_an_open_price :
  Demo.accept_price 10 12.5 "agreed" Demo.day None Demo.open_price_world
  = (Demo.open_price_world,
     Raise (AttributeError
              "'ValidationService' object has no attribute 'get_supplier_id_by_name'")).
Proof. reflexivity. Qed.

Lemma tolerance_boundary_is_strict_witness :
  let w := Demo.world_of [Demo.line 10 1 "A" 0.0002]
                         [Demo.price 100 "A" 0.0001 None None] in
  let run := Demo.validate_line (Demo.line 10 1 "A" 0.0002) 1 (Some "ACME")
                                (Some Demo.day) (Some "EUR") w in
  PrimFloat.abs (PrimFloat.sub 0.0002 0.0001) = 0.0001%float
  /\ outcome_map lr_status (snd run) = Ok mismatch.
Proof.
  intros w run.
  assert (Habs : PrimFloat.abs (PrimFloat.sub 0.0002 0.0001) = 0.0001%float)
    by (vm_compute; reflexivity).
  split; [exact Habs|].
  refine (proj1 (proj2
    (@tolerance_boundary_is_strict
       PyRuntime.fromisoformat_date PyRuntime.date_isoformat PyRuntime.str_lower
       (Demo.line 10 1 "A" 0.0002) 1 (Some "ACME") (Some Demo.day) (Some "EUR") w
       (Demo.price 100 "A" 0.0001 None None) 0.0001%float 0.0002%float
       _ _ _ _)) Habs);
    vm_compute; reflexivity.
Defined.

Lemma zero_unit_price_is_unknown_witness :
  let zero_line := Demo.line 10 1 "A" 0 in
  let w := Demo.world_of [zero_line]
                         [Demo.price 100 "A" 10 (Some "2024-01-01") None] in
  let run := Demo.validate_line zero_line 1 (Some "ACME") (Some Demo.day)
                                (Some "EUR") w in
  outcome_map lr_status (snd run) = Ok unknown
  /\ invoice_lines (fst run) = update_line_status 10 unknown (invoice_lines w)
  /\ buying_price_records (fst run) = buying_price_records w.
Proof.
  intros zero_line w run.
  assert (Hwf : active_prices_present (buying_price_records w)).
  { intros r [<-|[]] _. discriminate. }
  destruct (@zero_unit_price_is_unknown
              PyRuntime.fromisoformat_date PyRuntime.date_isoformat
              PyRuntime.str_lower zero_line 1 (Some "ACME") (Some Demo.day)
              (Some "EUR") w eq_refl Hwf) as (H1 & H2 & H3 & _).
  repeat split; assumption.
Defined.

Lemma validity_window_is_closed_witness :
  let table := [Demo.expiring_price;
                Demo.price 100 "A" 11 (Some "2024-01-31") None] in
  _find_buying_price_by_sku PyRuntime.fromisoformat_date table (Some "ACME")
                            (Some "A") (Some Demo.day)
  = hd_error (filter (fun c => in_window PyRuntime.fromisoformat_date c Demo.day)
                     (sku_candidates table (Some "ACME") (Some "A"))).
Proof.
  intros table.
  assert (Htyped : Forall bounds_typed table).
  { repeat constructor; discriminate. }
  exact (proj1 (proj2
    (@validity_window_is_closed
       PyRuntime.fromisoformat_date PyRuntime.str_lower table (Some "ACME")
       (Some "A") (Some Demo.day) eq_refl eq_refl Htyped))).
Defined.

Lemma validity_window_includes_valid_to :
  PyRuntime.fromisoformat_date "2024-01-31" = Some Demo.day
  /\ pr_valid_to Demo.expiring_price = Some "2024-01-31"
  /\ _find_buying_price_by_sku PyRuntime.fromisoformat_date
       [Demo.expiring_price] (Some "ACME") (Some "A") (Some Demo.day)
     = Some Demo.expiring_price
  /\ _find_buying_price_by_product_name PyRuntime.fromisoformat_date
       PyRuntime.str_lower [Demo.expiring_price] (Some "ACME") (Some "WIDGET")
       (Some Demo.day)
     = Some Demo.expiring_price
  /\ in_half_open_window PyRuntime.fromisoformat_date Demo.expiring_price
                         Demo.day = false.
Proof. vm_compute. repeat split. Qed.

Lemma learned_price_is_deduplicated_witness :
  let line1 := Demo.line 11 2 "B" 20 in
  let line2 := Demo.line 12 3 "B" 20 in
  let w := Demo.world_of [line1; line2]
                         [Demo.price 100 "A" 10 (Some "2024-01-01") None] in
  exists w1 w2 id,
    Demo.validate_line line1 1 (Some "ACME") (Some Demo.day) (Some "EUR") w
    = (w1, Ok (mkLineResult created_price_record (Some id)))
    /\ Demo.validate_line line2 1 (Some "ACME") (Some Demo.day) (Some "EUR") w1
       = (w2, Ok (mkLineResult created_price_record (Some id)))
    /\ buying_price_records w2
       = buying_price_records w
         ++ [learned_record PyRuntime.date_isoformat id line1 (Some "ACME")
                            (Some Demo.day) (Some "EUR")].
Proof.
  intros line1 line2 w.
  assert (H1 : learnable_by_sku line1 (Some "ACME") (Some "EUR"))
    by (repeat split; vm_compute; reflexivity).
  assert (H2 : learnable_by_sku line2 (Some "ACME") (Some "EUR"))
    by (repeat split; vm_compute; reflexivity).
  assert (Hnone : sku_candidates (buying_price_records w) (Some "ACME")
                                 (line_sku line1) = [])
    by (vm_compute; reflexivity).
  destruct (@learned_price_is_deduplicated
              PyRuntime.fromisoformat_date PyRuntime.date_isoformat
              PyRuntime.str_lower line1 line2 1 (Some "ACME") (Some Demo.day)
              (Some "EUR") w H1 H2 eq_refl Hnone)
    as (w1 & w2 & id & Hrun1 & Hrun2 & Hcase).
  assert (Hnr : need_review_candidates (buying_price_records w) (Some "ACME")
                                       (line_sku line1) = [])
    by (vm_compute; reflexivity).
  rewrite Hnr in Hcase. destruct Hcase as (_ & Hpr & _).
  exists w1, w2, id. repeat split; assumption.
Defined.

Lemma learned_price_not_created_when_under_review :
  let line1 := Demo.line 11 2 "B" 20 in
  let line2 := Demo.line 12 3 "B" 20 in
  let w := Demo.world_of [line1; line2] [Demo.learned_price 300 "B" 19] in
  let run1 := Demo.validate_line line1 1 (Some "ACME") (Some Demo.day)
                                 (Some "EUR") w in
  let run2 := Demo.validate_line line2 1 (Some "ACME") (Some Demo.day)
                                 (Some "EUR") (fst run1) in
  filter (fun r => is_status active (pr_status r)) (buying_price_records w) = []
  /\ snd run1 = Ok (mkLineResult created_price_record (Some 300))
  /\ snd run2 = Ok (mkLineResult created_price_record (Some 300))
  /\ buying_price_records (fst run2) = buying_price_records w
  /\ List.length (buying_price_records (fst run2))
     = List.length (buying_price_records w).
Proof. vm_compute. repeat split. Qed.

Lemma validate_is_idempotent_witness :
  exists w2 r2,
    validate_invoice PyRuntime.fromisoformat_date PyRuntime.date_isoformat
                     PyRuntime.str_lower 1 (fst (Demo.validate 1 Demo.world))
    = (w2, Ok r2)
    /\ vr_status r2 = vr_status Demo.result
    /\ vr_match_count r2 = vr_match_count Demo.result
    /\ vr_mismatch_count r2 = vr_mismatch_count Demo.result
    /\ vr_created_price_record_count r2
       = vr_created_price_record_count Demo.result
    /\ vr_no_match_count r2 = vr_no_match_count Demo.result
    /\ invoice_lines w2 = invoice_lines (fst (Demo.validate 1 Demo.world)).
Proof.
  remember (fst (Demo.validate 1 Demo.world)) as w1 eqn:Hw1.
  assert (Hrun : validate_invoice PyRuntime.fromisoformat_date
                                  PyRuntime.date_isoformat PyRuntime.str_lower
                                  1 Demo.world
                 = (w1, Ok Demo.result))
    by (subst w1; vm_compute; reflexivity).
  destruct (@validate_is_idempotent
              PyRuntime.fromisoformat_date PyRuntime.date_isoformat
              PyRuntime.str_lower 1 Demo.world w1 Demo.result Hrun)
    as (w2 & r2 & H0 & H1 & _ & H3 & H4 & H5 & H6 & H7 & _).
  exists w2, r2. repeat split; assumption.
Defined.

Lemma parse_invoice_parsed_iff_line_inserted_witness :
  let run := Demo.parse_invoice Demo.line_insert_ok 1 Demo.received_world in
  exists inserted t,
    List.length inserted = 1
    /\ filter (fun l => Nat.eqb (line_invoice_id l) 1) (invoice_lines (fst run))
       = inserted
    /\ Forall2 (parsed_row 1 (List.length inserted) t)
               (invoices Demo.received_world) (invoices (fst run)).
Proof.
  intros run.
  remember (fst run) as w' eqn:Hw'.
  assert (Hrun : parse_invoice
                   (fun _ => None) (fun s => Some s) (fun _ => Ok Demo.extracted)
                   (fun _ _ => true) Demo.line_insert_ok "gpt-4o-mini"
                   1 Demo.received_world
                 = (w', Ok (mkParseResult parsed 1 "gpt-4o-mini" [])))
    by (subst w'; vm_compute; reflexivity).
  destruct (@parse_invoice_parsed_iff_line_inserted
              (fun _ => None) (fun s => Some s) (fun _ => Ok Demo.extracted)
              (fun _ _ => true) Demo.line_insert_ok "gpt-4o-mini"
              1 Demo.received_world w'
              (mkParseResult parsed 1 "gpt-4o-mini" []) Hrun)
    as (inserted & t & Hn & Hf & Hrows & _).
  exists inserted, t. cbn in Hn. repeat split; auto.
Defined.
(** * The further theorems at work on the example data *)

Lemma validate_summary_counts_add_up_witness :
  vr_match_count Cases.mixed_result + vr_mismatch_count Cases.mixed_result
  + vr_created_price_record_count Cases.mixed_result
  + vr_no_match_count Cases.mixed_result
  = vr_total_lines Cases.mixed_result
  /\ vr_total_lines Cases.mixed_result
     = List.length (filter (fun l => Nat.eqb (line_invoice_id l) 1)
                           (invoice_lines Cases.mixed_world)).
Proof.
  remember (fst (Demo.validate 1 Cases.mixed_world)) as w' eqn:Hw'.
  assert (Hrun : validate_invoice PyRuntime.fromisoformat_date
                                  PyRuntime.date_isoformat PyRuntime.str_lower
                                  1 Cases.mixed_world
                 = (w', Ok Cases.mixed_result))
    by (subst w'; vm_compute; reflexivity).
  destruct (@validate_summary_counts_add_up
              PyRuntime.fromisoformat_date PyRuntime.date_isoformat
              PyRuntime.str_lower 1 Cases.mixed_world w' Cases.mixed_result Hrun)
    as (H1 & H2 & _).
  split; assumption.
Defined.

Lemma validate_invoice_without_lines_witness :
  exists w',
    Demo.validate 1 Cases.empty_world
    = (w', Ok (mkValidationResult 1 needs_review 0 0 0 0 0 None))
    /\ invoice_row 1 w' = Some (set_invoice_status needs_review None Demo.invoice)
    /\ buying_price_records w' = buying_price_records Cases.empty_world.
Proof.
  assert (Hrow : invoice_row 1 Cases.empty_world = Some Demo.invoice)
    by (vm_compute; reflexivity).
  assert (Hl : lines_of 1 Cases.empty_world = []) by (vm_compute; reflexivity).
  destruct (@validate_invoice_without_lines
              PyRuntime.fromisoformat_date PyRuntime.date_isoformat
              PyRuntime.str_lower 1 Cases.empty_world Demo.invoice Hrow Hl)
    as (w' & Hrun & Hrow' & _ & _ & Hpr).
  exists w'. repeat split; assumption.
Defined.

Lemma validate_invoice_without_supplier_witness :
  let n := List.length (lines_of 2 Cases.anonymous_world) in
  exists w',
    Demo.validate 2 Cases.anonymous_world
    = (w', Ok (mkValidationResult 2 needs_review n 0 0 0 n None))
    /\ buying_price_records w' = buying_price_records Cases.anonymous_world.
Proof.
  intros n.
  assert (Hrow : invoice_row 2 Cases.anonymous_world
                 = Some Cases.anonymous_invoice) by (vm_compute; reflexivity).
  assert (Hs : truthy_str (inv_supplier_name Cases.anonymous_invoice) = false)
    by reflexivity.
  assert (Hne : lines_of 2 Cases.anonymous_world <> [])
    by (vm_compute; discriminate).
  destruct (@validate_invoice_without_supplier
              PyRuntime.fromisoformat_date PyRuntime.date_isoformat
              PyRuntime.str_lower 2 Cases.anonymous_world
              Cases.anonymous_invoice Hrow Hs Hne)
    as (w' & Hrun & _ & _ & Hpr).
  exists w'. split; assumption.
Defined.

Lemma reference_record_is_active_and_valid_witness :
  let r := Demo.price 100 "A" 10 (Some "2024-01-01") None in
  In r (buying_price_records Demo.world)
  /\ pr_status r = Some active
  /\ pr_supplier_name r = Some "ACME"
  /\ candidate_valid PyRuntime.fromisoformat_date r Demo.day = Some true.
Proof.
  intros r.
  assert (Hfind : find_reference PyRuntime.fromisoformat_date
                                 PyRuntime.str_lower
                                 (buying_price_records Demo.world)
                                 (Demo.line 10 1 "A" 10) (Some "ACME")
                                 (Some Demo.day)
                  = Some r) by (vm_compute; reflexivity).
  destruct (@reference_record_is_active_and_valid
              PyRuntime.fromisoformat_date PyRuntime.str_lower
              (buying_price_records Demo.world) (Demo.line 10 1 "A" 10)
              (Some "ACME") (Some Demo.day) r Hfind)
    as (H1 & H2 & H3 & _ & H5).
  split; [exact H1|]. split; [exact H2|]. split; [exact H3|].
  exact (H5 Demo.day eq_refl).
Defined.

Lemma learned_price_without_sku_is_duplicated_witness :
  exists w1 w2 id1 id2,
    Demo.validate_line Cases.named_line 1 (Some "ACME") (Some Demo.day)
                       (Some "EUR") Cases.named_world
    = (w1, Ok (mkLineResult created_price_record (Some id1)))
    /\ Demo.validate_line Cases.named_line 1 (Some "ACME") (Some Demo.day)
                          (Some "EUR") w1
       = (w2, Ok (mkLineResult created_price_record (Some id2)))
    /\ id1 <> id2
    /\ List.length (buying_price_records w2) = 2.
Proof.
  assert (Hl : learnable_by_product_name Cases.named_line (Some "ACME")
                                         (Some "EUR"))
    by (repeat split; vm_compute; reflexivity).
  assert (Hfind : _find_buying_price_by_product_name
                    PyRuntime.fromisoformat_date PyRuntime.str_lower
                    (buying_price_records Cases.named_world) (Some "ACME")
                    (line_product_name Cases.named_line) (Some Demo.day)
                  = None) by (vm_compute; reflexivity).
  destruct (@learned_price_without_sku_is_duplicated
              PyRuntime.fromisoformat_date PyRuntime.date_isoformat
              PyRuntime.str_lower Cases.named_line 1 (Some "ACME")
              (Some Demo.day) (Some "EUR") Cases.named_world Hl Hfind)
    as (w1 & w2 & id1 & id2 & H1 & H2 & H3 & H4).
  exists w1, w2, id1, id2. repeat split; try assumption.
  rewrite H4. reflexivity.
Defined.

Lemma dispute_of_unknown_invoice_succeeds_witness :
  exists w' r,
    dispute_invoice 99 "wrong address" None None Demo.world = (w', Ok r)
    /\ dr_status r = disputed
    /\ invoices w' = invoices Demo.world
    /\ List.length (audit_log w') = S (List.length (audit_log Demo.world)).
Proof.
  assert (Hnone : forall i, In i (invoices Demo.world) -> inv_id i <> 99).
  { intros i [<-|[]]. discriminate. }
  destruct (@dispute_of_unknown_invoice_succeeds 99 "wrong address" None None
              Demo.world Hnone)
    as (w' & r & Hrun & _ & Hst & Hinv & _ & (entry & Hau & _) & _).
  exists w', r. repeat split; try assumption.
  rewrite Hau, length_app. cbn. lia.
Defined.

Lemma close_old_price_record_closes_every_open_record_witness :
  let open := filter (is_open_for 9 7) in
  let w' := fst (_close_old_price_record PyRuntime.datetime_isoformat 9 7
                                         Demo.day Cases.two_open_world) in
  map pr_id (open (buying_price_records Cases.two_open_world)) = [200; 201]
  /\ open (buying_price_records w') = []
  /\ map pr_id (buying_price_records w') = [100; 200; 201].
Proof.
  intros open w'. subst open w'.
  remember (fst (_close_old_price_record PyRuntime.datetime_isoformat 9 7
                                         Demo.day Cases.two_open_world))
    as w' eqn:Hw'.
  assert (Hrun : _close_old_price_record PyRuntime.datetime_isoformat 9 7
                                         Demo.day Cases.two_open_world
                 = (w', Ok tt))
    by (subst w'; vm_compute; reflexivity).
  destruct (@close_old_price_record_closes_every_open_record
              PyRuntime.datetime_isoformat 9 7 Demo.day Cases.two_open_world
              w' Hrun) as (Hids & Hopen & _).
  split; [reflexivity|]. split; [exact Hopen|]. rewrite Hids. reflexivity.
Defined.

Lemma replace_invoice_lines_effect_witness :
  let lines := _clean_invoice_lines (fun _ => None) (ex_lines Demo.extracted) in
  let run := _replace_invoice_lines Demo.line_insert_ok 1 lines Demo.world in
  snd run = Ok 1
  /\ filter (fun l => Nat.eqb (line_invoice_id l) 1) (invoice_lines (fst run))
     = inserted_lines Demo.line_insert_ok (uuid_supply Demo.world) 1 lines
  /\ 1 <= List.length lines.
Proof.
  intros lines run. subst run.
  remember (fst (_replace_invoice_lines Demo.line_insert_ok 1 lines Demo.world))
    as w' eqn:Hw'.
  assert (Hsnd : snd (_replace_invoice_lines Demo.line_insert_ok 1 lines
                                             Demo.world) = Ok 1)
    by (vm_compute; reflexivity).
  assert (Hrun : _replace_invoice_lines Demo.line_insert_ok 1 lines Demo.world
                 = (w', Ok 1))
    by (subst w'; vm_compute; reflexivity).
  destruct (@replace_invoice_lines_effect
              (fun _ => None) (fun s => Some s) Demo.line_insert_ok
              "gpt-4o-mini" 1 lines Demo.world w' 1 Hrun)
    as (_ & _ & Hfilter & _ & Hle & _).
  split; [exact Hsnd|]. split; [exact Hfilter | exact Hle].
Defined.

Lemma fetch_emails_returns_unread_with_attachments_witness :
  List.length [Demo.email] <= fetch_limit 5 None
  /\ Forall (fun e =>
               ed_hasAttachments e = Some true
               /\ exists m, In m (mailbox Demo.mail_world)
                            /\ msg_id m = ed_id e
                            /\ msg_isRead m = false
                            /\ msg_hasAttachments m = Some true)
            [Demo.email].
Proof.
  assert (Hrun : fetch_emails 5 None Demo.mail_world
                 = (Demo.mail_world, Ok [Demo.email])) by reflexivity.
  destruct (@fetch_emails_returns_unread_with_attachments
              5 None Demo.mail_world Demo.mail_world [Demo.email] Hrun)
    as (_ & Hlen & Hall).
  split; [exact Hlen | exact Hall].
Defined.

Lemma save_pdf_returns_stored_path_witness :
  let run := save_pdf_to_pdfs_bucket PyRuntime.strftime [] "invoice 7.pdf"
                                     Demo.mail_world in
  snd run = Ok "20240131_000000_000000_invoice_7.pdf"
  /\ map file_name (pdfs_bucket (fst run))
     = ["20240131_000000_000000_invoice_7.pdf"]
  /\ ends_with (String.append "_" (safe_filename "invoice 7.pdf"))
               "20240131_000000_000000_invoice_7.pdf" = true.
Proof.
  intros run. subst run.
  remember (fst (save_pdf_to_pdfs_bucket PyRuntime.strftime [] "invoice 7.pdf"
                                         Demo.mail_world)) as w1 eqn:Hw1.
  assert (Hsnd : snd (save_pdf_to_pdfs_bucket PyRuntime.strftime []
                                              "invoice 7.pdf" Demo.mail_world)
                 = Ok "20240131_000000_000000_invoice_7.pdf")
    by (vm_compute; reflexivity).
  assert (Hrun : save_pdf_to_pdfs_bucket PyRuntime.strftime [] "invoice 7.pdf"
                                         Demo.mail_world
                 = (w1, Ok "20240131_000000_000000_invoice_7.pdf"))
    by (subst w1; vm_compute; reflexivity).
  destruct (@save_pdf_returns_stored_path
              PyRuntime.strftime [] "invoice 7.pdf" Demo.mail_world w1
              "20240131_000000_000000_invoice_7.pdf" Hrun)
    as (Hends & _ & _).
  split; [exact Hsnd|]. split; [subst w1; vm_compute; reflexivity | exact Hends].
Defined.

Lemma poll_counts_add_up_witness :
  let run := poll_and_process_emails PyRuntime.str_lower PyRuntime.strftime
                                     5 10%Z Demo.mail_world in
  snd run = Ok (mkPollResult 1 1 0 1%Z)
  /\ List.length (invoices Demo.mail_world) + 1
     <= List.length (invoices (fst run))
  /\ invoice_lines (fst run) = invoice_lines Demo.mail_world.
Proof.
  intros run. subst run.
  remember (fst (poll_and_process_emails PyRuntime.str_lower PyRuntime.strftime
                                         5 10%Z Demo.mail_world)) as w' eqn:Hw'.
  assert (Hsnd : snd (poll_and_process_emails PyRuntime.str_lower
                        PyRuntime.strftime 5 10%Z Demo.mail_world)
                 = Ok (mkPollResult 1 1 0 1%Z))
    by (vm_compute; reflexivity).
  assert (Hrun : poll_and_process_emails PyRuntime.str_lower PyRuntime.strftime
                                         5 10%Z Demo.mail_world
                 = (w', Ok (mkPollResult 1 1 0 1%Z)))
    by (subst w'; vm_compute; reflexivity).
  destruct (@poll_counts_add_up
              PyRuntime.str_lower PyRuntime.strftime 5 10%Z Demo.mail_world w'
              (mkPollResult 1 1 0 1%Z) Hrun)
    as (_ & _ & Hinv & _ & Hl & _).
  split; [exact Hsnd|]. split; [exact Hinv | exact Hl].
Defined.

Lemma process_email_twice_ingests_once_witness :
  let w1 := fst (Demo.process_email Demo.email Demo.mail_world) in
  Demo.process_email Demo.email w1 = (w1, Ok false)
  /\ List.length (invoices w1) = 1.
Proof.
  intros w1. subst w1.
  remember (fst (Demo.process_email Demo.email Demo.mail_world)) as w1 eqn:Hw1.
  assert (Hrun : process_email PyRuntime.str_lower PyRuntime.strftime 10%Z
                               Demo.email Demo.mail_world
                 = (w1, Ok true))
    by (subst w1; vm_compute; reflexivity).
  destruct (@process_email_twice_ingests_once
              PyRuntime.str_lower PyRuntime.strftime 10%Z Demo.email
              Demo.mail_world w1 Hrun) as [H1 H2].
  split; assumption.
Defined.

Lemma oversize_pdf_is_stored_but_not_ingested_witness :
  exists w',
    Cases.process_email_no_room Demo.email Demo.mail_world = (w', Ok false)
    /\ invoices w' = invoices Demo.mail_world
    /\ List.length (pdfs_bucket w') = 1.
Proof.
  destruct (@oversize_pdf_is_stored_but_not_ingested
              PyRuntime.str_lower PyRuntime.strftime 0%Z Demo.email
              Demo.mail_world Demo.message Cases.attachment [] 2048%Z
              eq_refl eq_refl eq_refl eq_refl eq_refl)
    as (w' & Hrun & Hinv & _ & Hgrown).
  exists w'. split; [exact Hrun|]. split; [exact Hinv|].
  apply Hgrown. reflexivity.
Defined.

Lemma validation_phase_terminates_witness :
  exists w' total,
    drain 2 Cases.validation_batch 0 Demo.world = (w', Ok (Some total))
    /\ count_invoices parsed (invoices w') + total = 1.
Proof.
  assert (Hnd : NoDup (map inv_id (invoices Demo.world))).
  { repeat constructor. intros []. }
  destruct (@validation_phase_terminates
              PyRuntime.fromisoformat_date PyRuntime.date_isoformat
              PyRuntime.str_lower 5 Demo.world Hnd)
    as (_ & w' & total & Hdrain & Hcount).
  exists w', total. split; [exact Hdrain | exact Hcount].
Defined.

Lemma parsing_phase_stalls_without_lines_witness :
  exists w',
    drain 3 Cases.parse_batch 0 Demo.received_world = (w', Ok None)
    /\ map inv_status (invoices w') = [received].
Proof.
  assert (Hempty : extracts_no_lines Cases.extract_nothing).
  { intros invoice. eexists. split; reflexivity. }
  assert (Hmax : 0 < 5) by lia.
  assert (Hpos : 0 < count_invoices received (invoices Demo.received_world))
    by (cbn; lia).
  destruct (@parsing_phase_stalls_without_lines
              (fun _ => None) (fun s => Some s) Cases.extract_nothing
              (fun _ _ => true) (fun _ => true) "gpt-4o" 5
              Demo.received_world Hempty Hmax Hpos) as (_ & Hstall).
  destruct (Hstall 3) as (w' & Hdrain & Hst).
  exists w'. split; [exact Hdrain | exact Hst].
Defined.

Lemma status_endpoint_after_validation_witness :
  get_validation_status 1 (fst (Demo.validate 1 Cases.mixed_world))
  = HTTP_OK (mkStatusSummary 1 needs_review 3 1 1)
  /\ vr_no_match_count Cases.mixed_result = 1.
Proof.
  remember (fst (Demo.validate 1 Cases.mixed_world)) as w' eqn:Hw'.
  assert (Hnd : NoDup (map line_id (invoice_lines Cases.mixed_world))).
  { repeat constructor; cbn; intros H; repeat destruct H as [H|H];
      try discriminate; contradiction. }
  assert (Hrun : validate_invoice PyRuntime.fromisoformat_date
                                  PyRuntime.date_isoformat PyRuntime.str_lower
                                  1 Cases.mixed_world
                 = (w', Ok Cases.mixed_result))
    by (subst w'; vm_compute; reflexivity).
  destruct (@status_endpoint_after_validation
              PyRuntime.fromisoformat_date PyRuntime.date_isoformat
              PyRuntime.str_lower 1 Cases.mixed_world w' Cases.mixed_result
              Hnd Hrun) as [H _].
  split; [exact H | reflexivity].
Defined.
